(** * Canada Spends dashboard builder: the group/series aggregation engine

    A shallow embedding of the aggregation code of [src/build_dashboards.py]
    and of its older duplicate in [update_data.py]: [extract_year],
    [to_number], [row_matches_filter] / [row_matches_mapping] and
    [aggregate_data], together with the Python built-ins they call.

    Conventions of the embedding.
    - A Python [str] is a [string] of 7-bit characters.
    - A Python [float] is a binary64 value of [SpecFloat.spec_float];
      additions are [SFadd 53 1024], comparisons are made on exact values.
    - A raised exception is the [Raise] case of [result].
    - A [dict] is the list of its items in insertion order, a [set] is the
      list of its elements without repetition; a key is found as Python
      finds it, by [a is b or a == b].  Identity decides for a NaN only, the
      one value that is not [==] to itself, so a NaN object carries its
      identity and every other value is known by its value alone.
    - The order in which a [set] is iterated and the text of [str(x)] for a
      float [x] are left to the interpreter: both are parameters.
    - [sorted] is a stable sort that uses [<] only.  Where [<] orders the
      keys the result is the same for every such sort; statements about
      the order of a sorted list are made for such keys only (no NaN among
      them). *)

From Stdlib Require Import ZArith QArith Bool List String Ascii Lia.
From Stdlib Require Import Permutation Sorted.
From Stdlib Require Import SpecFloat.
From Stdlib Require DecimalString.
Import ListNotations.

Local Close Scope Q_scope.
Local Open Scope string_scope.
Local Open Scope list_scope.
Local Open Scope Z_scope.

(** ** Exceptions *)

Inductive exn : Set := ValueError | TypeError | OverflowError | AttributeError.

Inductive result (A : Type) : Type :=
| Ok (a : A)
| Raise (e : exn).

Arguments Ok {A} a.
Arguments Raise {A} e.

Definition bind {A B : Type} (r : result A) (k : A -> result B) : result B :=
  match r with
  | Ok a => k a
  | Raise e => Raise e
  end.

Notation "x <- r ;; k" := (bind r (fun x => k))
  (at level 61, r at next level, right associativity).

Definition is_ok {A : Type} (r : result A) : bool :=
  match r with Ok _ => true | Raise _ => false end.

(** [mapM f l] evaluates [f] on the elements of [l] from left to right and
    stops at the first exception, as a list comprehension or the key pass of
    [sorted] does. *)
Fixpoint mapM {A B : Type} (f : A -> result B) (l : list A) : result (list B) :=
  match l with
  | [] => Ok []
  | x :: l' => y <- f x ;; ys <- mapM f l' ;; Ok (y :: ys)
  end.

(** ** Strings *)

Module PyStr.

Definition code (c : ascii) : nat := nat_of_ascii c.

Definition is_digit (c : ascii) : bool :=
  (48 <=? code c)%nat && (code c <=? 57)%nat.

Definition digit_val (c : ascii) : Z := Z.of_nat (code c) - 48.

(** [str.isspace] on 7-bit characters: TAB..CR, FS..US and the space. *)
Definition is_space (c : ascii) : bool :=
  ((9 <=? code c)%nat && (code c <=? 13)%nat)
  || ((28 <=? code c)%nat && (code c <=? 32)%nat).

(** The narrower class that [float()] and [int()] skip around a literal. *)
Definition is_space_num (c : ascii) : bool :=
  ((9 <=? code c)%nat && (code c <=? 13)%nat) || (code c =? 32)%nat.

Definition is_empty (s : string) : bool :=
  match s with EmptyString => true | String _ _ => false end.

Fixpoint lstrip_with (sp : ascii -> bool) (s : string) : string :=
  match s with
  | EmptyString => EmptyString
  | String c s' => if sp c then lstrip_with sp s' else s
  end.

Fixpoint rstrip_with (sp : ascii -> bool) (s : string) : string :=
  match s with
  | EmptyString => EmptyString
  | String c s' =>
      let r := rstrip_with sp s' in
      if is_empty r && sp c then EmptyString else String c r
  end.

Definition strip_with (sp : ascii -> bool) (s : string) : string :=
  rstrip_with sp (lstrip_with sp s).

(** [s.strip()] *)
Definition strip (s : string) : string := strip_with is_space s.

(** [s.replace(c, '')] for a one-character [c] *)
Fixpoint remove_char (c : ascii) (s : string) : string :=
  match s with
  | EmptyString => EmptyString
  | String d s' =>
      if Ascii.eqb d c then remove_char c s' else String d (remove_char c s')
  end.

Definition lower_char (c : ascii) : ascii :=
  if ((65 <=? code c)%nat && (code c <=? 90)%nat)%bool
  then ascii_of_nat (code c + 32) else c.

(** [s.lower()] *)
Fixpoint lower (s : string) : string :=
  match s with
  | EmptyString => EmptyString
  | String c s' => String (lower_char c) (lower s')
  end.

Fixpoint starts_with (p s : string) : bool :=
  match p, s with
  | EmptyString, _ => true
  | String _ _, EmptyString => false
  | String a p', String b s' => Ascii.eqb a b && starts_with p' s'
  end.

(** [needle in hay] on strings *)
Fixpoint contains (needle hay : string) : bool :=
  starts_with needle hay
  || match hay with
     | EmptyString => false
     | String _ hay' => contains needle hay'
     end.

(** [a < b] on strings: lexicographic on character codes *)
Definition ltb (a b : string) : bool := String.ltb a b.

(** [str(z)] for an integer *)
Definition of_Z (z : Z) : string :=
  DecimalString.NilZero.string_of_int (Z.to_int z).

End PyStr.

(** ** Floats and integers *)

Module PyNum.

Definition float : Set := spec_float.

Definition prec : Z := 53.
Definition emax : Z := 1024.

Definition fzero : float := S754_zero false.

(** [x + y] on floats *)
Definition fadd (x y : float) : float := SFadd prec emax x y.

(** [-x] on floats *)
Definition fneg (x : float) : float := SFopp x.

(** [float(z)] for an integer: round to nearest even, [OverflowError] when
    the integer is beyond the finite floats. *)
Definition float_of_Z (z : Z) : result float :=
  match binary_normalize prec emax z 0 false with
  | S754_infinity _ => Raise OverflowError
  | f => Ok f
  end.

(** Exact values, on which Python compares numbers of either type. *)
Inductive xreal : Set :=
| XNan
| XInf (neg : bool)
| XFin (q : Q).

Definition dyadic (m e : Z) : Q :=
  if 0 <=? e then inject_Z (m * 2 ^ e) else Qmake m (Z.to_pos (2 ^ (- e))).

Definition exact (f : float) : xreal :=
  match f with
  | S754_nan => XNan
  | S754_infinity s => XInf s
  | S754_zero _ => XFin (inject_Z 0)
  | S754_finite s m e => XFin (dyadic (cond_Zopp s (Zpos m)) e)
  end.

Definition xcompare (a b : xreal) : option comparison :=
  match a, b with
  | XNan, _ | _, XNan => None
  | XInf s1, XInf s2 =>
      Some (match s1, s2 with
            | true, false => Lt
            | false, true => Gt
            | _, _ => Eq
            end)
  | XInf s, XFin _ => Some (if s then Lt else Gt)
  | XFin _, XInf s => Some (if s then Gt else Lt)
  | XFin p, XFin q => Some (Qcompare p q)
  end.

(** [int(x)] for a float: truncation towards zero *)
Definition Z_of_float (f : float) : result Z :=
  match exact f with
  | XNan => Raise ValueError
  | XInf _ => Raise OverflowError
  | XFin q => Ok (Z.quot (Qnum q) (Zpos (Qden q)))
  end.

(** *** Literals *)

Import PyStr.

(** [digit ("_"? digit)*], continuing a run that has already started;
    [acc] is the value read so far and [n] the number of digits. *)
Fixpoint digitpart_tail (s : string) (acc : Z) (n : nat) : Z * nat * string :=
  match s with
  | EmptyString => (acc, n, s)
  | String c s' =>
      if is_digit c then digitpart_tail s' (10 * acc + digit_val c) (S n)
      else if Ascii.eqb c "_" then
        match s' with
        | String d s'' =>
            if is_digit d
            then digitpart_tail s'' (10 * acc + digit_val d) (S n)
            else (acc, n, s)
        | EmptyString => (acc, n, s)
        end
      else (acc, n, s)
  end.

Definition digitpart (s : string) (acc : Z) (n : nat)
  : option (Z * nat * string) :=
  match s with
  | String c s' =>
      if is_digit c
      then Some (digitpart_tail s' (10 * acc + digit_val c) (S n))
      else None
  | EmptyString => None
  end.

Definition split_sign (s : string) : bool * string :=
  match s with
  | String c r =>
      if Ascii.eqb c "-" then (true, r)
      else if Ascii.eqb c "+" then (false, r)
      else (false, s)
  | EmptyString => (false, s)
  end.

(** [int(s)] for a string, base 10 *)
Definition Z_of_string (s : string) : result Z :=
  let (neg, body) := split_sign (strip_with is_space_num s) in
  match digitpart body 0 0 with
  | Some (v, _, EmptyString) => Ok (if neg then - v else v)
  | _ => Raise ValueError
  end.

Definition parse_exponent (s : string) : option Z :=
  let (neg, r) := split_sign s in
  match digitpart r 0 0 with
  | Some (v, _, EmptyString) => Some (if neg then - v else v)
  | _ => None
  end.

(** What may follow the digits of the mantissa: nothing, or an exponent. *)
Definition parse_tail (m : Z) (nfrac : nat) (s : string) : option (Z * Z) :=
  match s with
  | EmptyString => Some (m, - Z.of_nat nfrac)
  | String c r =>
      if Ascii.eqb c "e" || Ascii.eqb c "E" then
        match parse_exponent r with
        | Some e => Some (m, e - Z.of_nat nfrac)
        | None => None
        end
      else None
  end.

(** An unsigned decimal literal, as the pair [(m, e)] standing for
    [m * 10^e]. *)
Definition parse_decimal (s : string) : option (Z * Z) :=
  match digitpart s 0 0 with
  | Some (m, _, rest) =>
      match rest with
      | String c r =>
          if Ascii.eqb c "." then
            match digitpart r m 0 with
            | Some (m', nf, rest') => parse_tail m' nf rest'
            | None => parse_tail m 0 r
            end
          else parse_tail m 0 rest
      | EmptyString => parse_tail m 0 rest
      end
  | None =>
      match s with
      | String c r =>
          if Ascii.eqb c "." then
            match digitpart r 0 0 with
            | Some (m', nf, rest') => parse_tail m' nf rest'
            | None => None
            end
          else None
      | EmptyString => None
      end
  end.

(** The float nearest to [n / d] (ties to even). *)
Definition round_ratio (neg : bool) (n d : positive) : float :=
  let s := Z.max 0 (64 + Z.log2 (Zpos d) - Z.log2 (Zpos n)) in
  let num := Zpos n * 2 ^ s in
  let q := num / Zpos d in
  let r := num mod Zpos d in
  let loc := if r =? 0 then loc_Exact else loc_Inexact (2 * r ?= Zpos d) in
  binary_round_aux prec emax neg q (- s) loc.

(** The float nearest to [m * 10^e]. *)
Definition float_of_decimal (neg : bool) (m e : Z) : float :=
  match m with
  | Z0 => S754_zero neg
  | Zpos p =>
      if 0 <=? e
      then binary_normalize prec emax (cond_Zopp neg (Zpos p * 10 ^ e)) 0 false
      else round_ratio neg p (Z.to_pos (10 ^ (- e)))
  | Zneg _ => S754_nan
  end.

(** [float(s)] for a string *)
Definition float_of_string (s : string) : result float :=
  let (neg, body) := split_sign (strip_with is_space_num s) in
  let l := lower body in
  if String.eqb l "inf" || String.eqb l "infinity" then Ok (S754_infinity neg)
  else if String.eqb l "nan" then Ok S754_nan
  else match parse_decimal body with
       | Some (m, e) => Ok (float_of_decimal neg m e)
       | None => Raise ValueError
       end.

End PyNum.

(** ** Values, dictionaries, sets, sorting *)

Module Py.

Import PyNum.

(** An [int], a [float], or the float NaN as the object of identity [id]:
    [NNan id] and [NNan id'] are the same object when [id = id'], and
    [NFloat S754_nan] is one more NaN object.  A NaN object behaves as the
    float NaN everywhere; its identity matters where it is used as a key. *)
Inductive number : Set :=
| NInt (z : Z)
| NFloat (f : float)
| NNan (id : positive).

(** The scalars a record can hold: [None], a string or a number. *)
Inductive scalar : Set :=
| SNone
| SStr (s : string)
| SNum (n : number).

Definition num_exact (n : number) : xreal :=
  match n with
  | NInt z => XFin (inject_Z z)
  | NFloat f => exact f
  | NNan _ => XNan
  end.

Definition num_compare (a b : number) : option comparison :=
  xcompare (num_exact a) (num_exact b).

(** [a == b], [a < b] and [a >= b] on numbers *)
Definition num_eqb (a b : number) : bool :=
  match num_compare a b with Some Eq => true | _ => false end.

Definition num_ltb (a b : number) : bool :=
  match num_compare a b with Some Lt => true | _ => false end.

Definition num_geb (a b : number) : bool :=
  match num_compare a b with Some (Gt | Eq) => true | _ => false end.

Definition float_ltb (a b : float) : bool := num_ltb (NFloat a) (NFloat b).

(** [a == b] *)
Definition py_eqb (a b : scalar) : bool :=
  match a, b with
  | SNone, SNone => true
  | SStr s, SStr t => String.eqb s t
  | SNum m, SNum n => num_eqb m n
  | _, _ => false
  end.

(** [a is b] on the NaN objects, which [==] does not find again. *)
Definition same_nan (a b : scalar) : bool :=
  match a, b with
  | SNum (NNan i), SNum (NNan j) => Pos.eqb i j
  | SNum (NFloat S754_nan), SNum (NFloat S754_nan) => true
  | _, _ => false
  end.

(** The key test of [dict] and [set]: [a is b or a == b]. *)
Definition key_eqb (a b : scalar) : bool := same_nan a b || py_eqb a b.

(** [bool(x)] *)
Definition truthy (x : scalar) : bool :=
  match x with
  | SNone => false
  | SStr s => negb (PyStr.is_empty s)
  | SNum n => negb (num_eqb n (NInt 0))
  end.

(** [a < b]: a string and a number, or [None], do not compare. *)
Definition py_lt (a b : scalar) : result bool :=
  match a, b with
  | SStr s, SStr t => Ok (PyStr.ltb s t)
  | SNum m, SNum n => Ok (num_ltb m n)
  | _, _ => Raise TypeError
  end.

(** [int(x)] *)
Definition py_int (x : scalar) : result Z :=
  match x with
  | SNone => Raise TypeError
  | SStr s => Z_of_string s
  | SNum (NInt z) => Ok z
  | SNum (NFloat f) => Z_of_float f
  | SNum (NNan _) => Z_of_float S754_nan
  end.

(** [str(x)]; the text of a float is the interpreter's. *)
Definition py_str (float_repr : float -> string) (x : scalar) : string :=
  match x with
  | SNone => "None"
  | SStr s => s
  | SNum (NInt z) => PyStr.of_Z z
  | SNum (NFloat f) => float_repr f
  | SNum (NNan _) => float_repr S754_nan
  end.

(** *** Dictionaries and sets keyed by scalars *)

Definition dict (V : Type) : Type := list (scalar * V).

Fixpoint dict_get {V : Type} (d : dict V) (k : scalar) : option V :=
  match d with
  | [] => None
  | (k', v) :: d' => if key_eqb k' k then Some v else dict_get d' k
  end.

(** [d[k]] on a [defaultdict] whose factory yields [dflt] *)
Definition dict_item {V : Type} (d : dict V) (k : scalar) (dflt : V) : V :=
  match dict_get d k with
  | Some v => v
  | None => dflt
  end.

(** [d[k] = f(d[k])] on a [defaultdict] whose factory yields [dflt] *)
Fixpoint dict_update {V : Type} (d : dict V) (k : scalar) (dflt : V)
  (f : V -> V) : dict V :=
  match d with
  | [] => [(k, f dflt)]
  | (k', v) :: d' =>
      if key_eqb k' k then (k', f v) :: d'
      else (k', v) :: dict_update d' k dflt f
  end.

Definition set_mem (s : list scalar) (x : scalar) : bool :=
  existsb (fun y => key_eqb y x) s.

(** [s.add(x)] *)
Definition set_add (s : list scalar) (x : scalar) : list scalar :=
  if set_mem s x then s else s ++ [x].

(** *** [sorted] and slices *)

Section Sorting.
Context {A : Type}.

(** Stable insertion with the test [<] only, as [sorted] uses it. *)
Fixpoint insert_by (lt : A -> A -> bool) (x : A) (l : list A) : list A :=
  match l with
  | [] => [x]
  | y :: l' => if lt y x then y :: insert_by lt x l' else x :: l
  end.

Fixpoint sort_by (lt : A -> A -> bool) (l : list A) : list A :=
  match l with
  | [] => []
  | x :: l' => insert_by lt x (sort_by lt l')
  end.

(** [sorted(l, key=key)], the keys being compared with [ltk] *)
Definition sorted_key {K : Type} (ltk : K -> K -> bool) (key : A -> K)
  (l : list A) : list A :=
  sort_by (fun a b => ltk (key a) (key b)) l.

(** The same where the comparison can raise. *)
Fixpoint insert_r (lt : A -> A -> result bool) (x : A) (l : list A)
  : result (list A) :=
  match l with
  | [] => Ok [x]
  | y :: l' =>
      b <- lt y x ;;
      if b then (r <- insert_r lt x l' ;; Ok (y :: r)) else Ok (x :: l)
  end.

Fixpoint sort_r (lt : A -> A -> result bool) (l : list A)
  : result (list A) :=
  match l with
  | [] => Ok []
  | x :: l' => s <- sort_r lt l' ;; insert_r lt x s
  end.

(** [l[:n]] *)
Definition slice_to (l : list A) (n : Z) : list A :=
  if 0 <=? n then firstn (Z.to_nat n) l
  else firstn (List.length l - Z.to_nat (- n)) l.
End Sorting.

(** [sorted(l)] on scalars *)
Definition sorted (l : list scalar) : result (list scalar) := sort_r py_lt l.

End Py.

(** ** The data model *)

Import PyNum Py.

(** A record: the items of a [dict] with string keys. *)
Definition row : Set := list (string * scalar).

(** [row.get(k, dflt)] *)
Fixpoint row_get (r : row) (k : string) (dflt : scalar) : scalar :=
  match r with
  | [] => dflt
  | (k', v) :: r' => if String.eqb k' k then v else row_get r' k dflt
  end.


(** The [filter] entry of a dashboard configuration; an absent key is
    [None]. *)
Record filter_config : Set := {
  flt_field : option string;
  flt_include : option (list string);
  flt_contains : option (list string)
}.

(** The mapping document of [update_data.py]. *)
Record mapping_config : Set := {
  map_field : option string;
  map_include : option (list string);
  map_includeContains : option (list string)
}.

(** A dashboard configuration, after the defaults of [config.get]. *)
Record config : Set := {
  groupBy : string;
  seriesBy : string;
  valueField : string;
  extractYear : bool;
  minSeriesTotal : number;
  maxSeries : Z;
  topSeriesPerGroup : bool;
  filterSpec : option filter_config
}.

(** The configuration with every key absent. *)
Definition default_config : config := {|
  groupBy := "";
  seriesBy := "";
  valueField := "";
  extractYear := false;
  minSeriesTotal := NInt 0;
  maxSeries := 10;
  topSeriesPerGroup := false;
  filterSpec := None
|}.

(** The accumulators of the aggregation loop. *)
Record agg_state : Type := {
  totals : dict (dict float);
  series_totals : dict float;
  groups_set : list scalar;
  series_set : list scalar;
  skipped_rows : nat
}.

Definition init_state : agg_state := {|
  totals := [];
  series_totals := [];
  groups_set := [];
  series_set := [];
  skipped_rows := 0%nat
|}.

(** The returned structure: [groups], [series] and, per group, the items of
    its [series] dictionary. *)
Record aggregated : Set := {
  groups : list scalar;
  series : list scalar;
  data : list (scalar * list (scalar * number))
}.

(** ** [src/build_dashboards.py] *)

Module BuildDashboards.

Import PyStr.

Section Interpreter.
(** [str(x)] on floats and the iteration order of a set. *)
Variable float_repr : float -> string.
Variable set_iter : list scalar -> list scalar.

(** The pattern [(19\d{2}|20\d{2})] matched at the start of [s]. *)
Definition match_year (s : string) : bool :=
  match s with
  | String a (String b (String c (String d _))) =>
      ((Ascii.eqb a "1" && Ascii.eqb b "9")
       || (Ascii.eqb a "2" && Ascii.eqb b "0"))
      && is_digit c && is_digit d
  | _ => false
  end.

(** The first 4 characters. *)
Definition take4 (s : string) : string :=
  match s with
  | String a (String b (String c (String d _))) =>
      String a (String b (String c (String d EmptyString)))
  | _ => s
  end.

(** [re.search(r'(19\d{2}|20\d{2})', s)], giving [match.group(1)] *)
Fixpoint re_search_year (s : string) : option string :=
  match s with
  | EmptyString => None
  | String _ s' =>
      if match_year s then Some (take4 s) else re_search_year s'
  end.

(** [extract_year]: "Extract 4-digit year from a value like '202312' or
    '2023-2024'.  Returns None for invalid/unparseable values to allow
    filtering." *)
Definition extract_year (value : scalar) : option string :=
  if negb (truthy value) then None
  else
    let value_str := strip (py_str float_repr value) in
    match re_search_year value_str with
    | Some y => Some y
    | None => None
    end.

(** [to_number]: "Convert a value to a number, handling currency
    formatting." *)
Definition to_number (value : scalar) : result float :=
  match value with
  | SNum (NInt z) => float_of_Z z
  | SNum (NFloat f) => Ok f
  | SNum (NNan _) => Ok S754_nan
  | _ =>
      if negb (truthy value) then Ok fzero
      else
        let cleaned :=
          remove_char " "
            (remove_char "," (remove_char "$" (py_str float_repr value))) in
        match float_of_string cleaned with
        | Ok f => Ok f
        | Raise ValueError => Ok fzero
        | Raise e => Raise e
        end
  end.

(** [not filter_config] for a dictionary: no key at all *)
Definition filter_is_empty (fc : filter_config) : bool :=
  match flt_field fc, flt_include fc, flt_contains fc with
  | None, None, None => true
  | _, _, _ => false
  end.

(** [row_matches_filter]: "Check if a row matches the filter criteria." *)
Definition row_matches_filter (r : row) (filter_config : option filter_config)
  : bool :=
  match filter_config with
  | None => true
  | Some fc =>
      if filter_is_empty fc then true
      else
        let field := match flt_field fc with Some f => f | None => "" end in
        let value :=
          let v := row_get r field (SStr "") in
          if truthy v then v else SStr "" in
        if match flt_include fc with
           | Some incl => negb (existsb (fun x => py_eqb (SStr x) value) incl)
           | None => false
           end
        then false
        else if match flt_contains fc with
                | Some items =>
                    negb (existsb
                            (fun item =>
                               contains (lower item)
                                 (lower (py_str float_repr value)))
                            items)
                | None => false
                end
        then false
        else true
  end.

(** The series key of a row: [row.get(series_by, 'Total') if series_by
    else 'Total']. *)
Definition series_value_of (cfg : config) (r : row) : scalar :=
  if negb (is_empty (seriesBy cfg))
  then row_get r (seriesBy cfg) (SStr "Total")
  else SStr "Total".

(** The four updates at the end of the loop body. *)
Definition record_value (st : agg_state) (group_value series_value : scalar)
  (value : float) : agg_state := {|
  totals :=
    dict_update (totals st) group_value []
      (fun group_map =>
         dict_update group_map series_value fzero (fun t => fadd t value));
  series_totals :=
    dict_update (series_totals st) series_value fzero
      (fun t => fadd t value);
  groups_set := set_add (groups_set st) group_value;
  series_set := set_add (series_set st) series_value;
  skipped_rows := skipped_rows st
|}.

(** [skipped_rows += 1] *)
Definition skip_row (st : agg_state) : agg_state := {|
  totals := totals st;
  series_totals := series_totals st;
  groups_set := groups_set st;
  series_set := series_set st;
  skipped_rows := S (skipped_rows st)
|}.

(** One iteration of [for row in rows]. *)
Definition loop_body (cfg : config) (st : agg_state) (r : row)
  : result agg_state :=
  if negb (row_matches_filter r (filterSpec cfg)) then Ok st
  else
    let group_value := row_get r (groupBy cfg) (SStr "") in
    match (if extractYear cfg
           then match extract_year group_value with
                | Some y => Some (SStr y)
                | None => None
                end
           else Some group_value) with
    | None => Ok (skip_row st)
    | Some group_value =>
        let series_value := series_value_of cfg r in
        value <- to_number (row_get r (valueField cfg) (SNum (NInt 0))) ;;
        if negb (truthy group_value) then Ok st
        else Ok (record_value st group_value series_value value)
    end.

Fixpoint for_rows (cfg : config) (st : agg_state) (rows : list row)
  : result agg_state :=
  match rows with
  | [] => Ok st
  | r :: rows' => st' <- loop_body cfg st r ;; for_rows cfg st' rows'
  end.

(** [sorted(group_map.items(), key=lambda x: -x[1])[:max_series]] *)
Definition ranked (max_series : Z) (group_map : dict float)
  : list (scalar * float) :=
  slice_to (sorted_key float_ltb (fun x => fneg (snd x)) group_map)
    max_series.

(** Get top N series per group: the set [top_series] after the loop over
    [totals.values()]. *)
Definition top_series_of (max_series : Z) (tot : dict (dict float))
  : list scalar :=
  fold_left
    (fun top_series group_map =>
       fold_left (fun ts x => set_add ts (fst x))
         (ranked max_series group_map) top_series)
    (map snd tot) [].

(** Determine which series to include. *)
Definition select_series (cfg : config) (st : agg_state) : list scalar :=
  let by_total :=
    sorted_key float_ltb
      (fun s => fneg (dict_item (series_totals st) s fzero)) in
  if topSeriesPerGroup cfg && negb (maxSeries cfg =? 0) then
    by_total (set_iter (top_series_of (maxSeries cfg) (totals st)))
  else
    let series_list :=
      List.filter
        (fun s =>
           num_geb (NFloat (dict_item (series_totals st) s fzero))
             (minSeriesTotal cfg))
        (set_iter (series_set st)) in
    slice_to (by_total series_list) (maxSeries cfg).

(** Sort groups (numeric if possible). *)
Definition sort_groups (gs : list scalar) : result (list scalar) :=
  match mapM (fun x => k <- py_int x ;; Ok (k, x)) (set_iter gs) with
  | Ok keyed => Ok (map snd (sorted_key Z.ltb fst keyed))
  | Raise ValueError => sorted (set_iter gs)
  | Raise e => Raise e
  end.

(** Build output data. *)
Definition build_data (st : agg_state) (gs series_list : list scalar)
  : list (scalar * list (scalar * number)) :=
  map (fun group =>
         (group,
          map (fun s =>
                 (s,
                  match dict_get (dict_item (totals st) group []) s with
                  | Some v => NFloat v
                  | None => NInt 0
                  end))
            series_list))
    gs.

(** The part of [aggregate_data] after the loop. *)
Definition finish (cfg : config) (st : agg_state) : result aggregated :=
  let series_list := select_series cfg st in
  gs <- sort_groups (groups_set st) ;;
  Ok {| groups := gs;
        series := series_list;
        data := build_data st gs series_list |}.

(** [aggregate_data]: "Aggregate rows according to dashboard config." *)
Definition aggregate_data (rows : list row) (cfg : config)
  : result aggregated :=
  st <- for_rows cfg init_state rows ;;
  finish cfg st.

End Interpreter.

End BuildDashboards.

(** ** [update_data.py] *)

Module UpdateData.

Import PyStr.

Section Interpreter.
Variable float_repr : float -> string.
Variable set_iter : list scalar -> list scalar.

(** The pattern [(\d{4})] matched at the start of [s]. *)
Definition match_4digits (s : string) : bool :=
  match s with
  | String a (String b (String c (String d _))) =>
      is_digit a && is_digit b && is_digit c && is_digit d
  | _ => false
  end.

(** [re.search(r'(\d{4})', s)], giving [match.group(1)] *)
Fixpoint re_search_4digits (s : string) : option string :=
  match s with
  | EmptyString => None
  | String _ s' =>
      if match_4digits s then Some (BuildDashboards.take4 s)
      else re_search_4digits s'
  end.

(** [extract_year]: "Extract 4-digit year from a value like '202312' or
    '2023-2024'." *)
Definition extract_year (value : scalar) : string :=
  if negb (truthy value) then "Unknown"
  else
    match re_search_4digits (py_str float_repr value) with
    | Some y => y
    | None => strip (py_str float_repr value)
    end.

Definition to_number (value : scalar) : result float :=
  match value with
  | SNum (NInt z) => float_of_Z z
  | SNum (NFloat f) => Ok f
  | SNum (NNan _) => Ok S754_nan
  | _ =>
      if negb (truthy value) then Ok fzero
      else
        let cleaned :=
          remove_char " "
            (remove_char "," (remove_char "$" (py_str float_repr value))) in
        match float_of_string cleaned with
        | Ok f => Ok f
        | Raise ValueError => Ok fzero
        | Raise e => Raise e
        end
  end.

Definition mapping_is_empty (m : mapping_config) : bool :=
  match map_field m, map_include m, map_includeContains m with
  | None, None, None => true
  | _, _, _ => false
  end.

(** [value.lower()]: only a string has the method. *)
Definition lower_method (value : scalar) : result string :=
  match value with
  | SStr s => Ok (lower s)
  | _ => Raise AttributeError
  end.

(** [any(item.lower() in value.lower() for item in items)] *)
Fixpoint any_contains (value : scalar) (items : list string) : result bool :=
  match items with
  | [] => Ok false
  | item :: items' =>
      v <- lower_method value ;;
      if contains (lower item) v then Ok true
      else any_contains value items'
  end.

(** [row_matches_mapping]: "Check if a row matches the mapping filter." *)
Definition row_matches_mapping (r : row) (mapping : option mapping_config)
  : result bool :=
  match mapping with
  | None => Ok true
  | Some m =>
      if mapping_is_empty m then Ok true
      else
        let field := match map_field m with Some f => f | None => "" end in
        let value :=
          let v := row_get r field (SStr "") in
          if truthy v then v else SStr "" in
        if match map_include m with
           | Some incl => negb (existsb (fun x => py_eqb (SStr x) value) incl)
           | None => false
           end
        then Ok false
        else
          match map_includeContains m with
          | Some items =>
              matched <- any_contains value items ;;
              if negb matched then Ok false else Ok true
          | None => Ok true
          end
  end.

Definition series_value_of (cfg : config) (r : row) : scalar :=
  if negb (is_empty (seriesBy cfg))
  then row_get r (seriesBy cfg) (SStr "Total")
  else SStr "Total".

Definition record_value (st : agg_state) (group_value series_value : scalar)
  (value : float) : agg_state := {|
  totals :=
    dict_update (totals st) group_value []
      (fun group_map =>
         dict_update group_map series_value fzero (fun t => fadd t value));
  series_totals :=
    dict_update (series_totals st) series_value fzero
      (fun t => fadd t value);
  groups_set := set_add (groups_set st) group_value;
  series_set := set_add (series_set st) series_value;
  skipped_rows := skipped_rows st
|}.

(** One iteration of [for row in rows]. *)
Definition loop_body (cfg : config) (mapping : option mapping_config)
  (st : agg_state) (r : row) : result agg_state :=
  matches <- row_matches_mapping r mapping ;;
  if negb matches then Ok st
  else
    let group_value := row_get r (groupBy cfg) (SStr "") in
    let group_value :=
      if extractYear cfg then SStr (extract_year group_value)
      else group_value in
    let series_value := series_value_of cfg r in
    value <- to_number (row_get r (valueField cfg) (SNum (NInt 0))) ;;
    if negb (truthy group_value) then Ok st
    else Ok (record_value st group_value series_value value).

Fixpoint for_rows (cfg : config) (mapping : option mapping_config)
  (st : agg_state) (rows : list row) : result agg_state :=
  match rows with
  | [] => Ok st
  | r :: rows' =>
      st' <- loop_body cfg mapping st r ;; for_rows cfg mapping st' rows'
  end.

Definition ranked (max_series : Z) (group_map : dict float)
  : list (scalar * float) :=
  slice_to (sorted_key float_ltb (fun x => fneg (snd x)) group_map)
    max_series.

Definition top_series_of (max_series : Z) (tot : dict (dict float))
  : list scalar :=
  fold_left
    (fun top_series group_map =>
       fold_left (fun ts x => set_add ts (fst x))
         (ranked max_series group_map) top_series)
    (map snd tot) [].

Definition select_series (cfg : config) (st : agg_state) : list scalar :=
  let by_total :=
    sorted_key float_ltb
      (fun s => fneg (dict_item (series_totals st) s fzero)) in
  if topSeriesPerGroup cfg && negb (maxSeries cfg =? 0) then
    by_total (set_iter (top_series_of (maxSeries cfg) (totals st)))
  else
    let series_list :=
      List.filter
        (fun s =>
           num_geb (NFloat (dict_item (series_totals st) s fzero))
             (minSeriesTotal cfg))
        (set_iter (series_set st)) in
    slice_to (by_total series_list) (maxSeries cfg).

Definition sort_groups (gs : list scalar) : result (list scalar) :=
  match mapM (fun x => k <- py_int x ;; Ok (k, x)) (set_iter gs) with
  | Ok keyed => Ok (map snd (sorted_key Z.ltb fst keyed))
  | Raise ValueError => sorted (set_iter gs)
  | Raise e => Raise e
  end.

Definition build_data (st : agg_state) (gs series_list : list scalar)
  : list (scalar * list (scalar * number)) :=
  map (fun group =>
         (group,
          map (fun s =>
                 (s,
                  match dict_get (dict_item (totals st) group []) s with
                  | Some v => NFloat v
                  | None => NInt 0
                  end))
            series_list))
    gs.

(** [aggregate_data]: "Aggregate rows according to dashboard config." *)
Definition aggregate_data (rows : list row) (cfg : config)
  (mapping : option mapping_config) : result aggregated :=
  st <- for_rows cfg mapping init_state rows ;;
  let series_list := select_series cfg st in
  gs <- sort_groups (groups_set st) ;;
  Ok {| groups := gs;
        series := series_list;
        data := build_data st gs series_list |}.

End Interpreter.

End UpdateData.

(** ** Concrete interpreters, for evaluating the definitions *)

(** A set that iterates in insertion order. *)
Definition insertion_order (l : list scalar) : list scalar := l.

(** A float text that is never consulted by records without floats. *)
Definition no_float_repr (f : float) : string := "".

(** ** Definitions used to state the properties *)

Import PyStr.

(** The value of the 4 characters at the start of [s] when they are all
    digits. *)
Definition four_digit_value (s : string) : option Z :=
  match s with
  | String a (String b (String c (String d _))) =>
      if is_digit a && is_digit b && is_digit c && is_digit d
      then Some (1000 * digit_val a + 100 * digit_val b
                 + 10 * digit_val c + digit_val d)
      else None
  | _ => None
  end.

(** The year extractor in the words of the specification: the first run of
    4 digits whose value lies in 1900..2099. *)
Fixpoint first_year_run (s : string) : option string :=
  match s with
  | EmptyString => None
  | String _ s' =>
      match four_digit_value s with
      | Some v =>
          if (1900 <=? v) && (v <=? 2099)
          then Some (BuildDashboards.take4 s)
          else first_year_run s'
      | None => first_year_run s'
      end
  end.

(** The cleaning step in the words of the specification: drop ['$'], [',']
    and every whitespace character. *)
Fixpoint strip_currency_and_whitespace (s : string) : string :=
  match s with
  | EmptyString => EmptyString
  | String c s' =>
      if Ascii.eqb c "$" || Ascii.eqb c "," || is_space c
      then strip_currency_and_whitespace s'
      else String c (strip_currency_and_whitespace s')
  end.

(** The cleaning step of [to_number]. *)
Definition cleaned (s : string) : string :=
  remove_char " " (remove_char "," (remove_char "$" s)).

Definition float_or_zero (r : result float) : float :=
  match r with
  | Ok f => f
  | Raise _ => fzero
  end.

(** [sum(values, 0.0)]: float additions from left to right. *)
Definition py_sum (values : list float) : float :=
  fold_left fadd values fzero.

(** Any iteration order of a set enumerates its elements once. *)
Definition set_iter_ok (set_iter : list scalar -> list scalar) : Prop :=
  forall l, Permutation (set_iter l) l.

Definition set_maxSeries (cfg : config) (n : Z) : config := {|
  groupBy := groupBy cfg;
  seriesBy := seriesBy cfg;
  valueField := valueField cfg;
  extractYear := extractYear cfg;
  minSeriesTotal := minSeriesTotal cfg;
  maxSeries := n;
  topSeriesPerGroup := topSeriesPerGroup cfg;
  filterSpec := filterSpec cfg
|}.

Definition is_str (x : scalar) : Prop :=
  match x with SStr _ => True | _ => False end.

(** The integer a group key is sorted by. *)
Definition int_key (x : scalar) : Z :=
  match py_int x with
  | Ok z => z
  | Raise _ => 0
  end.

Definition int_key_le (a b : scalar) : Prop := int_key a <= int_key b.

(** [a <= b] on string keys, lexicographic on character codes. *)
Definition str_key_le (a b : scalar) : Prop :=
  match a, b with
  | SStr s, SStr t => String.leb s t = true
  | _, _ => False
  end.

Section RowSelection.
Variable float_repr : float -> string.

(** The group key of a row that passes the filter and is not dropped by
    the year extraction. *)
Definition resulting_group (cfg : config) (r : row) : option scalar :=
  if BuildDashboards.row_matches_filter float_repr r (filterSpec cfg) then
    let raw := row_get r (groupBy cfg) (SStr "") in
    if extractYear cfg
    then option_map SStr (BuildDashboards.extract_year float_repr raw)
    else Some raw
  else None.

(** The rows that pass the filter, are not dropped by the year extraction
    and have group key [g] and series key [s]. *)
Definition contributes (cfg : config) (g s : scalar) (r : row) : bool :=
  match resulting_group cfg r with
  | Some g' =>
      key_eqb g' g && key_eqb (BuildDashboards.series_value_of cfg r) s
  | None => false
  end.

(** [normalize(record[valueField])] *)
Definition normalized_value (cfg : config) (r : row) : result float :=
  BuildDashboards.to_number float_repr
    (row_get r (valueField cfg) (SNum (NInt 0))).
End RowSelection.

(** A record as [csv.DictReader] yields it: every value is a string, or
    [None] for a column missing from a short line. *)
Definition no_number (x : scalar) : Prop :=
  match x with SNum _ => False | _ => True end.

Definition csv_row (r : row) : Prop :=
  Forall (fun kv => no_number (snd kv)) r.

(** [totals[g].get(s)] *)
Definition lookup2 (st : agg_state) (g s : scalar) : option float :=
  dict_get (dict_item (totals st) g []) s.

(** What the loop maintains: [totals] has one entry per element of
    [groups_set], and no group key is falsy. *)
Definition state_inv (st : agg_state) : Prop :=
  map fst (totals st) = groups_set st
  /\ Forall (fun g => truthy g = true) (groups_set st).

(** The cap on the series list under each selection policy. *)
Definition series_bound (cfg : config) (r : aggregated) : Prop :=
  if topSeriesPerGroup cfg
  then Z.of_nat (List.length (series r))
       <= maxSeries cfg * Z.of_nat (List.length (groups r))
  else Z.of_nat (List.length (series r)) <= maxSeries cfg.

Definition or_zero (o : option float) : float :=
  match o with
  | Some x => x
  | None => fzero
  end.

(** A float with a given exact value. *)
Definition has_value (f : float) (q : Q) : Prop :=
  xcompare (exact f) (XFin q) = Some Eq.

(** ** Inputs of the examples *)

(** The text [1<TAB>0]. *)
Definition one_tab_zero : string := String "1" (String "009" (String "0" "")).

(** The records of the end-to-end scenario. *)
Definition scenario_rows : list row :=
  [ [("dept", SStr "Health"); ("year", SStr "202301"); ("amt", SStr "$100")];
    [("dept", SStr "Health"); ("year", SStr "202301"); ("amt", SStr "$50")];
    [("dept", SStr "Defence"); ("year", SStr "202201"); ("amt", SStr "$10")] ].

Definition scenario_config : config := {|
  groupBy := "year";
  seriesBy := "dept";
  valueField := "amt";
  extractYear := true;
  minSeriesTotal := NInt 0;
  maxSeries := 10;
  topSeriesPerGroup := false;
  filterSpec := None
|}.

(** The floats 10.0 and 150.0, and the result the specification expects for
    the scenario. *)
Definition float_ten : float :=
  Eval vm_compute in float_or_zero (float_of_string "10").
Definition float_150 : float :=
  Eval vm_compute in float_or_zero (float_of_string "150").

Definition scenario_result : aggregated := {|
  groups := [SStr "2022"; SStr "2023"];
  series := [SStr "Health"; SStr "Defence"];
  data := [(SStr "2022",
            [(SStr "Health", NInt 0); (SStr "Defence", NFloat float_ten)]);
           (SStr "2023",
            [(SStr "Health", NFloat float_150); (SStr "Defence", NInt 0)])]
|}.

(** Two groups, each with a series of its own. *)
Definition two_group_rows : list row :=
  [ [("g", SStr "A"); ("s", SStr "X"); ("v", SStr "2")];
    [("g", SStr "B"); ("s", SStr "Y"); ("v", SStr "1")] ].

Definition gsv_config (max_series : Z) (per_group : bool) : config := {|
  groupBy := "g";
  seriesBy := "s";
  valueField := "v";
  extractYear := false;
  minSeriesTotal := NInt 0;
  maxSeries := max_series;
  topSeriesPerGroup := per_group;
  filterSpec := None
|}.


(** A string group key that is not a number, and an integer group key. *)
Definition mixed_key_rows : list row :=
  [ [("g", SStr "abc"); ("v", SNum (NInt 1))];
    [("g", SNum (NInt 5)); ("v", SNum (NInt 1))] ].

(** The floats 1.0, 2.0 and 5.0. *)
Definition float_one : float :=
  Eval vm_compute in float_or_zero (float_of_string "1").
Definition float_two : float :=
  Eval vm_compute in float_or_zero (float_of_string "2").
Definition float_five : float :=
  Eval vm_compute in float_or_zero (float_of_string "5").

(** The accumulators after the loop over [two_group_rows]. *)
Definition two_group_state : agg_state := {|
  totals := [(SStr "A", [(SStr "X", float_two)]);
             (SStr "B", [(SStr "Y", float_one)])];
  series_totals := [(SStr "X", float_two); (SStr "Y", float_one)];
  groups_set := [SStr "A"; SStr "B"];
  series_set := [SStr "X"; SStr "Y"];
  skipped_rows := 0%nat
|}.

(** [two_group_rows] under the per-group policy with [maxSeries = 1]. *)
Definition two_group_top1_result : aggregated := {|
  groups := [SStr "A"; SStr "B"];
  series := [SStr "X"; SStr "Y"];
  data := [(SStr "A", [(SStr "X", NFloat float_two); (SStr "Y", NInt 0)]);
           (SStr "B", [(SStr "X", NInt 0); (SStr "Y", NFloat float_one)])]
|}.

(** [two_group_rows] under the global policy with [maxSeries = -1]. *)
Definition two_group_minus1_result : aggregated := {|
  groups := [SStr "A"; SStr "B"];
  series := [SStr "X"];
  data := [(SStr "A", [(SStr "X", NFloat float_two)]);
           (SStr "B", [(SStr "X", NInt 0)])]
|}.


(** The same scenario grouped by department, without year extraction. *)
Definition by_dept_config : config := {|
  groupBy := "dept";
  seriesBy := "year";
  valueField := "amt";
  extractYear := false;
  minSeriesTotal := NInt 0;
  maxSeries := 10;
  topSeriesPerGroup := false;
  filterSpec := None
|}.



(** Three records keyed by NaN: the first and the last hold the same NaN
    object as group and as series, the second holds another one. *)
Definition nan_key_rows : list row :=
  [ [("g", SNum (NNan 1)); ("s", SNum (NNan 1)); ("v", SStr "1")];
    [("g", SNum (NNan 2)); ("s", SNum (NNan 2)); ("v", SStr "5")];
    [("g", SNum (NNan 1)); ("s", SNum (NNan 1)); ("v", SStr "1")] ].

(** ** Further definitions used to state properties *)

Definition set_minSeriesTotal (cfg : config) (m : number) : config := {|
  groupBy := groupBy cfg;
  seriesBy := seriesBy cfg;
  valueField := valueField cfg;
  extractYear := extractYear cfg;
  minSeriesTotal := m;
  maxSeries := maxSeries cfg;
  topSeriesPerGroup := topSeriesPerGroup cfg;
  filterSpec := filterSpec cfg
|}.

(** The value a filter tests: [row.get(field, '') or '']. *)
Definition filter_value (r : row) (field : string) : scalar :=
  let v := row_get r field (SStr "") in
  if truthy v then v else SStr "".

Definition is_number (x : scalar) : bool :=
  match x with SNum _ => true | _ => false end.


(** No two elements are [==]. *)
Definition distinct_keys (l : list scalar) : Prop :=
  ForallOrdPairs (fun a b => py_eqb a b = false) l.

Definition not_nan (f : float) : Prop := f <> S754_nan.

Section Observed.
Variable float_repr : float -> string.

(** A group key, a series key that some row of [rows] contributes. *)
Definition group_origin (cfg : config) (rows : list row) (g : scalar)
  : Prop :=
  exists r,
    In r rows /\ resulting_group float_repr cfg r = Some g
    /\ truthy g = true.

Definition series_origin (cfg : config) (rows : list row) (s : scalar)
  : Prop :=
  exists r g,
    In r rows /\ resulting_group float_repr cfg r = Some g
    /\ truthy g = true /\ BuildDashboards.series_value_of cfg r = s.

(** A row that passes the filter and is dropped by the year extraction. *)
Definition drops_year (cfg : config) (r : row) : bool :=
  BuildDashboards.row_matches_filter float_repr r (filterSpec cfg)
  && extractYear cfg
  && match BuildDashboards.extract_year float_repr
             (row_get r (groupBy cfg) (SStr "")) with
     | None => true
     | Some _ => false
     end.

(** A row that adds its value to the grand total of the series [s]. *)
Definition counts_for_series (cfg : config) (s : scalar) (r : row) : bool :=
  match resulting_group float_repr cfg r with
  | Some g => truthy g && key_eqb (BuildDashboards.series_value_of cfg r) s
  | None => false
  end.

(** The grand total of a series: the sum of the values of its rows. *)
Definition grand_total (cfg : config) (rows : list row) (s : scalar)
  : float :=
  py_sum
    (map (fun r => float_or_zero (normalized_value float_repr cfg r))
       (List.filter (counts_for_series cfg s) rows)).

(** What the loop maintains about the keys, for the rows of [rows]. *)
Definition keys_inv (cfg : config) (rows : list row) (st : agg_state)
  : Prop :=
  map fst (totals st) = groups_set st
  /\ map fst (series_totals st) = series_set st
  /\ distinct_keys (groups_set st)
  /\ distinct_keys (series_set st)
  /\ Forall (group_origin cfg rows) (groups_set st)
  /\ Forall (series_origin cfg rows) (series_set st)
  /\ Forall (fun kv =>
               snd kv <> []
               /\ Forall (fun e => series_origin cfg rows (fst e)) (snd kv))
       (totals st).
End Observed.

(** [a] does not rank below [b]: its grand total is not the smaller one. *)
Definition ranks_before (float_repr : float -> string) (cfg : config)
  (rows : list row) (a b : scalar) : Prop :=
  float_ltb (grand_total float_repr cfg rows a)
    (grand_total float_repr cfg rows b) = false.

(** The scenario with a first row whose period holds no year. *)
Definition rows_with_bad_year : list row :=
  [("dept", SStr "Health"); ("year", SStr "N/A"); ("amt", SStr "$1")]
  :: scenario_rows.

(** A filter on the series field: departments "Health" and "Justice". *)
Definition dept_filter_config : config := {|
  groupBy := "year";
  seriesBy := "dept";
  valueField := "amt";
  extractYear := true;
  minSeriesTotal := NInt 0;
  maxSeries := 10;
  topSeriesPerGroup := false;
  filterSpec := Some {| flt_field := Some "dept";
                        flt_include := Some ["Health"; "Justice"];
                        flt_contains := None |}
|}.

(** A group key that is a year: 4 digits whose value lies in 1900..2099,
    and the integer [int()] reads in it. *)
Definition year_key (g : scalar) : Prop :=
  exists y v,
    g = SStr y /\ String.length y = 4%nat
    /\ four_digit_value y = Some v /\ 1900 <= v <= 2099
    /\ py_int g = Ok v.

(** The mapping of [update_data.py] that tests what a [filter] entry of
    [build_dashboards.py] tests: [includeContains] for [contains]. *)
Definition mapping_of_filter (fc : filter_config) : mapping_config := {|
  map_field := flt_field fc;
  map_include := flt_include fc;
  map_includeContains := flt_contains fc
|}.

(** The scenario grouped by department, keeping the departments whose name
    holds "heal" in any letter case. *)
Definition dept_contains_config : config := {|
  groupBy := "dept";
  seriesBy := "year";
  valueField := "amt";
  extractYear := false;
  minSeriesTotal := NInt 0;
  maxSeries := 10;
  topSeriesPerGroup := false;
  filterSpec := Some {| flt_field := Some "dept";
                        flt_include := None;
                        flt_contains := Some ["HEAL"] |}
|}.

(** A record without a NaN among its values: every value is [==] to
    itself. *)
Definition no_nan_row (r : row) : Prop :=
  Forall (fun kv => py_eqb (snd kv) (snd kv) = true) r.

(** ** [main] of [build_dashboards.py]: the command line *)

(** The outcome of the argument loop: [specific_dashboard], or the
    [IndexError] of [sys.argv[i + 1]]. *)
Inductive argv_outcome : Set :=
| Parsed (specific_dashboard : option string)
| RaiseIndexError.

(** [for i, arg in enumerate(sys.argv[1:], 1)], from position [i] on, with
    [specific_dashboard] still [None]. *)
Fixpoint scan_args (argv : list string) (i : nat) (args : list string)
  : argv_outcome :=
  match args with
  | [] => Parsed None
  | arg :: args' =>
      if String.eqb arg "--dashboard" && (i <? List.length argv)%nat
      then match nth_error argv (i + 1) with
           | Some v => Parsed (Some v)
           | None => RaiseIndexError
           end
      else scan_args argv (S i) args'
  end.

(** The "Parse arguments" block of [main]. *)
Definition parse_args (argv : list string) : argv_outcome :=
  scan_args argv 1 (tl argv).

(** * Properties *)

(** ** Characters and year patterns *)

Lemma ascii_eqb_code (a b : ascii) : Ascii.eqb a b = (code a =? code b)%nat.
Proof.
  unfold code. destruct (Ascii.eqb_spec a b) as [->|Hne].
  - now rewrite Nat.eqb_refl.
  - symmetry. apply Nat.eqb_neq. intro H. apply Hne.
    rewrite <- (ascii_nat_embedding a), <- (ascii_nat_embedding b).
    now rewrite H.
Qed.

Lemma is_digit_range (c : ascii) :
  is_digit c = true <-> (48 <= code c <= 57)%nat.
Proof.
  unfold is_digit. rewrite andb_true_iff, !Nat.leb_le. tauto.
Qed.

Lemma is_space_range (c : ascii) :
  is_space c = true <->
  ((9 <= code c <= 13)%nat \/ (28 <= code c <= 32)%nat).
Proof.
  unfold is_space. rewrite orb_true_iff, !andb_true_iff, !Nat.leb_le. tauto.
Qed.

Lemma space_not_digit (c : ascii) : is_space c = true -> is_digit c = false.
Proof.
  intros Hs. apply not_true_is_false. intros Hd.
  apply is_space_range in Hs. apply is_digit_range in Hd. lia.
Qed.

Lemma match_year_digits (a b c d : ascii) (s : string) :
  BuildDashboards.match_year (String a (String b (String c (String d s)))) = true ->
  is_digit a = true /\ is_digit b = true /\ is_digit c = true /\ is_digit d = true.
Proof.
  unfold BuildDashboards.match_year. rewrite !ascii_eqb_code.
  change (code "1") with 49%nat. change (code "9") with 57%nat.
  change (code "2") with 50%nat. change (code "0") with 48%nat.
  rewrite !andb_true_iff, orb_true_iff, !andb_true_iff, !Nat.eqb_eq, !is_digit_range.
  lia.
Qed.

Lemma match_year_value (s : string) :
  BuildDashboards.match_year s =
  match four_digit_value s with
  | Some v => (1900 <=? v) && (v <=? 2099)
  | None => false
  end.
Proof.
  destruct s as [|a [|b [|c [|d s]]]]; try reflexivity.
  unfold four_digit_value.
  destruct (is_digit a && is_digit b && is_digit c && is_digit d) eqn:D.
  - apply eq_iff_eq_true.
    rewrite !andb_true_iff, !is_digit_range in D.
    unfold BuildDashboards.match_year, digit_val. rewrite !ascii_eqb_code.
    change (code "1") with 49%nat. change (code "9") with 57%nat.
    change (code "2") with 50%nat. change (code "0") with 48%nat.
    rewrite !andb_true_iff, orb_true_iff, !andb_true_iff, !Nat.eqb_eq,
      !is_digit_range, !Z.leb_le.
    lia.
  - apply not_true_is_false. intros H. apply match_year_digits in H.
    destruct H as (Ha & Hb & Hc & Hd). now rewrite Ha, Hb, Hc, Hd in D.
Qed.

Lemma re_search_year_first_run (s : string) :
  BuildDashboards.re_search_year s = first_year_run s.
Proof.
  induction s as [|c s IH]; [reflexivity|].
  cbn [BuildDashboards.re_search_year first_year_run].
  rewrite match_year_value.
  destruct (four_digit_value (String c s)) as [v|]; [|exact IH].
  destruct ((1900 <=? v) && (v <=? 2099)); [reflexivity|exact IH].
Qed.

Lemma match_year_inv (s : string) :
  BuildDashboards.match_year s = true ->
  exists a b c d rest,
    s = String a (String b (String c (String d rest)))
    /\ is_digit b = true /\ is_digit c = true /\ is_digit d = true.
Proof.
  destruct s as [|a [|b [|c [|d rest]]]]; try discriminate.
  intros H. apply match_year_digits in H.
  exists a, b, c, d, rest. tauto.
Qed.

Lemma match_year_space_head (c : ascii) (s : string) :
  is_space c = true -> BuildDashboards.match_year (String c s) = false.
Proof.
  intros Hs. apply not_true_is_false. intros H.
  destruct s as [|b [|c' [|d rest]]]; try discriminate.
  apply match_year_digits in H. apply space_not_digit in Hs.
  destruct H as [H _]. congruence.
Qed.

Lemma re_search_year_lstrip (s : string) :
  BuildDashboards.re_search_year (lstrip_with is_space s)
  = BuildDashboards.re_search_year s.
Proof.
  induction s as [|c s IH]; [reflexivity|].
  cbn [lstrip_with]. destruct (is_space c) eqn:Hs; [|reflexivity].
  rewrite IH. cbn [BuildDashboards.re_search_year].
  now rewrite (match_year_space_head c s Hs).
Qed.

Lemma rstrip_digit_head (x : ascii) (rest : string) :
  is_digit x = true ->
  rstrip_with is_space (String x rest)
  = String x (rstrip_with is_space rest).
Proof.
  intros Hd. cbn [rstrip_with].
  destruct (is_space x) eqn:Hs.
  - apply space_not_digit in Hs. congruence.
  - now rewrite andb_false_r.
Qed.

Lemma rstrip_cons_inv (s : string) (x : ascii) (r : string) :
  rstrip_with is_space s = String x r ->
  exists rest, s = String x rest /\ r = rstrip_with is_space rest.
Proof.
  destruct s as [|y rest]; [discriminate|].
  cbn [rstrip_with].
  destruct (is_empty (rstrip_with is_space rest) && is_space y);
    [discriminate|].
  intros H. injection H as -> <-. now exists rest.
Qed.

Lemma match_year_rstrip (c : ascii) (s : string) :
  BuildDashboards.match_year (String c (rstrip_with is_space s))
  = BuildDashboards.match_year (String c s)
  /\ (BuildDashboards.match_year (String c s) = true ->
      BuildDashboards.take4 (String c (rstrip_with is_space s))
      = BuildDashboards.take4 (String c s)).
Proof.
  assert (Hfwd : BuildDashboards.match_year (String c s) = true ->
                 exists b c' d rest,
                   s = String b (String c' (String d rest))
                   /\ rstrip_with is_space s
                      = String b (String c' (String d (rstrip_with is_space rest)))).
  { intros H. apply match_year_inv in H.
    destruct H as (a & b & c' & d & rest & E & Hb & Hc & Hd).
    injection E as -> ->. exists b, c', d, rest. split; [reflexivity|].
    now rewrite !rstrip_digit_head. }
  split.
  - apply eq_iff_eq_true. split; intros H.
    + destruct (match_year_inv _ H)
        as (a & b & c' & d & rest & E & Hb & Hc & Hd).
      injection E as -> E.
      apply rstrip_cons_inv in E. destruct E as (s1 & -> & E).
      symmetry in E. apply rstrip_cons_inv in E. destruct E as (s2 & -> & E).
      symmetry in E. apply rstrip_cons_inv in E. destruct E as (s3 & -> & E).
      rewrite !rstrip_digit_head in H by assumption. exact H.
    + destruct (Hfwd H) as (b & c' & d & rest & -> & ->). exact H.
  - intros H. destruct (Hfwd H) as (b & c' & d & rest & -> & ->). reflexivity.
Qed.

Lemma re_search_year_rstrip (s : string) :
  BuildDashboards.re_search_year (rstrip_with is_space s)
  = BuildDashboards.re_search_year s.
Proof.
  induction s as [|c s IH]; [reflexivity|].
  cbn [rstrip_with].
  destruct (is_empty (rstrip_with is_space s) && is_space c) eqn:E.
  - apply andb_true_iff in E. destruct E as [Hr Hs].
    destruct (rstrip_with is_space s); [|discriminate].
    cbn [BuildDashboards.re_search_year] in *.
    now rewrite (match_year_space_head c s Hs).
  - cbn [BuildDashboards.re_search_year].
    destruct (match_year_rstrip c s) as [Hm Ht].
    rewrite Hm, IH.
    destruct (BuildDashboards.match_year (String c s)) eqn:M; [|reflexivity].
    now rewrite Ht.
Qed.

Lemma re_search_year_strip (s : string) :
  BuildDashboards.re_search_year (strip s) = BuildDashboards.re_search_year s.
Proof.
  unfold strip, strip_with.
  now rewrite re_search_year_rstrip, re_search_year_lstrip.
Qed.

(** C3. [extract_year] on a string returns the first run of 4 digits whose
    value lies in 1900..2099, as a string, and [None] when there is none;
    in particular "202312" and "2023-2024" give "2023" and "N/A" gives
    [None]. *)
Theorem extract_year_first_year_run :
  forall (float_repr : float -> string) (s : string),
    BuildDashboards.extract_year float_repr (SStr s) = first_year_run s
    /\ BuildDashboards.extract_year float_repr (SStr "202312") = Some "2023"
    /\ BuildDashboards.extract_year float_repr (SStr "2023-2024") = Some "2023"
    /\ BuildDashboards.extract_year float_repr (SStr "N/A") = None.
Proof.
  intros float_repr s. split; [|repeat split; reflexivity].
  unfold BuildDashboards.extract_year. cbn [truthy py_str].
  destruct s as [|c s]; [reflexivity|]. cbn [is_empty negb].
  rewrite re_search_year_strip, re_search_year_first_run.
  now destruct (first_year_run (String c s)).
Qed.

(** ** The value normalizer *)

Lemma float_of_string_raises (s : string) (e : exn) :
  float_of_string s = Raise e -> e = ValueError.
Proof.
  unfold float_of_string.
  destruct (split_sign (strip_with is_space_num s)) as [neg body].
  destruct (_ || _); [discriminate|].
  destruct (String.eqb _ _); [discriminate|].
  destruct (parse_decimal body) as [[m e10]|]; [discriminate|].
  congruence.
Qed.

Lemma to_number_string (float_repr : float -> string) (s : string) :
  BuildDashboards.to_number float_repr (SStr s)
  = Ok (float_or_zero (float_of_string (cleaned s))).
Proof.
  unfold BuildDashboards.to_number. cbn [truthy py_str].
  destruct s as [|c s]; [reflexivity|]. cbn [is_empty negb].
  fold (cleaned (String c s)).
  destruct (float_of_string (cleaned (String c s))) as [f|e] eqn:E;
    [reflexivity|].
  now rewrite (float_of_string_raises _ _ E).
Qed.

(** C4, as the specification words it, fails on [1<TAB>0]: the code removes
    the space character only, the literal keeps its TAB and does not parse,
    whereas with all whitespace removed it would read 10. *)
Lemma to_number_keeps_inner_tab :
  BuildDashboards.to_number no_float_repr (SStr one_tab_zero) = Ok fzero
  /\ (exists f,
        float_of_string (strip_currency_and_whitespace one_tab_zero) = Ok f
        /\ has_value f (10 # 1))
  /\ BuildDashboards.to_number no_float_repr (SStr one_tab_zero)
     <> Ok (float_or_zero
              (float_of_string (strip_currency_and_whitespace one_tab_zero))).
Proof.
  split; [reflexivity|]. split.
  - eexists. split; reflexivity.
  - vm_compute. discriminate.
Qed.

(** C4, amended. [to_number] returns a float unchanged and an integer as
    [float(value)]; it returns 0.0 for [None], for 0 and for the empty
    string; on a string it removes ['$'], [','] and the space character,
    parses the rest as a float literal and returns 0.0 when that fails,
    never raising; "$1,234.50" gives 1234.5, "" and "abc" give 0.0 and 42
    gives 42.0. *)
Theorem to_number_normalizes :
  forall float_repr : float -> string,
    (forall f, BuildDashboards.to_number float_repr (SNum (NFloat f)) = Ok f)
    /\ (forall z,
          BuildDashboards.to_number float_repr (SNum (NInt z)) = float_of_Z z)
    /\ BuildDashboards.to_number float_repr SNone = Ok fzero
    /\ BuildDashboards.to_number float_repr (SNum (NInt 0)) = Ok fzero
    /\ (forall s,
          BuildDashboards.to_number float_repr (SStr s)
          = Ok (float_or_zero (float_of_string (cleaned s))))
    /\ (exists f,
          BuildDashboards.to_number float_repr (SStr "$1,234.50") = Ok f
          /\ has_value f (12345 # 10))
    /\ BuildDashboards.to_number float_repr (SStr "") = Ok fzero
    /\ BuildDashboards.to_number float_repr (SStr "abc") = Ok fzero
    /\ (exists f,
          BuildDashboards.to_number float_repr (SNum (NInt 42)) = Ok f
          /\ has_value f (42 # 1)).
Proof.
  intros float_repr. repeat split; try reflexivity.
  - intros s. apply to_number_string.
  - eexists. split; reflexivity.
  - eexists. split; reflexivity.
Qed.

(** ** The row filter *)

(** C10. A filter whose [contains] list (a mapping whose [includeContains]
    list) is present but empty rejects every record, whatever the field,
    its value and the [include] list. *)
Theorem empty_contains_rejects_all :
  forall (float_repr : float -> string) (r : row)
         (fld : option string) (incl : option (list string)),
    BuildDashboards.row_matches_filter float_repr r
      (Some {| flt_field := fld; flt_include := incl; flt_contains := Some [] |})
    = false
    /\ UpdateData.row_matches_mapping r
         (Some {| map_field := fld; map_include := incl;
                  map_includeContains := Some [] |})
       = Ok false.
Proof.
  intros float_repr r fld incl. split.
  - unfold BuildDashboards.row_matches_filter, BuildDashboards.filter_is_empty.
    cbn. destruct fld, incl; cbn;
      repeat match goal with
             | |- context [negb ?b] => destruct b; cbn
             end; reflexivity.
  - unfold UpdateData.row_matches_mapping, UpdateData.mapping_is_empty.
    cbn. destruct fld, incl; cbn;
      repeat match goal with
             | |- context [negb ?b] => destruct b; cbn
             end; reflexivity.
Qed.

(** ** The two aggregators *)

Lemma loop_body_agree (float_repr : float -> string) (cfg : config)
  (st : agg_state) (r : row) :
  extractYear cfg = false -> filterSpec cfg = None ->
  BuildDashboards.loop_body float_repr cfg st r
  = UpdateData.loop_body float_repr cfg None st r.
Proof.
  intros Hy Hf.
  unfold BuildDashboards.loop_body, UpdateData.loop_body.
  rewrite Hy, Hf. reflexivity.
Qed.

Lemma for_rows_agree (float_repr : float -> string) (cfg : config)
  (rows : list row) :
  extractYear cfg = false -> filterSpec cfg = None ->
  forall st,
    BuildDashboards.for_rows float_repr cfg st rows
    = UpdateData.for_rows float_repr cfg None st rows.
Proof.
  intros Hy Hf. induction rows as [|r rows IH]; intros st; [reflexivity|].
  cbn [BuildDashboards.for_rows UpdateData.for_rows].
  rewrite (loop_body_agree float_repr cfg st r Hy Hf).
  destruct (UpdateData.loop_body float_repr cfg None st r) as [st'|e];
    [apply IH|reflexivity].
Qed.

(** C9. With [extractYear] false and no filter (no mapping), the
    [aggregate_data] of [build_dashboards.py] and that of [update_data.py]
    return the same result on every record sequence: the same groups, series
    and data, or the same exception. *)
Theorem aggregate_data_agree :
  forall (float_repr : float -> string)
         (set_iter : list scalar -> list scalar)
         (rows : list row) (cfg : config),
    extractYear cfg = false ->
    filterSpec cfg = None ->
    BuildDashboards.aggregate_data float_repr set_iter rows cfg
    = UpdateData.aggregate_data float_repr set_iter rows cfg None.
Proof.
  intros float_repr set_iter rows cfg Hy Hf.
  unfold BuildDashboards.aggregate_data, UpdateData.aggregate_data.
  rewrite (for_rows_agree float_repr cfg rows Hy Hf init_state).
  reflexivity.
Qed.

Lemma aggregate_data_agree_witness :
  BuildDashboards.aggregate_data no_float_repr insertion_order
    scenario_rows by_dept_config
  = UpdateData.aggregate_data no_float_repr insertion_order
      scenario_rows by_dept_config None.
Proof.
  apply (aggregate_data_agree no_float_repr insertion_order
           scenario_rows by_dept_config); reflexivity.
Defined.

(** ** Python equality is a partial equivalence *)

Lemma xcompare_eq_sym (a b : xreal) :
  xcompare a b = Some Eq -> xcompare b a = Some Eq.
Proof.
  destruct a as [|s1|p], b as [|s2|q]; cbn; try discriminate.
  - destruct s1, s2; try discriminate; reflexivity.
  - destruct s1; discriminate.
  - destruct s2; discriminate.
  - intros H. injection H as H. f_equal.
    apply Qeq_alt in H. apply Qeq_alt. now symmetry.
Qed.

Lemma xcompare_eq_trans (a b c : xreal) :
  xcompare a b = Some Eq -> xcompare b c = Some Eq -> xcompare a c = Some Eq.
Proof.
  destruct a as [|s1|p], b as [|s2|q], c as [|s3|r]; cbn; try discriminate;
    try (destruct s1; discriminate); try (destruct s2; discriminate);
    try (destruct s3; discriminate).
  - destruct s1, s2, s3; try discriminate; reflexivity.
  - intros H1 H2. injection H1 as H1. injection H2 as H2. f_equal.
    apply Qeq_alt in H1, H2. apply Qeq_alt. now rewrite H1.
Qed.

Lemma num_eqb_sym (a b : number) : num_eqb a b = true -> num_eqb b a = true.
Proof.
  unfold num_eqb, num_compare. intros H.
  destruct (xcompare (num_exact a) (num_exact b)) as [[]|] eqn:E;
    try discriminate.
  now rewrite (xcompare_eq_sym _ _ E).
Qed.

Lemma num_eqb_trans (a b c : number) :
  num_eqb a b = true -> num_eqb b c = true -> num_eqb a c = true.
Proof.
  unfold num_eqb, num_compare. intros H1 H2.
  destruct (xcompare (num_exact a) (num_exact b)) as [[]|] eqn:E1;
    try discriminate.
  destruct (xcompare (num_exact b) (num_exact c)) as [[]|] eqn:E2;
    try discriminate.
  now rewrite (xcompare_eq_trans _ _ _ E1 E2).
Qed.

Lemma py_eqb_sym (a b : scalar) : py_eqb a b = true -> py_eqb b a = true.
Proof.
  destruct a as [|s|m], b as [|t|n]; cbn; try discriminate; auto.
  - now rewrite String.eqb_sym.
  - apply num_eqb_sym.
Qed.

Lemma py_eqb_trans (a b c : scalar) :
  py_eqb a b = true -> py_eqb b c = true -> py_eqb a c = true.
Proof.
  destruct a as [|s|m], b as [|t|n], c as [|u|p]; cbn; try discriminate; auto.
  - rewrite !String.eqb_eq. congruence.
  - apply num_eqb_trans.
Qed.

Lemma py_eqb_right (k' k x : scalar) :
  py_eqb k' k = true -> py_eqb k' x = py_eqb k x.
Proof.
  intros H. apply eq_iff_eq_true. split; intros H0.
  - exact (py_eqb_trans _ _ _ (py_eqb_sym _ _ H) H0).
  - exact (py_eqb_trans _ _ _ H H0).
Qed.

Lemma truthy_py_eqb (a b : scalar) :
  py_eqb a b = true -> truthy a = truthy b.
Proof.
  destruct a as [|s|m], b as [|t|n]; cbn; try discriminate; auto.
  - rewrite String.eqb_eq. now intros ->.
  - intros H. f_equal.
    change (py_eqb (SNum m) (SNum (NInt 0)) = py_eqb (SNum n) (SNum (NInt 0))).
    now apply py_eqb_right.
Qed.

(** ** The key test of dictionaries and sets is an equivalence *)

Lemma same_nan_eq (a b : scalar) : same_nan a b = true -> a = b.
Proof.
  destruct a as [|s|[z|[sa|sa| |sa ma ea]|i]],
    b as [|t|[z'|[sb|sb| |sb mb eb]|j]];
    cbn [same_nan]; try discriminate; try reflexivity.
  intros H. apply Pos.eqb_eq in H. now subst.
Qed.

Lemma key_eqb_cases (a b : scalar) :
  key_eqb a b = true -> a = b \/ py_eqb a b = true.
Proof.
  unfold key_eqb. intros H. apply orb_true_iff in H.
  destruct H as [H|H]; [left; now apply same_nan_eq|now right].
Qed.

Lemma py_eqb_key_eqb (a b : scalar) : py_eqb a b = true -> key_eqb a b = true.
Proof. unfold key_eqb. intros ->. apply orb_true_r. Qed.

Lemma key_eqb_false_py (a b : scalar) :
  key_eqb a b = false -> py_eqb a b = false.
Proof. unfold key_eqb. intros H. now apply orb_false_iff in H. Qed.

Lemma xcompare_refl (x : xreal) : x <> XNan -> xcompare x x = Some Eq.
Proof.
  destruct x as [|s|q]; cbn [xcompare]; [congruence| |]; intros _.
  - now destruct s.
  - f_equal. apply Qeq_alt. reflexivity.
Qed.

Lemma key_eqb_refl (a : scalar) : key_eqb a a = true.
Proof.
  unfold key_eqb. destruct a as [|s|[z|f|i]]; cbn [same_nan py_eqb orb].
  - reflexivity.
  - apply String.eqb_refl.
  - unfold num_eqb, num_compare. cbn [num_exact].
    now rewrite xcompare_refl.
  - destruct f as [s|s| |s m e]; cbn [orb]; try reflexivity;
      unfold num_eqb, num_compare; cbn [num_exact];
      now rewrite xcompare_refl.
  - now rewrite Pos.eqb_refl.
Qed.

Lemma key_eqb_sym (a b : scalar) : key_eqb a b = true -> key_eqb b a = true.
Proof.
  intros H. destruct (key_eqb_cases a b H) as [->|E].
  - apply key_eqb_refl.
  - apply py_eqb_key_eqb. now apply py_eqb_sym.
Qed.

Lemma key_eqb_trans (a b c : scalar) :
  key_eqb a b = true -> key_eqb b c = true -> key_eqb a c = true.
Proof.
  intros H1 H2.
  destruct (key_eqb_cases a b H1) as [->|E1]; [exact H2|].
  destruct (key_eqb_cases b c H2) as [<-|E2]; [exact H1|].
  apply py_eqb_key_eqb. exact (py_eqb_trans _ _ _ E1 E2).
Qed.

(** Two keys equal to a third one are equal to each other. *)
Lemma key_eqb_left (k0 k' k : scalar) :
  key_eqb k' k = true -> key_eqb k0 k' = key_eqb k0 k.
Proof.
  intros H. apply eq_iff_eq_true. split; intros H0.
  - exact (key_eqb_trans _ _ _ H0 H).
  - exact (key_eqb_trans _ _ _ H0 (key_eqb_sym _ _ H)).
Qed.

Lemma key_eqb_right (k' k x : scalar) :
  key_eqb k' k = true -> key_eqb k' x = key_eqb k x.
Proof.
  intros H. apply eq_iff_eq_true. split; intros H0.
  - exact (key_eqb_trans _ _ _ (key_eqb_sym _ _ H) H0).
  - exact (key_eqb_trans _ _ _ H H0).
Qed.

Lemma truthy_key_eqb (a b : scalar) :
  key_eqb a b = true -> truthy a = truthy b.
Proof.
  intros H. destruct (key_eqb_cases a b H) as [->|E]; [reflexivity|].
  now apply truthy_py_eqb.
Qed.

(** ** Dictionaries *)

Section DictFacts.
Context {V : Type}.
Implicit Types (d : dict V) (k : scalar).

Lemma dict_get_update_hit d k' k (dflt : V) (f : V -> V) :
  key_eqb k' k = true ->
  dict_get (dict_update d k' dflt f) k = Some (f (dict_item d k dflt)).
Proof.
  intros H. unfold dict_item.
  induction d as [|[k0 v] d IH]; cbn [dict_update dict_get].
  - now rewrite H.
  - rewrite (key_eqb_left k0 k' k H).
    destruct (key_eqb k0 k) eqn:E; cbn [dict_get]; rewrite E; [reflexivity|].
    exact IH.
Qed.

Lemma dict_get_update_miss d k' k (dflt : V) (f : V -> V) :
  key_eqb k' k = false ->
  dict_get (dict_update d k' dflt f) k = dict_get d k.
Proof.
  intros H.
  induction d as [|[k0 v] d IH]; cbn [dict_update dict_get].
  - now rewrite H.
  - destruct (key_eqb k0 k') eqn:E'; cbn [dict_get].
    + destruct (key_eqb k0 k) eqn:E; [|reflexivity].
      rewrite (key_eqb_right k0 k' k E') in E. congruence.
    + destruct (key_eqb k0 k); [reflexivity|exact IH].
Qed.

Lemma dict_update_keys d k (dflt : V) (f : V -> V) :
  map fst (dict_update d k dflt f) = set_add (map fst d) k.
Proof.
  unfold set_add, set_mem.
  induction d as [|[k0 v] d IH]; cbn [dict_update map fst existsb];
    [reflexivity|].
  destruct (key_eqb k0 k); cbn [map fst orb]; [reflexivity|].
  rewrite IH. now destruct (existsb _ (map fst d)).
Qed.
End DictFacts.

Lemma set_add_length (s : list scalar) (x : scalar) :
  (List.length (set_add s x) <= S (List.length s))%nat.
Proof.
  unfold set_add. destruct (set_mem s x); [lia|].
  rewrite length_app. cbn. lia.
Qed.

Lemma set_add_forall (P : scalar -> Prop) (s : list scalar) (x : scalar) :
  Forall P s -> P x -> Forall P (set_add s x).
Proof.
  intros Hs Hx. unfold set_add. destruct (set_mem s x); [exact Hs|].
  apply Forall_app. split; [exact Hs|]. now constructor.
Qed.

(** ** Sorting and slices *)

Section SortFacts.
Context {A : Type}.
Variable lt : A -> A -> bool.

Lemma insert_by_perm (x : A) (l : list A) :
  Permutation (insert_by lt x l) (x :: l).
Proof.
  induction l as [|y l IH]; cbn [insert_by]; [reflexivity|].
  destruct (lt y x); [|reflexivity].
  rewrite IH. apply perm_swap.
Qed.

Lemma sort_by_perm (l : list A) : Permutation (sort_by lt l) l.
Proof.
  induction l as [|x l IH]; cbn [sort_by]; [reflexivity|].
  rewrite insert_by_perm. now constructor.
Qed.

Lemma sort_by_length (l : list A) :
  List.length (sort_by lt l) = List.length l.
Proof. apply Permutation_length, sort_by_perm. Qed.

(** Sortedness for an order [le] that [lt] decides on the elements
    satisfying [P]. *)
Variable le : A -> A -> Prop.
Variable P : A -> Prop.
Hypothesis le_trans :
  forall x y z, P x -> P y -> P z -> le x y -> le y z -> le x z.
Hypothesis lt_false_le : forall x y, P x -> P y -> lt y x = false -> le x y.
Hypothesis lt_true_le : forall x y, P x -> P y -> lt y x = true -> le y x.

Lemma insert_by_sorted (x : A) (l : list A) :
  P x -> Forall P l ->
  StronglySorted le l -> StronglySorted le (insert_by lt x l).
Proof.
  intros Hx Hl Hs. induction Hs as [|y l Hs IH Hy]; cbn [insert_by].
  - repeat constructor.
  - apply Forall_cons_iff in Hl. destruct Hl as [Py Pl].
    destruct (lt y x) eqn:E.
    + constructor; [now apply IH|].
      apply (Permutation_Forall (Permutation_sym (insert_by_perm x l))).
      constructor; [now apply lt_true_le|exact Hy].
    + constructor; [now constructor|].
      constructor; [now apply lt_false_le|].
      rewrite Forall_forall in *. intros z Hz.
      apply (le_trans x y z); auto.
Qed.

Lemma sort_by_sorted (l : list A) :
  Forall P l -> StronglySorted le (sort_by lt l).
Proof.
  induction 1 as [|x l Hx Hl IH]; cbn [sort_by]; [constructor|].
  apply insert_by_sorted; [exact Hx| |exact IH].
  apply (Permutation_Forall (Permutation_sym (sort_by_perm l))).
  exact Hl.
Qed.
End SortFacts.

Lemma slice_to_length {A : Type} (l : list A) (n : Z) :
  0 <= n -> Z.of_nat (List.length (slice_to l n)) <= n.
Proof.
  intros Hn. unfold slice_to.
  destruct (0 <=? n) eqn:E; [|apply Z.leb_gt in E; lia].
  rewrite length_firstn. lia.
Qed.

Lemma slice_to_zero {A : Type} (l : list A) : slice_to l 0 = [].
Proof. reflexivity. Qed.

Lemma firstn_incl {A : Type} (n : nat) (l : list A) (x : A) :
  In x (firstn n l) -> In x l.
Proof.
  intros H. rewrite <- (firstn_skipn n l). apply in_or_app. now left.
Qed.

Lemma slice_to_incl {A : Type} (l : list A) (n : Z) (x : A) :
  In x (slice_to l n) -> In x l.
Proof.
  unfold slice_to. destruct (0 <=? n); apply firstn_incl.
Qed.

(** ** The order on strings *)

Lemma ascii_compare_lt_trans (a b c : ascii) :
  Ascii.compare a b = Lt -> Ascii.compare b c = Lt -> Ascii.compare a c = Lt.
Proof.
  unfold Ascii.compare. rewrite !N.compare_lt_iff. lia.
Qed.

Lemma string_compare_lt_trans (s t u : string) :
  String.compare s t = Lt -> String.compare t u = Lt ->
  String.compare s u = Lt.
Proof.
  revert t u. induction s as [|a s IH]; intros [|b t] [|c u]; cbn;
    try discriminate; try reflexivity.
  destruct (Ascii.compare a b) eqn:Eab; try discriminate;
    destruct (Ascii.compare b c) eqn:Ebc; try discriminate; intros H1 H2.
  - apply Ascii.compare_eq_iff in Eab, Ebc. subst.
    assert (E : Ascii.compare c c = Eq) by (unfold Ascii.compare; apply N.compare_refl).
    rewrite E. now apply (IH t u).
  - apply Ascii.compare_eq_iff in Eab. subst. now rewrite Ebc.
  - apply Ascii.compare_eq_iff in Ebc. subst. now rewrite Eab.
  - now rewrite (ascii_compare_lt_trans a b c Eab Ebc).
Qed.

Lemma string_leb_trans (s t u : string) :
  String.leb s t = true -> String.leb t u = true -> String.leb s u = true.
Proof.
  unfold String.leb.
  destruct (String.compare s t) eqn:E1; try discriminate;
    destruct (String.compare t u) eqn:E2; try discriminate; intros _ _.
  - apply String.compare_eq_iff in E1. subst. now rewrite E2.
  - apply String.compare_eq_iff in E1. subst. now rewrite E2.
  - apply String.compare_eq_iff in E2. subst. now rewrite E1.
  - now rewrite (string_compare_lt_trans s t u E1 E2).
Qed.

Lemma string_ltb_false_leb (s t : string) :
  String.ltb t s = false -> String.leb s t = true.
Proof.
  unfold String.ltb, String.leb. rewrite (String.compare_antisym s t).
  now destruct (String.compare t s).
Qed.

Lemma string_ltb_true_leb (s t : string) :
  String.ltb t s = true -> String.leb t s = true.
Proof.
  unfold String.ltb, String.leb. now destruct (String.compare t s).
Qed.

(** ** [sorted] with a comparison that can raise *)

Section SortRFacts.
Context {A : Type}.
Variable lt : A -> A -> result bool.

Lemma insert_r_perm (x : A) (l l' : list A) :
  insert_r lt x l = Ok l' -> Permutation l' (x :: l).
Proof.
  revert l'. induction l as [|y l IH]; intros l'; cbn [insert_r].
  - intros H. injection H as <-. reflexivity.
  - destruct (lt y x) as [[]|e]; cbn [bind]; try discriminate.
    + destruct (insert_r lt x l) as [r|e]; cbn [bind]; try discriminate.
      intros H. injection H as <-. rewrite (IH r eq_refl). apply perm_swap.
    + intros H. injection H as <-. reflexivity.
Qed.

Lemma sort_r_perm (l l' : list A) :
  sort_r lt l = Ok l' -> Permutation l' l.
Proof.
  revert l'. induction l as [|x l IH]; intros l'; cbn [sort_r].
  - intros H. injection H as <-. reflexivity.
  - destruct (sort_r lt l) as [s|e]; cbn [bind]; try discriminate.
    intros H. apply insert_r_perm in H. rewrite H. constructor.
    now apply IH.
Qed.

(** Where the comparison never raises, the two sorts agree. *)
Variable ltb : A -> A -> bool.
Variable P : A -> Prop.
Hypothesis lt_pure : forall x y, P x -> P y -> lt x y = Ok (ltb x y).

Lemma insert_r_pure (x : A) (l : list A) :
  P x -> Forall P l -> insert_r lt x l = Ok (insert_by ltb x l).
Proof.
  intros Hx. induction 1 as [|y l Hy Hl IH]; cbn [insert_r insert_by];
    [reflexivity|].
  rewrite (lt_pure y x Hy Hx). cbn [bind].
  destruct (ltb y x); [|reflexivity]. now rewrite IH.
Qed.

Lemma sort_r_pure (l : list A) :
  Forall P l -> sort_r lt l = Ok (sort_by ltb l).
Proof.
  induction 1 as [|x l Hx Hl IH]; cbn [sort_r sort_by]; [reflexivity|].
  rewrite IH. cbn [bind]. apply insert_r_pure; [exact Hx|].
  apply (Permutation_Forall (Permutation_sym (sort_by_perm ltb l))).
  exact Hl.
Qed.
End SortRFacts.

(** ** The group sort *)

Lemma mapM_keyed (l : list scalar) (keyed : list (Z * scalar)) :
  mapM (fun x => k <- py_int x ;; Ok (k, x)) l = Ok keyed ->
  map snd keyed = l
  /\ Forall (fun p => fst p = int_key (snd p)) keyed.
Proof.
  revert keyed. induction l as [|x l IH]; intros keyed; cbn [mapM].
  - intros H. injection H as <-. split; constructor.
  - unfold int_key.
    destruct (py_int x) as [k|e] eqn:E; cbn [bind]; try discriminate.
    destruct (mapM _ l) as [ks|e]; cbn [bind]; try discriminate.
    intros H. injection H as <-. destruct (IH ks eq_refl) as [H1 H2].
    split; cbn [map snd]; [now rewrite H1|].
    constructor; [cbn; now rewrite E|exact H2].
Qed.

Lemma mapM_keyed_ok (l : list scalar) :
  (forall g, In g l -> is_ok (py_int g) = true) ->
  exists keyed, mapM (fun x => k <- py_int x ;; Ok (k, x)) l = Ok keyed.
Proof.
  induction l as [|x l IH]; intros H; cbn [mapM]; [now eexists|].
  destruct (py_int x) as [k|e] eqn:E.
  - destruct IH as [ks ->]; [intros g Hg; apply H; now right|].
    cbn [bind]. now eexists.
  - specialize (H x (or_introl eq_refl)). rewrite E in H. discriminate.
Qed.

Lemma py_int_string_raises (s : string) (e : exn) :
  py_int (SStr s) = Raise e -> e = ValueError.
Proof.
  cbn [py_int]. unfold Z_of_string.
  destruct (split_sign (strip_with is_space_num s)) as [neg body].
  destruct (digitpart body 0 0) as [[[v n] [|c rest]]|];
    try discriminate; congruence.
Qed.

Lemma py_lt_strings (x y : scalar) :
  is_str x -> is_str y ->
  py_lt x y
  = Ok (match x, y with
        | SStr s, SStr t => String.ltb s t
        | _, _ => false
        end).
Proof.
  destruct x as [|s|m], y as [|t|n]; cbn; intros Hx Hy;
    try destruct Hx; try destruct Hy; reflexivity.
Qed.

Lemma str_key_le_trans (x y z : scalar) :
  str_key_le x y -> str_key_le y z -> str_key_le x z.
Proof.
  destruct x as [|s|m], y as [|t|n], z as [|u|p]; cbn; try tauto.
  apply string_leb_trans.
Qed.

Lemma sorted_strings (l : list scalar) :
  Forall is_str l ->
  exists l',
    sorted l = Ok l' /\ Permutation l' l /\ StronglySorted str_key_le l'.
Proof.
  intros Hl. unfold sorted.
  set (ltb := fun x y : scalar =>
                match x, y with
                | SStr s, SStr t => String.ltb s t
                | _, _ => false
                end).
  rewrite (sort_r_pure py_lt ltb is_str py_lt_strings l Hl).
  exists (sort_by ltb l). split; [reflexivity|].
  split; [apply sort_by_perm|].
  apply (sort_by_sorted ltb str_key_le is_str); [| | |exact Hl].
  - intros x y z _ _ _. apply str_key_le_trans.
  - intros [|s|m] [|t|n] Hx Hy; try destruct Hx; try destruct Hy.
    apply string_ltb_false_leb.
  - intros [|s|m] [|t|n] Hx Hy; try destruct Hx; try destruct Hy.
    apply string_ltb_true_leb.
Qed.

Lemma sorted_key_int (keyed : list (Z * scalar)) :
  Forall (fun p => fst p = int_key (snd p)) keyed ->
  StronglySorted int_key_le (map snd (sorted_key Z.ltb fst keyed)).
Proof.
  intros Hk. unfold sorted_key.
  set (lt := fun a b : Z * scalar => fst a <? fst b).
  assert (Hs : StronglySorted (fun a b : Z * scalar => fst a <= fst b)
                 (sort_by lt keyed)).
  { apply (sort_by_sorted lt _ (fun _ => True)).
    - intros x y z _ _ _. apply Z.le_trans.
    - intros x y _ _ H. apply Z.ltb_ge in H. exact H.
    - intros x y _ _ H. apply Z.ltb_lt in H. lia.
    - apply Forall_forall. trivial. }
  assert (Hf : Forall (fun p => fst p = int_key (snd p)) (sort_by lt keyed)).
  { apply (Permutation_Forall (Permutation_sym (sort_by_perm lt keyed))).
    exact Hk. }
  induction Hs as [|p l Hs IH Hp]; cbn [map]; [constructor|].
  apply Forall_cons_iff in Hf. destruct Hf as [Ep Hf].
  constructor; [now apply IH|].
  rewrite Forall_forall in *. intros x Hx.
  apply in_map_iff in Hx. destruct Hx as [q [<- Hq]].
  unfold int_key_le. rewrite <- Ep, <- (Hf q Hq). now apply Hp.
Qed.

(** ** The shape of a successful aggregation *)

Lemma sort_groups_perm (set_iter : list scalar -> list scalar)
  (gs gs' : list scalar) :
  set_iter_ok set_iter ->
  BuildDashboards.sort_groups set_iter gs = Ok gs' -> Permutation gs' gs.
Proof.
  intros Hsi. unfold BuildDashboards.sort_groups.
  destruct (mapM _ (set_iter gs)) as [keyed|e] eqn:E.
  - intros H. injection H as <-.
    destruct (mapM_keyed _ _ E) as [Hk _].
    unfold sorted_key.
    rewrite (Permutation_map snd (sort_by_perm _ keyed)), Hk. apply Hsi.
  - destruct e; try discriminate.
    intros H. apply sort_r_perm in H. rewrite H. apply Hsi.
Qed.

Lemma finish_inv (set_iter : list scalar -> list scalar) (cfg : config)
  (st : agg_state) (r : aggregated) :
  BuildDashboards.finish set_iter cfg st = Ok r ->
  BuildDashboards.sort_groups set_iter (groups_set st) = Ok (groups r)
  /\ series r = BuildDashboards.select_series set_iter cfg st
  /\ data r = BuildDashboards.build_data st (groups r) (series r).
Proof.
  unfold BuildDashboards.finish.
  destruct (BuildDashboards.sort_groups set_iter (groups_set st)) as [gs|e];
    cbn [bind]; [|discriminate].
  intros H. injection H as <-. cbn. auto.
Qed.

Lemma aggregate_data_inv (float_repr : float -> string)
  (set_iter : list scalar -> list scalar) (rows : list row) (cfg : config)
  (r : aggregated) :
  BuildDashboards.aggregate_data float_repr set_iter rows cfg = Ok r ->
  exists st,
    BuildDashboards.for_rows float_repr cfg init_state rows = Ok st
    /\ BuildDashboards.finish set_iter cfg st = Ok r.
Proof.
  unfold BuildDashboards.aggregate_data.
  destruct (BuildDashboards.for_rows float_repr cfg init_state rows) as [st|e];
    cbn [bind]; [|discriminate].
  intros H. now exists st.
Qed.

Lemma update_aggregate_data_inv (float_repr : float -> string)
  (set_iter : list scalar -> list scalar) (rows : list row) (cfg : config)
  (mapping : option mapping_config) (r : aggregated) :
  UpdateData.aggregate_data float_repr set_iter rows cfg mapping = Ok r ->
  exists st,
    UpdateData.for_rows float_repr cfg mapping init_state rows = Ok st
    /\ BuildDashboards.finish set_iter cfg st = Ok r.
Proof.
  unfold UpdateData.aggregate_data.
  destruct (UpdateData.for_rows float_repr cfg mapping init_state rows)
    as [st|e]; cbn [bind]; [|discriminate].
  intros H. now exists st.
Qed.

(** ** What the loop maintains *)

Lemma init_state_inv : state_inv init_state.
Proof. split; [reflexivity|constructor]. Qed.

Lemma record_value_inv (st : agg_state) (g s : scalar) (v : float) :
  truthy g = true -> state_inv st ->
  state_inv (BuildDashboards.record_value st g s v).
Proof.
  intros Hg [Hk Ht]. split; cbn.
  - now rewrite dict_update_keys, Hk.
  - now apply set_add_forall.
Qed.

Lemma loop_body_inv (float_repr : float -> string) (cfg : config)
  (st st' : agg_state) (r : row) :
  BuildDashboards.loop_body float_repr cfg st r = Ok st' ->
  state_inv st -> state_inv st'.
Proof.
  unfold BuildDashboards.loop_body. intros H Hinv.
  destruct (negb _); [injection H as <-; exact Hinv|].
  destruct (if extractYear cfg then _ else _) as [g|];
    [|injection H as <-; exact Hinv].
  destruct (BuildDashboards.to_number _ _) as [v|e]; cbn [bind] in H;
    [|discriminate].
  destruct (truthy g) eqn:Hg; cbn [negb] in H; injection H as <-;
    [now apply record_value_inv|exact Hinv].
Qed.

Lemma for_rows_inv (float_repr : float -> string) (cfg : config)
  (rows : list row) :
  forall st st',
    BuildDashboards.for_rows float_repr cfg st rows = Ok st' ->
    state_inv st -> state_inv st'.
Proof.
  induction rows as [|r rows IH]; intros st st'; cbn [BuildDashboards.for_rows].
  - intros H. now injection H as <-.
  - destruct (BuildDashboards.loop_body float_repr cfg st r) as [st1|e] eqn:E;
      cbn [bind]; [|discriminate].
    intros H Hinv. apply (IH st1 st' H).
    exact (loop_body_inv _ _ _ _ _ E Hinv).
Qed.

Lemma update_loop_body_inv (float_repr : float -> string) (cfg : config)
  (mapping : option mapping_config) (st st' : agg_state) (r : row) :
  UpdateData.loop_body float_repr cfg mapping st r = Ok st' ->
  state_inv st -> state_inv st'.
Proof.
  unfold UpdateData.loop_body. intros H Hinv.
  destruct (UpdateData.row_matches_mapping r mapping) as [b|e];
    cbn [bind] in H; [|discriminate].
  destruct (negb b); [injection H as <-; exact Hinv|].
  destruct (UpdateData.to_number _ _) as [v|e]; cbn [bind] in H;
    [|discriminate].
  match type of H with
  | (if negb (truthy ?g) then _ else _) = _ => destruct (truthy g) eqn:Hg
  end; cbn [negb] in H; injection H as <-;
    [now apply record_value_inv|exact Hinv].
Qed.

Lemma update_for_rows_inv (float_repr : float -> string) (cfg : config)
  (mapping : option mapping_config) (rows : list row) :
  forall st st',
    UpdateData.for_rows float_repr cfg mapping st rows = Ok st' ->
    state_inv st -> state_inv st'.
Proof.
  induction rows as [|r rows IH]; intros st st'; cbn [UpdateData.for_rows].
  - intros H. now injection H as <-.
  - destruct (UpdateData.loop_body float_repr cfg mapping st r)
      as [st1|e] eqn:E; cbn [bind]; [|discriminate].
    intros H Hinv. apply (IH st1 st' H).
    exact (update_loop_body_inv _ _ _ _ _ _ E Hinv).
Qed.

(** ** The size of the series list *)

Lemma fold_set_add_length {B : Type} (xs : list (scalar * B))
  (top : list scalar) :
  (List.length (fold_left (fun ts x => set_add ts (fst x)) xs top)
   <= List.length top + List.length xs)%nat.
Proof.
  revert top. induction xs as [|x xs IH]; intros top; cbn [fold_left List.length];
    [lia|].
  specialize (IH (set_add top (fst x))).
  pose proof (set_add_length top (fst x)). lia.
Qed.

Lemma ranked_length (n : Z) (group_map : dict float) :
  0 <= n -> Z.of_nat (List.length (BuildDashboards.ranked n group_map)) <= n.
Proof. intros Hn. unfold BuildDashboards.ranked. now apply slice_to_length. Qed.

Lemma top_series_of_length (n : Z) (tot : dict (dict float)) :
  0 <= n ->
  Z.of_nat (List.length (BuildDashboards.top_series_of n tot))
  <= n * Z.of_nat (List.length tot).
Proof.
  intros Hn. unfold BuildDashboards.top_series_of.
  assert (H : forall top,
             Z.of_nat (List.length
                         (fold_left
                            (fun top_series group_map =>
                               fold_left (fun ts x => set_add ts (fst x))
                                 (BuildDashboards.ranked n group_map) top_series)
                            (map snd tot) top))
             <= Z.of_nat (List.length top) + n * Z.of_nat (List.length tot)).
  { induction tot as [|[g gm] tot IH]; intros top;
      cbn [map snd fold_left List.length]; [lia|].
    specialize (IH (fold_left (fun ts x => set_add ts (fst x))
                      (BuildDashboards.ranked n gm) top)).
    pose proof (fold_set_add_length (BuildDashboards.ranked n gm) top).
    pose proof (ranked_length n gm Hn). lia. }
  specialize (H []). cbn [List.length] in H. lia.
Qed.

Lemma select_series_length (set_iter : list scalar -> list scalar)
  (cfg : config) (st : agg_state) :
  set_iter_ok set_iter -> 0 <= maxSeries cfg ->
  Z.of_nat (List.length (BuildDashboards.select_series set_iter cfg st))
  <= if topSeriesPerGroup cfg
     then maxSeries cfg * Z.of_nat (List.length (totals st))
     else maxSeries cfg.
Proof.
  intros Hsi Hn. unfold BuildDashboards.select_series.
  destruct (topSeriesPerGroup cfg); cbn [andb].
  - destruct (maxSeries cfg =? 0) eqn:E; cbn [negb].
    + apply Z.eqb_eq in E.
      pose proof (slice_to_length
                    (sorted_key float_ltb
                       (fun s => fneg (dict_item (series_totals st) s fzero))
                       (List.filter
                          (fun s =>
                             num_geb
                               (NFloat (dict_item (series_totals st) s fzero))
                               (minSeriesTotal cfg))
                          (set_iter (series_set st))))
                    (maxSeries cfg) Hn).
      lia.
    + unfold sorted_key. rewrite sort_by_length.
      rewrite (Permutation_length (Hsi _)).
      now apply top_series_of_length.
  - now apply slice_to_length.
Qed.

Lemma finish_series_bound (set_iter : list scalar -> list scalar)
  (cfg : config) (st : agg_state) (r : aggregated) :
  set_iter_ok set_iter -> 0 <= maxSeries cfg -> state_inv st ->
  BuildDashboards.finish set_iter cfg st = Ok r -> series_bound cfg r.
Proof.
  intros Hsi Hn [Hk _] H.
  destruct (finish_inv _ _ _ _ H) as (Hg & Hs & _).
  pose proof (select_series_length set_iter cfg st Hsi Hn) as Hlen.
  rewrite <- Hs in Hlen. unfold series_bound.
  rewrite (Permutation_length (sort_groups_perm _ _ _ Hsi Hg)).
  rewrite <- Hk, length_map.
  destruct (topSeriesPerGroup cfg); exact Hlen.
Qed.

(** ** The example inputs, for every iteration order *)

Lemma insertion_order_ok : set_iter_ok insertion_order.
Proof. intros l. apply Permutation_refl. Qed.


Lemma two_group_rows_state (float_repr : float -> string) (n : Z)
  (per_group : bool) :
  BuildDashboards.for_rows float_repr (gsv_config n per_group)
    init_state two_group_rows
  = Ok two_group_state.
Proof. reflexivity. Qed.

Lemma set_iter_pair (set_iter : list scalar -> list scalar) (a b : scalar) :
  set_iter_ok set_iter ->
  set_iter [a; b] = [a; b] \/ set_iter [a; b] = [b; a].
Proof.
  intros Hsi. exact (Permutation_length_2_inv (Permutation_sym (Hsi [a; b]))).
Qed.


Lemma aggregate_two_groups_top1 (float_repr : float -> string)
  (set_iter : list scalar -> list scalar) :
  set_iter_ok set_iter ->
  BuildDashboards.aggregate_data float_repr set_iter
    two_group_rows (gsv_config 1 true)
  = Ok two_group_top1_result.
Proof.
  intros Hsi. unfold BuildDashboards.aggregate_data.
  rewrite two_group_rows_state. cbn [bind].
  unfold BuildDashboards.finish, BuildDashboards.select_series,
    BuildDashboards.sort_groups, two_group_state.
  cbn [groups_set totals series_totals series_set topSeriesPerGroup maxSeries
         gsv_config andb negb Z.eqb].
  replace (BuildDashboards.top_series_of 1
             [(SStr "A", [(SStr "X", float_two)]);
              (SStr "B", [(SStr "Y", float_one)])])
    with [SStr "X"; SStr "Y"] by reflexivity.
  destruct (set_iter_pair set_iter (SStr "A") (SStr "B") Hsi) as [-> | ->];
    destruct (set_iter_pair set_iter (SStr "X") (SStr "Y") Hsi) as [-> | ->];
    reflexivity.
Qed.

Lemma aggregate_two_groups_minus1 (float_repr : float -> string)
  (set_iter : list scalar -> list scalar) :
  set_iter_ok set_iter ->
  BuildDashboards.aggregate_data float_repr set_iter
    two_group_rows (gsv_config (-1) false)
  = Ok two_group_minus1_result.
Proof.
  intros Hsi. unfold BuildDashboards.aggregate_data.
  rewrite two_group_rows_state. cbn [bind].
  unfold BuildDashboards.finish, BuildDashboards.select_series,
    BuildDashboards.sort_groups, two_group_state.
  cbn [groups_set totals series_totals series_set topSeriesPerGroup maxSeries
         minSeriesTotal gsv_config andb negb].
  destruct (set_iter_pair set_iter (SStr "A") (SStr "B") Hsi) as [-> | ->];
    destruct (set_iter_pair set_iter (SStr "X") (SStr "Y") Hsi) as [-> | ->];
    reflexivity.
Qed.

(** The end-to-end scenario of the specification. *)
Lemma aggregate_scenario (float_repr : float -> string)
  (set_iter : list scalar -> list scalar) :
  set_iter_ok set_iter ->
  BuildDashboards.aggregate_data float_repr set_iter
    scenario_rows scenario_config
  = Ok scenario_result.
Proof.
  intros Hsi. unfold BuildDashboards.aggregate_data.
  replace (BuildDashboards.for_rows float_repr scenario_config
             init_state scenario_rows)
    with (Ok {| totals := [(SStr "2023", [(SStr "Health", float_150)]);
                           (SStr "2022", [(SStr "Defence", float_ten)])];
                series_totals := [(SStr "Health", float_150);
                                  (SStr "Defence", float_ten)];
                groups_set := [SStr "2023"; SStr "2022"];
                series_set := [SStr "Health"; SStr "Defence"];
                skipped_rows := 0 |}) by reflexivity.
  cbn [bind]. unfold BuildDashboards.finish, BuildDashboards.select_series,
    BuildDashboards.sort_groups.
  cbn [groups_set totals series_totals series_set topSeriesPerGroup maxSeries
         minSeriesTotal scenario_config andb negb].
  destruct (set_iter_pair set_iter (SStr "2023") (SStr "2022") Hsi)
    as [-> | ->];
    destruct (set_iter_pair set_iter (SStr "Health") (SStr "Defence") Hsi)
      as [-> | ->]; reflexivity.
Qed.

(** C1, as stated, fails, whatever the iteration order of the sets: under
    the per-group policy with [maxSeries = 1], two groups that each have a
    series of their own keep both series; and with [maxSeries = -1] the
    global policy keeps one series, more than -1. *)
Lemma per_group_policy_exceeds_max_series :
  (forall float_repr set_iter,
      set_iter_ok set_iter ->
      BuildDashboards.aggregate_data float_repr set_iter
        two_group_rows (gsv_config 1 true)
      = Ok two_group_top1_result)
  /\ ~ (Z.of_nat (List.length (series two_group_top1_result))
        <= maxSeries (gsv_config 1 true))
  /\ (forall float_repr set_iter,
        set_iter_ok set_iter ->
        BuildDashboards.aggregate_data float_repr set_iter
          two_group_rows (gsv_config (-1) false)
        = Ok two_group_minus1_result)
  /\ ~ (Z.of_nat (List.length (series two_group_minus1_result))
        <= maxSeries (gsv_config (-1) false)).
Proof.
  split; [exact aggregate_two_groups_top1|]. split; [cbn; lia|].
  split; [exact aggregate_two_groups_minus1|cbn; lia].
Qed.

(** C1, amended. For [maxSeries >= 0]: under the global policy the series
    list has at most [maxSeries] keys; under the per-group policy every
    group contributes at most [maxSeries] keys, so the list has at most
    [maxSeries] times the number of groups.  Both aggregators. *)
Theorem series_cap_per_policy :
  forall (float_repr : float -> string)
         (set_iter : list scalar -> list scalar)
         (rows : list row) (cfg : config),
    set_iter_ok set_iter ->
    0 <= maxSeries cfg ->
    (forall r,
        BuildDashboards.aggregate_data float_repr set_iter rows cfg = Ok r ->
        series_bound cfg r)
    /\ (forall mapping r,
          UpdateData.aggregate_data float_repr set_iter rows cfg mapping
          = Ok r ->
          series_bound cfg r).
Proof.
  intros float_repr set_iter rows cfg Hsi Hn. split.
  - intros r H. destruct (aggregate_data_inv _ _ _ _ _ H) as (st & Hl & Hf).
    apply (finish_series_bound set_iter cfg st r Hsi Hn); [|exact Hf].
    exact (for_rows_inv _ _ _ _ _ Hl init_state_inv).
  - intros mapping r H.
    destruct (update_aggregate_data_inv _ _ _ _ _ _ H) as (st & Hl & Hf).
    apply (finish_series_bound set_iter cfg st r Hsi Hn); [|exact Hf].
    exact (update_for_rows_inv _ _ _ _ _ _ Hl init_state_inv).
Qed.

Lemma series_cap_per_policy_witness :
  set_iter_ok insertion_order
  /\ 0 <= maxSeries (gsv_config 1 true)
  /\ exists r,
       BuildDashboards.aggregate_data no_float_repr insertion_order
         two_group_rows (gsv_config 1 true) = Ok r
       /\ series_bound (gsv_config 1 true) r.
Proof.
  split; [exact insertion_order_ok|]. split; [cbn; lia|].
  eexists. split; [reflexivity|].
  apply (proj1 (series_cap_per_policy no_float_repr insertion_order
                  two_group_rows (gsv_config 1 true)
                  insertion_order_ok ltac:(cbn; lia))).
  reflexivity.
Defined.

(** ** [maxSeries] and failures *)

Lemma for_rows_set_maxSeries (float_repr : float -> string) (cfg : config)
  (n : Z) (rows : list row) :
  forall st,
    BuildDashboards.for_rows float_repr (set_maxSeries cfg n) st rows
    = BuildDashboards.for_rows float_repr cfg st rows.
Proof.
  induction rows as [|r rows IH]; intros st; [reflexivity|].
  cbn [BuildDashboards.for_rows].
  change (BuildDashboards.loop_body float_repr (set_maxSeries cfg n) st r)
    with (BuildDashboards.loop_body float_repr cfg st r).
  destruct (BuildDashboards.loop_body float_repr cfg st r); [apply IH|reflexivity].
Qed.

Lemma finish_is_ok (set_iter : list scalar -> list scalar) (cfg : config)
  (st : agg_state) :
  is_ok (BuildDashboards.finish set_iter cfg st)
  = is_ok (BuildDashboards.sort_groups set_iter (groups_set st)).
Proof.
  unfold BuildDashboards.finish.
  now destruct (BuildDashboards.sort_groups set_iter (groups_set st)).
Qed.

(** C6, as stated, fails for a negative [maxSeries]: with [maxSeries = -1]
    the slice drops the last series only; the series list and the series
    maps are not empty. *)
Lemma negative_max_series_keeps_series :
  maxSeries (gsv_config (-1) false) < 0
  /\ (forall float_repr set_iter,
        set_iter_ok set_iter ->
        BuildDashboards.aggregate_data float_repr set_iter
          two_group_rows (gsv_config (-1) false)
        = Ok two_group_minus1_result)
  /\ series two_group_minus1_result = [SStr "X"]
  /\ ~ Forall (fun d => snd d = []) (data two_group_minus1_result).
Proof.
  split; [reflexivity|]. split; [exact aggregate_two_groups_minus1|].
  split; [reflexivity|].
  intros H. inversion H as [|d l Hd _]. discriminate Hd.
Qed.

(** C6, amended. [maxSeries] never decides whether the aggregation fails,
    so 0 and the negative values are legal; with [maxSeries = 0] the series
    list is empty and every data entry has an empty series map. *)
Theorem max_series_zero_empty :
  forall (float_repr : float -> string)
         (set_iter : list scalar -> list scalar)
         (rows : list row) (cfg : config),
    maxSeries cfg = 0 ->
    (forall n,
        is_ok (BuildDashboards.aggregate_data float_repr set_iter rows
                 (set_maxSeries cfg n))
        = is_ok (BuildDashboards.aggregate_data float_repr set_iter rows cfg))
    /\ (forall r,
          BuildDashboards.aggregate_data float_repr set_iter rows cfg = Ok r ->
          series r = [] /\ Forall (fun d => snd d = []) (data r)).
Proof.
  intros float_repr set_iter rows cfg Hz. split.
  - intros n. unfold BuildDashboards.aggregate_data.
    rewrite for_rows_set_maxSeries.
    destruct (BuildDashboards.for_rows float_repr cfg init_state rows) as [st|e];
      cbn [bind]; [|reflexivity].
    now rewrite !finish_is_ok.
  - intros r H. destruct (aggregate_data_inv _ _ _ _ _ H) as (st & _ & Hf).
    destruct (finish_inv _ _ _ _ Hf) as (_ & Hs & Hd).
    assert (E : series r = []).
    { rewrite Hs. unfold BuildDashboards.select_series. rewrite Hz.
      cbn [Z.eqb negb]. rewrite andb_false_r. apply slice_to_zero. }
    split; [exact E|].
    rewrite Hd, E. unfold BuildDashboards.build_data.
    apply Forall_forall. intros d Hin. apply in_map_iff in Hin.
    destruct Hin as [g [<- _]]. reflexivity.
Qed.

Lemma max_series_zero_empty_witness :
  maxSeries (gsv_config 0 true) = 0
  /\ exists r,
       BuildDashboards.aggregate_data no_float_repr insertion_order
         two_group_rows (gsv_config 0 true) = Ok r
       /\ series r = [] /\ Forall (fun d => snd d = []) (data r).
Proof.
  split; [reflexivity|]. eexists. split; [reflexivity|].
  apply (proj2 (max_series_zero_empty no_float_repr insertion_order
                  two_group_rows (gsv_config 0 true) eq_refl)).
  reflexivity.
Defined.

(** ** Mixed group keys *)

(** C7 fails on the code: with the group keys "abc" and 5 the numeric sort
    raises [ValueError], the fallback [sorted(groups_set)] compares a string
    with an integer and its [TypeError] is not caught. *)
Theorem mixed_group_keys_raise :
  forall (float_repr : float -> string)
         (set_iter : list scalar -> list scalar),
    set_iter_ok set_iter ->
    BuildDashboards.aggregate_data float_repr set_iter
      mixed_key_rows (gsv_config 10 false)
    = Raise TypeError.
Proof.
  intros float_repr set_iter Hsi.
  unfold BuildDashboards.aggregate_data.
  replace (BuildDashboards.for_rows float_repr (gsv_config 10 false)
             init_state mixed_key_rows)
    with (Ok {| totals := [(SStr "abc", [(SStr "Total", float_one)]);
                           (SNum (NInt 5), [(SStr "Total", float_one)])];
                series_totals := [(SStr "Total", float_two)];
                groups_set := [SStr "abc"; SNum (NInt 5)];
                series_set := [SStr "Total"];
                skipped_rows := 0 |}) by reflexivity.
  cbn [bind]. unfold BuildDashboards.finish, BuildDashboards.sort_groups.
  cbn [groups_set].
  destruct (Permutation_length_2_inv
              (Permutation_sym (Hsi [SStr "abc"; SNum (NInt 5)])))
    as [-> | ->]; reflexivity.
Qed.

Lemma mixed_group_keys_raise_witness :
  set_iter_ok insertion_order
  /\ BuildDashboards.aggregate_data no_float_repr insertion_order
       mixed_key_rows (gsv_config 10 false)
     = Raise TypeError.
Proof.
  split; [exact insertion_order_ok|].
  exact (mixed_group_keys_raise no_float_repr insertion_order
           insertion_order_ok).
Defined.

(** ** Missing fields *)







(** ** Records read from CSV never fail *)

Lemma row_get_csv (r : row) (k : string) (dflt : scalar) :
  csv_row r -> row_get r k dflt = dflt \/ no_number (row_get r k dflt).
Proof.
  induction 1 as [|[k' v] r Hv Hr IH]; cbn [row_get]; [now left|].
  destruct (String.eqb k' k); [now right|exact IH].
Qed.

Lemma to_number_csv (float_repr : float -> string) (r : row) (k : string) :
  csv_row r ->
  exists f,
    BuildDashboards.to_number float_repr (row_get r k (SNum (NInt 0))) = Ok f.
Proof.
  intros Hr. destruct (row_get_csv r k (SNum (NInt 0)) Hr) as [-> | Hn].
  - now exists fzero.
  - destruct (row_get r k (SNum (NInt 0))) as [|s|n]; [| |destruct Hn].
    + now exists fzero.
    + rewrite to_number_string. now eexists.
Qed.

Lemma truthy_no_number_is_str (x : scalar) :
  no_number x -> truthy x = true -> is_str x.
Proof. destruct x; cbn; trivial; discriminate. Qed.

Lemma loop_body_csv (float_repr : float -> string) (cfg : config)
  (st : agg_state) (r : row) :
  csv_row r -> Forall is_str (groups_set st) ->
  exists st',
    BuildDashboards.loop_body float_repr cfg st r = Ok st'
    /\ Forall is_str (groups_set st').
Proof.
  intros Hr Hs. unfold BuildDashboards.loop_body.
  destruct (negb _); [now exists st|].
  destruct (to_number_csv float_repr r (valueField cfg) Hr) as [v Hv].
  assert (Hcase :
            forall g, (truthy g = true -> is_str g) ->
              exists st',
                (value <- BuildDashboards.to_number float_repr
                            (row_get r (valueField cfg) (SNum (NInt 0))) ;;
                 (if negb (truthy g) then Ok st
                  else Ok (BuildDashboards.record_value st g
                             (BuildDashboards.series_value_of cfg r) value)))
                = Ok st'
                /\ Forall is_str (groups_set st')).
  { intros g Hg. rewrite Hv. cbn [bind].
    destruct (truthy g); cbn [negb]; [|now exists st].
    eexists. split; [reflexivity|]. cbn [BuildDashboards.record_value groups_set].
    apply set_add_forall; auto. }
  destruct (extractYear cfg).
  - destruct (BuildDashboards.extract_year float_repr _) as [y|].
    + apply Hcase. intros _. exact I.
    + eexists. split; [reflexivity|exact Hs].
  - apply Hcase. apply truthy_no_number_is_str.
    destruct (row_get_csv r (groupBy cfg) (SStr "") Hr) as [-> | Hn];
      [exact I|exact Hn].
Qed.

Lemma for_rows_csv (float_repr : float -> string) (cfg : config)
  (rows : list row) :
  Forall csv_row rows ->
  forall st,
    Forall is_str (groups_set st) ->
    exists st',
      BuildDashboards.for_rows float_repr cfg st rows = Ok st'
      /\ Forall is_str (groups_set st').
Proof.
  induction 1 as [|r rows Hr Hrows IH]; intros st Hs;
    cbn [BuildDashboards.for_rows]; [now exists st|].
  destruct (loop_body_csv float_repr cfg st r Hr Hs) as (st1 & -> & Hs1).
  cbn [bind]. exact (IH st1 Hs1).
Qed.

Lemma mapM_keyed_strings_raise (l : list scalar) (e : exn) :
  Forall is_str l ->
  mapM (fun x => k <- py_int x ;; Ok (k, x)) l = Raise e -> e = ValueError.
Proof.
  induction 1 as [|x l Hx Hl IH]; cbn [mapM]; [discriminate|].
  destruct (py_int x) as [k|e'] eqn:E; cbn [bind].
  - destruct (mapM _ l) as [ks|e'']; cbn [bind]; [discriminate|].
    intros H. injection H as <-. now apply IH.
  - intros H. injection H as <-.
    destruct x as [|s|n]; try destruct Hx.
    exact (py_int_string_raises s e' E).
Qed.

Lemma sort_groups_strings (set_iter : list scalar -> list scalar)
  (gs : list scalar) :
  set_iter_ok set_iter -> Forall is_str gs ->
  exists gs', BuildDashboards.sort_groups set_iter gs = Ok gs'.
Proof.
  intros Hsi Hs.
  assert (Hs' : Forall is_str (set_iter gs)).
  { exact (Permutation_Forall (Permutation_sym (Hsi gs)) Hs). }
  unfold BuildDashboards.sort_groups.
  destruct (mapM _ (set_iter gs)) as [keyed|e] eqn:E; [now eexists|].
  rewrite (mapM_keyed_strings_raise _ _ Hs' E).
  destruct (sorted_strings _ Hs') as (l' & -> & _). now exists l'.
Qed.

(** On records without numbers, as read from CSV, [aggregate_data] always
    returns. *)
Lemma aggregate_data_returns_on_csv (float_repr : float -> string)
  (set_iter : list scalar -> list scalar) (rows : list row) (cfg : config) :
  set_iter_ok set_iter -> Forall csv_row rows ->
  exists r, BuildDashboards.aggregate_data float_repr set_iter rows cfg = Ok r.
Proof.
  intros Hsi Hrows. unfold BuildDashboards.aggregate_data.
  destruct (for_rows_csv float_repr cfg rows Hrows init_state)
    as (st & -> & Hs); [constructor|].
  cbn [bind]. unfold BuildDashboards.finish.
  destruct (sort_groups_strings set_iter (groups_set st) Hsi Hs) as [gs ->].
  cbn [bind]. now eexists.
Qed.

(** ** Group ordering *)








(** ** Sum conservation *)

Lemma lookup2_record_value (st : agg_state) (g' s' g s : scalar) (v : float) :
  lookup2 (BuildDashboards.record_value st g' s' v) g s
  = if key_eqb g' g && key_eqb s' s
    then Some (fadd (or_zero (lookup2 st g s)) v)
    else lookup2 st g s.
Proof.
  unfold lookup2, dict_item. cbn [BuildDashboards.record_value totals].
  destruct (key_eqb g' g) eqn:Eg; cbn [andb].
  - rewrite (dict_get_update_hit _ g' g _ _ Eg). unfold dict_item.
    destruct (key_eqb s' s) eqn:Es.
    + rewrite (dict_get_update_hit _ s' s _ _ Es). unfold dict_item.
      now destruct (dict_get (totals st) g) as [gm|].
    + rewrite (dict_get_update_miss _ s' s _ _ Es).
      now destruct (dict_get (totals st) g) as [gm|].
  - now rewrite (dict_get_update_miss _ g' g _ _ Eg).
Qed.

Lemma loop_body_lookup2 (float_repr : float -> string) (cfg : config)
  (st st' : agg_state) (r : row) (g s : scalar) :
  truthy g = true ->
  BuildDashboards.loop_body float_repr cfg st r = Ok st' ->
  if contributes float_repr cfg g s r
  then exists v,
         normalized_value float_repr cfg r = Ok v
         /\ lookup2 st' g s = Some (fadd (or_zero (lookup2 st g s)) v)
  else lookup2 st' g s = lookup2 st g s.
Proof.
  intros Hg. unfold BuildDashboards.loop_body, contributes, resulting_group,
    normalized_value.
  destruct (BuildDashboards.row_matches_filter float_repr r (filterSpec cfg));
    cbn [negb]; [|intros H; now injection H as <-].
  set (raw := row_get r (groupBy cfg) (SStr "")).
  assert (Hcase :
            forall g',
              (v <- BuildDashboards.to_number float_repr
                      (row_get r (valueField cfg) (SNum (NInt 0))) ;;
               (if negb (truthy g') then Ok st
                else Ok (BuildDashboards.record_value st g'
                           (BuildDashboards.series_value_of cfg r) v)))
              = Ok st' ->
              if key_eqb g' g && key_eqb (BuildDashboards.series_value_of cfg r) s
              then exists v,
                     BuildDashboards.to_number float_repr
                       (row_get r (valueField cfg) (SNum (NInt 0))) = Ok v
                     /\ lookup2 st' g s
                        = Some (fadd (or_zero (lookup2 st g s)) v)
              else lookup2 st' g s = lookup2 st g s).
  { intros g'.
    destruct (BuildDashboards.to_number _ _) as [v|e]; cbn [bind];
      [|discriminate].
    destruct (truthy g') eqn:Hg'; cbn [negb]; intros H; injection H as <-.
    - rewrite lookup2_record_value.
      destruct (key_eqb g' g && key_eqb _ s); [now exists v|reflexivity].
    - destruct (key_eqb g' g) eqn:E; cbn [andb]; [|reflexivity].
      rewrite (truthy_key_eqb _ _ E) in Hg'. congruence. }
  destruct (extractYear cfg).
  - destruct (BuildDashboards.extract_year float_repr raw) as [y|];
      cbn [option_map].
    + apply Hcase.
    + intros H. now injection H as <-.
  - apply Hcase.
Qed.

Lemma for_rows_lookup2 (float_repr : float -> string) (cfg : config)
  (g s : scalar) (rows : list row) :
  truthy g = true ->
  forall st st',
    BuildDashboards.for_rows float_repr cfg st rows = Ok st' ->
    exists vals,
      mapM (normalized_value float_repr cfg)
        (List.filter (contributes float_repr cfg g s) rows) = Ok vals
      /\ lookup2 st' g s
         = match vals with
           | [] => lookup2 st g s
           | _ :: _ => Some (fold_left fadd vals (or_zero (lookup2 st g s)))
           end.
Proof.
  intros Hg. induction rows as [|r rows IH]; intros st st';
    cbn [BuildDashboards.for_rows List.filter].
  - intros H. injection H as <-. now exists [].
  - destruct (BuildDashboards.loop_body float_repr cfg st r) as [st1|e] eqn:E;
      cbn [bind]; [|discriminate].
    intros H. destruct (IH st1 st' H) as (vals & Hm & Hv).
    pose proof (loop_body_lookup2 float_repr cfg st st1 r g s Hg E) as Hr.
    destruct (contributes float_repr cfg g s r).
    + destruct Hr as (v & Hnv & Hl). exists (v :: vals).
      cbn [mapM]. rewrite Hnv, Hm. cbn [bind]. split; [reflexivity|].
      rewrite Hv, Hl. cbn [or_zero fold_left]. now destruct vals.
    + exists vals. split; [exact Hm|]. now rewrite Hv, Hr.
Qed.

Lemma build_data_cell (st : agg_state) (gs sl : list scalar)
  (g s : scalar) (sd : list (scalar * number)) (v : number) :
  In (g, sd) (BuildDashboards.build_data st gs sl) -> In (s, v) sd ->
  In g gs
  /\ v = match lookup2 st g s with
         | Some x => NFloat x
         | None => NInt 0
         end.
Proof.
  unfold BuildDashboards.build_data. intros Hd Hs.
  apply in_map_iff in Hd. destruct Hd as (g0 & E & Hin).
  injection E as -> <-.
  apply in_map_iff in Hs. destruct Hs as (s0 & E & _).
  injection E as -> <-. split; [exact Hin|reflexivity].
Qed.

(** C2. The value of a retained (group, series) pair is the sum, by float
    additions in input order, of the normalized values of exactly the
    records that pass the filter, are not dropped by the year extraction and
    have that group key and that series key (the integer 0 when there is no
    such record).  A record has the key [g] when the dictionary finds its
    key as [g]: the two are [==], or they are the same NaN object. *)
Theorem sum_conservation :
  forall (float_repr : float -> string)
         (set_iter : list scalar -> list scalar)
         (rows : list row) (cfg : config) (r : aggregated),
    set_iter_ok set_iter ->
    BuildDashboards.aggregate_data float_repr set_iter rows cfg = Ok r ->
    forall g sd s v,
      In (g, sd) (data r) -> In (s, v) sd ->
      exists vals,
        mapM (normalized_value float_repr cfg)
          (List.filter (contributes float_repr cfg g s) rows) = Ok vals
        /\ v = match vals with
               | [] => NInt 0
               | _ :: _ => NFloat (py_sum vals)
               end.
Proof.
  intros float_repr set_iter rows cfg r Hsi H g sd s v Hd Hs.
  destruct (aggregate_data_inv _ _ _ _ _ H) as (st & Hl & Hf).
  destruct (finish_inv _ _ _ _ Hf) as (Hg & _ & Hdata).
  rewrite Hdata in Hd.
  destruct (build_data_cell _ _ _ _ _ _ _ Hd Hs) as [Hin ->].
  assert (Ht : truthy g = true).
  { destruct (for_rows_inv _ _ _ _ _ Hl init_state_inv) as [_ Hall].
    rewrite Forall_forall in Hall. apply Hall.
    exact (Permutation_in g (sort_groups_perm _ _ _ Hsi Hg) Hin). }
  destruct (for_rows_lookup2 float_repr cfg g s rows Ht _ _ Hl)
    as (vals & Hm & Hv).
  exists vals. split; [exact Hm|].
  rewrite Hv. now destruct vals.
Qed.

Lemma sum_conservation_witness :
  set_iter_ok insertion_order
  /\ exists r,
       BuildDashboards.aggregate_data no_float_repr insertion_order
         scenario_rows scenario_config = Ok r
       /\ In (SStr "2023",
              [(SStr "Health", NFloat (S754_finite false 5277655813324800 (-45)));
               (SStr "Defence", NInt 0)])
            (data r)
       /\ exists vals,
            mapM (normalized_value no_float_repr scenario_config)
              (List.filter
                 (contributes no_float_repr scenario_config
                    (SStr "2023") (SStr "Health"))
                 scenario_rows) = Ok vals
            /\ NFloat (S754_finite false 5277655813324800 (-45))
               = match vals with
                 | [] => NInt 0
                 | _ :: _ => NFloat (py_sum vals)
                 end.
Proof.
  split; [exact insertion_order_ok|].
  eexists. split; [reflexivity|].
  split; [right; left; reflexivity|].
  apply (sum_conservation no_float_repr insertion_order
           scenario_rows scenario_config _ insertion_order_ok eq_refl
           (SStr "2023")
           [(SStr "Health", NFloat (S754_finite false 5277655813324800 (-45)));
            (SStr "Defence", NInt 0)]
           (SStr "Health")).
  - right. left. reflexivity.
  - left. reflexivity.
Defined.

(** Keys that are NaN are summed as the dictionaries find them, by
    identity: the two records that hold the NaN object 1 make one group
    and one series with the value 2.0, the record that holds the NaN
    object 2 makes another. *)
Lemma nan_keys_are_found_by_identity :
  forall (float_repr : float -> string)
         (set_iter : list scalar -> list scalar),
    set_iter_ok set_iter ->
    exists r,
      BuildDashboards.aggregate_data float_repr set_iter nan_key_rows
        (gsv_config 10 false) = Ok r
      /\ Permutation (groups r) [SNum (NNan 1); SNum (NNan 2)]
      /\ series r = [SNum (NNan 2); SNum (NNan 1)]
      /\ In (SNum (NNan 1),
             [(SNum (NNan 2), NInt 0); (SNum (NNan 1), NFloat float_two)])
           (data r)
      /\ In (SNum (NNan 2),
             [(SNum (NNan 2), NFloat float_five); (SNum (NNan 1), NInt 0)])
           (data r).
Proof.
  intros float_repr set_iter Hsi.
  unfold BuildDashboards.aggregate_data.
  replace (BuildDashboards.for_rows float_repr (gsv_config 10 false)
             init_state nan_key_rows)
    with (Ok {| totals :=
                  [(SNum (NNan 1), [(SNum (NNan 1), float_two)]);
                   (SNum (NNan 2), [(SNum (NNan 2), float_five)])];
                series_totals :=
                  [(SNum (NNan 1), float_two); (SNum (NNan 2), float_five)];
                groups_set := [SNum (NNan 1); SNum (NNan 2)];
                series_set := [SNum (NNan 1); SNum (NNan 2)];
                skipped_rows := 0%nat |})
    by reflexivity.
  cbn [bind].
  unfold BuildDashboards.finish, BuildDashboards.sort_groups,
    BuildDashboards.select_series.
  cbn [groups_set series_set gsv_config topSeriesPerGroup andb].
  destruct (set_iter_pair set_iter (SNum (NNan 1)) (SNum (NNan 2)) Hsi)
    as [E|E]; rewrite E; eexists; (split; [reflexivity|]).
  - split; [apply Permutation_refl|]. split; [reflexivity|].
    split; [left; reflexivity|right; left; reflexivity].
  - split; [apply perm_swap|]. split; [reflexivity|].
    split; [right; left; reflexivity|left; reflexivity].
Qed.

(** * Further properties of the code *)

(** ** Rows that fail the filter *)

Lemma for_rows_filtered (float_repr : float -> string) (cfg : config)
  (rows : list row) :
  forall st,
    BuildDashboards.for_rows float_repr cfg st rows
    = BuildDashboards.for_rows float_repr cfg st
        (List.filter
           (fun r => BuildDashboards.row_matches_filter float_repr r
                       (filterSpec cfg))
           rows).
Proof.
  induction rows as [|r rows IH]; intros st; [reflexivity|].
  cbn [List.filter].
  destruct (BuildDashboards.row_matches_filter float_repr r (filterSpec cfg))
    eqn:E; cbn [BuildDashboards.for_rows].
  - destruct (BuildDashboards.loop_body float_repr cfg st r); cbn [bind];
      [apply IH|reflexivity].
  - unfold BuildDashboards.loop_body at 1. rewrite E. cbn [negb bind].
    apply IH.
Qed.

(** X1. A row that fails the filter has no effect at all: it is not
    normalized, counted or able to raise; aggregating all the rows and
    aggregating only those that pass the filter give the same result. *)
Theorem rejected_rows_have_no_effect :
  forall (float_repr : float -> string)
         (set_iter : list scalar -> list scalar)
         (rows : list row) (cfg : config),
    BuildDashboards.aggregate_data float_repr set_iter rows cfg
    = BuildDashboards.aggregate_data float_repr set_iter
        (List.filter
           (fun r => BuildDashboards.row_matches_filter float_repr r
                       (filterSpec cfg))
           rows)
        cfg.
Proof.
  intros. unfold BuildDashboards.aggregate_data.
  now rewrite <- for_rows_filtered.
Qed.

(** ** The two settings of the series selection *)

Lemma for_rows_set_minSeriesTotal (float_repr : float -> string)
  (cfg : config) (m : number) (rows : list row) :
  forall st,
    BuildDashboards.for_rows float_repr (set_minSeriesTotal cfg m) st rows
    = BuildDashboards.for_rows float_repr cfg st rows.
Proof.
  induction rows as [|r rows IH]; intros st; [reflexivity|].
  cbn [BuildDashboards.for_rows].
  change (BuildDashboards.loop_body float_repr (set_minSeriesTotal cfg m) st r)
    with (BuildDashboards.loop_body float_repr cfg st r).
  destruct (BuildDashboards.loop_body float_repr cfg st r);
    [apply IH|reflexivity].
Qed.

(** X2. Under the per-group policy [minSeriesTotal] is ignored: the result
    is the same for every value of it. *)
Theorem per_group_policy_ignores_min_total :
  forall (float_repr : float -> string)
         (set_iter : list scalar -> list scalar)
         (rows : list row) (cfg : config) (m : number),
    topSeriesPerGroup cfg = true ->
    BuildDashboards.aggregate_data float_repr set_iter rows
      (set_minSeriesTotal cfg m)
    = BuildDashboards.aggregate_data float_repr set_iter rows cfg.
Proof.
  intros float_repr set_iter rows cfg m Ht.
  unfold BuildDashboards.aggregate_data.
  rewrite for_rows_set_minSeriesTotal.
  destruct (BuildDashboards.for_rows float_repr cfg init_state rows) as [st|e];
    cbn [bind]; [|reflexivity].
  unfold BuildDashboards.finish, BuildDashboards.select_series.
  cbn [topSeriesPerGroup maxSeries minSeriesTotal set_minSeriesTotal].
  rewrite Ht. cbn [andb].
  destruct (maxSeries cfg =? 0) eqn:E; cbn [negb]; [|reflexivity].
  apply Z.eqb_eq in E. rewrite E. reflexivity.
Qed.

Lemma per_group_policy_ignores_min_total_witness :
  topSeriesPerGroup (gsv_config 1 true) = true
  /\ BuildDashboards.aggregate_data no_float_repr insertion_order
       two_group_rows (set_minSeriesTotal (gsv_config 1 true) (NInt 1000))
     = Ok two_group_top1_result.
Proof.
  split; [reflexivity|].
  rewrite (per_group_policy_ignores_min_total no_float_repr insertion_order
             two_group_rows (gsv_config 1 true) (NInt 1000) eq_refl).
  reflexivity.
Defined.

(** X3. Under the global policy the top-N lists are nested: for
    [0 <= n <= m] the series list for [maxSeries = n] is the first [n]
    entries of the list for [maxSeries = m], and the groups are the same. *)
Theorem global_top_n_nested :
  forall (float_repr : float -> string)
         (set_iter : list scalar -> list scalar)
         (rows : list row) (cfg : config) (n m : Z) (r1 r2 : aggregated),
    topSeriesPerGroup cfg = false ->
    0 <= n <= m ->
    BuildDashboards.aggregate_data float_repr set_iter rows
      (set_maxSeries cfg n) = Ok r1 ->
    BuildDashboards.aggregate_data float_repr set_iter rows
      (set_maxSeries cfg m) = Ok r2 ->
    groups r1 = groups r2
    /\ series r1 = firstn (Z.to_nat n) (series r2).
Proof.
  intros float_repr set_iter rows cfg n m r1 r2 Ht Hnm H1 H2.
  destruct (aggregate_data_inv _ _ _ _ _ H1) as (st1 & Hl1 & Hf1).
  destruct (aggregate_data_inv _ _ _ _ _ H2) as (st2 & Hl2 & Hf2).
  rewrite for_rows_set_maxSeries in Hl1, Hl2.
  rewrite Hl1 in Hl2. injection Hl2 as <-.
  destruct (finish_inv _ _ _ _ Hf1) as (Hg1 & Hs1 & _).
  destruct (finish_inv _ _ _ _ Hf2) as (Hg2 & Hs2 & _).
  split; [congruence|].
  rewrite Hs1, Hs2. unfold BuildDashboards.select_series.
  cbn [topSeriesPerGroup maxSeries minSeriesTotal set_maxSeries].
  rewrite Ht. cbn [andb]. unfold slice_to.
  destruct (0 <=? n) eqn:En; [|apply Z.leb_gt in En; lia].
  destruct (0 <=? m) eqn:Em; [|apply Z.leb_gt in Em; lia].
  rewrite firstn_firstn. f_equal. lia.
Qed.

Lemma global_top_n_nested_witness :
  topSeriesPerGroup (gsv_config 0 false) = false
  /\ 0 <= 1 <= 2
  /\ exists r1 r2,
       BuildDashboards.aggregate_data no_float_repr insertion_order
         two_group_rows (set_maxSeries (gsv_config 0 false) 1) = Ok r1
       /\ BuildDashboards.aggregate_data no_float_repr insertion_order
            two_group_rows (set_maxSeries (gsv_config 0 false) 2) = Ok r2
       /\ series r2 = [SStr "X"; SStr "Y"]
       /\ groups r1 = groups r2
       /\ series r1 = firstn (Z.to_nat 1) (series r2).
Proof.
  split; [reflexivity|]. split; [lia|].
  eexists. eexists. split; [reflexivity|]. split; [reflexivity|].
  split; [reflexivity|].
  apply (global_top_n_nested no_float_repr insertion_order two_group_rows
           (gsv_config 0 false) 1 2 _ _ eq_refl ltac:(lia) eq_refl eq_refl).
Defined.

(** ** Currency formatting *)

Lemma remove_char_app (c : ascii) (a b : string) :
  remove_char c (a ++ b)%string
  = (remove_char c a ++ remove_char c b)%string.
Proof.
  induction a as [|d a IH]; cbn [append remove_char]; [reflexivity|].
  destruct (Ascii.eqb d c); cbn [append]; now rewrite IH.
Qed.

Lemma cleaned_app (a b : string) :
  cleaned (a ++ b)%string = (cleaned a ++ cleaned b)%string.
Proof. unfold cleaned. now rewrite !remove_char_app. Qed.

(** X4. The characters ['$'], [','] and [' '] are ignored wherever they
    stand in a string: inserting one anywhere does not change the number
    (so a decimal comma is dropped, not read as a decimal point). *)
Theorem to_number_ignores_formatting :
  forall (float_repr : float -> string) (a b : string) (c : ascii),
    c = "$"%char \/ c = ","%char \/ c = " "%char ->
    BuildDashboards.to_number float_repr (SStr (a ++ String c b)%string)
    = BuildDashboards.to_number float_repr (SStr (a ++ b)%string).
Proof.
  intros float_repr a b c Hc. rewrite !to_number_string. do 3 f_equal.
  rewrite !cleaned_app. f_equal.
  destruct Hc as [-> | [-> | ->]]; reflexivity.
Qed.

Lemma to_number_ignores_formatting_witness :
  BuildDashboards.to_number no_float_repr (SStr "1,5")
  = BuildDashboards.to_number no_float_repr (SStr "15").
Proof.
  exact (to_number_ignores_formatting no_float_repr "1" "5" ","
           (or_intror (or_introl eq_refl))).
Defined.

(** ** Letter case in the row filter *)

Lemma lower_char_idem (c : ascii) : lower_char (lower_char c) = lower_char c.
Proof.
  destruct ((65 <=? code c)%nat && (code c <=? 90)%nat) eqn:E.
  - assert (El : lower_char c = ascii_of_nat (code c + 32)).
    { unfold lower_char. now rewrite E. }
    rewrite El.
    apply andb_true_iff in E. destruct E as [E1 E2].
    apply Nat.leb_le in E1, E2.
    assert (Hc : code (ascii_of_nat (code c + 32)) = (code c + 32)%nat).
    { unfold code in *. apply nat_ascii_embedding. lia. }
    unfold lower_char. rewrite Hc.
    replace ((code c + 32 <=? 90)%nat) with false
      by (symmetry; apply Nat.leb_gt; lia).
    now rewrite andb_false_r.
  - assert (El : lower_char c = c).
    { unfold lower_char. now rewrite E. }
    now rewrite !El.
Qed.

Lemma lower_idem (s : string) : lower (lower s) = lower s.
Proof.
  induction s as [|c s IH]; cbn [lower]; [reflexivity|].
  now rewrite lower_char_idem, IH.
Qed.

Lemma existsb_lower_items (v : string) (items : list string) :
  existsb (fun item => contains (lower item) v) (map lower items)
  = existsb (fun item => contains (lower item) v) items.
Proof.
  induction items as [|item items IH]; cbn [map existsb]; [reflexivity|].
  now rewrite lower_idem, IH.
Qed.

Lemma lower_is_empty (s : string) : is_empty (lower s) = is_empty s.
Proof. now destruct s. Qed.

(** X5. The [contains] test ignores letter case on both sides: writing
    the items in lower case, or (without an [include] list) the field value
    in lower case, does not change the outcome. *)
Theorem contains_ignores_case :
  forall (float_repr : float -> string) (r : row) (fld : option string)
         (incl : option (list string)) (items : list string),
    BuildDashboards.row_matches_filter float_repr r
      (Some {| flt_field := fld; flt_include := incl;
               flt_contains := Some (map lower items) |})
    = BuildDashboards.row_matches_filter float_repr r
        (Some {| flt_field := fld; flt_include := incl;
                 flt_contains := Some items |})
    /\ (forall (f s : string),
          BuildDashboards.row_matches_filter float_repr [(f, SStr (lower s))]
            (Some {| flt_field := Some f; flt_include := None;
                     flt_contains := Some items |})
          = BuildDashboards.row_matches_filter float_repr [(f, SStr s)]
              (Some {| flt_field := Some f; flt_include := None;
                       flt_contains := Some items |})).
Proof.
  intros float_repr r fld incl items. split.
  - unfold BuildDashboards.row_matches_filter, BuildDashboards.filter_is_empty.
    cbn [flt_field flt_include flt_contains].
    now rewrite existsb_lower_items.
  - intros f s.
    unfold BuildDashboards.row_matches_filter, BuildDashboards.filter_is_empty.
    cbn [flt_field flt_include flt_contains row_get].
    rewrite String.eqb_refl. cbn [truthy]. rewrite lower_is_empty.
    destruct (is_empty s) eqn:E; cbn [negb py_str].
    + reflexivity.
    + now rewrite lower_idem.
Qed.

(** ** The mapping filter against the row filter *)

Lemma any_contains_string (s : string) (items : list string) :
  UpdateData.any_contains (SStr s) items
  = Ok (existsb (fun item => contains (lower item) (lower s)) items).
Proof.
  induction items as [|item items IH];
    cbn [UpdateData.any_contains UpdateData.lower_method bind existsb];
    [reflexivity|].
  destruct (contains (lower item) (lower s)); [reflexivity|exact IH].
Qed.

Lemma filter_value_cases (r : row) (f : string) :
  is_number (filter_value r f) = false ->
  exists s, filter_value r f = SStr s.
Proof.
  unfold filter_value.
  destruct (row_get r f (SStr "")) as [|s|n]; cbn [truthy].
  - now exists "".
  - destruct (negb (is_empty s)); [now exists s|now exists ""].
  - destruct (negb _); [discriminate|now exists ""].
Qed.

(** X6. Where the tested field holds a string, [None], nothing or a falsy
    number, [row_matches_mapping] of [update_data.py] returns what
    [row_matches_filter] of [build_dashboards.py] returns for the same
    field, [include] list and substring list. *)
Theorem mapping_agrees_with_filter :
  forall (float_repr : float -> string) (r : row) (fld : option string)
         (incl cts : option (list string)),
    is_number
      (filter_value r match fld with Some f => f | None => "" end) = false ->
    UpdateData.row_matches_mapping r
      (Some {| map_field := fld; map_include := incl;
               map_includeContains := cts |})
    = Ok (BuildDashboards.row_matches_filter float_repr r
            (Some {| flt_field := fld; flt_include := incl;
                     flt_contains := cts |})).
Proof.
  intros float_repr r fld incl cts Hn.
  destruct (filter_value_cases _ _ Hn) as [s Hs].
  unfold UpdateData.row_matches_mapping, UpdateData.mapping_is_empty,
    BuildDashboards.row_matches_filter, BuildDashboards.filter_is_empty.
  cbn [flt_field flt_include flt_contains map_field map_include
         map_includeContains].
  fold (filter_value r match fld with Some f => f | None => "" end).
  rewrite Hs. cbn [py_str].
  destruct fld, incl as [l|], cts as [items|]; cbn [bind];
    try reflexivity;
    try (destruct (negb (existsb _ l)); [reflexivity|]);
    try (rewrite any_contains_string; cbn [bind];
         destruct (existsb _ items); reflexivity);
    reflexivity.
Qed.

Lemma mapping_agrees_with_filter_witness :
  is_number (filter_value [("dept", SStr "Health Canada")] "dept") = false
  /\ UpdateData.row_matches_mapping [("dept", SStr "Health Canada")]
       (Some {| map_field := Some "dept"; map_include := None;
                map_includeContains := Some ["HEALTH"] |})
     = Ok true.
Proof.
  split; [reflexivity|].
  rewrite (mapping_agrees_with_filter no_float_repr
             [("dept", SStr "Health Canada")] (Some "dept") None
             (Some ["HEALTH"]) eq_refl).
  reflexivity.
Defined.

(** X7. [row_matches_mapping] raises exactly when the tested field holds a
    truthy number, there is no [include] list and [includeContains] is not
    empty: [value.lower()] is then called on a number.  The exception is
    [AttributeError]; [row_matches_filter] calls [str(value)] first and has
    no such case. *)
Theorem mapping_raises_on_numbers :
  forall (r : row) (fld : option string) (incl cts : option (list string)),
    (is_ok (UpdateData.row_matches_mapping r
              (Some {| map_field := fld; map_include := incl;
                       map_includeContains := cts |})) = false
     <-> (is_number
            (filter_value r match fld with Some f => f | None => "" end)
          = true
          /\ incl = None
          /\ exists item items, cts = Some (item :: items)))
    /\ (forall e,
          UpdateData.row_matches_mapping r
            (Some {| map_field := fld; map_include := incl;
                     map_includeContains := cts |}) = Raise e ->
          e = AttributeError).
Proof.
  intros r fld incl cts.
  unfold UpdateData.row_matches_mapping, UpdateData.mapping_is_empty.
  cbn [map_field map_include map_includeContains].
  fold (filter_value r match fld with Some f => f | None => "" end).
  destruct (filter_value r match fld with Some f => f | None => "" end)
    as [|s|n] eqn:Ev; cbn [is_number].
  - (* None is replaced by the empty string *)
    unfold filter_value in Ev.
    destruct (truthy (row_get r _ (SStr ""))) eqn:Et.
    + rewrite Ev in Et. discriminate.
    + discriminate.
  - split.
    + split.
      * intros H. exfalso.
        destruct fld, incl as [l|], cts as [items|]; cbn [bind is_ok] in H;
          try discriminate;
          try (destruct (negb (existsb _ l)); cbn [is_ok] in H;
               try discriminate);
          try (rewrite any_contains_string in H; cbn [bind] in H;
               destruct (negb (existsb _ items)); discriminate).
      * intros [H _]. discriminate.
    + intros e H. exfalso.
      destruct fld, incl as [l|], cts as [items|]; cbn [bind] in H;
        try discriminate;
        try (destruct (negb (existsb _ l)); try discriminate);
        try (rewrite any_contains_string in H; cbn [bind] in H;
             destruct (negb (existsb _ items)); discriminate).
  - assert (Hincl : forall l, existsb (fun x => py_eqb (SStr x) (SNum n)) l
                              = false).
    { intros l. induction l; cbn; auto. }
    split.
    + split.
      * intros H. split; [reflexivity|].
        destruct incl as [l|].
        { rewrite Hincl in H. cbn [negb] in H.
          destruct fld; discriminate. }
        split; [reflexivity|].
        destruct cts as [[|item items]|].
        { destruct fld; discriminate. }
        { now exists item, items. }
        { destruct fld; discriminate. }
      * intros (_ & -> & item & items & ->).
        destruct fld; reflexivity.
    + intros e H.
      destruct incl as [l|].
      { rewrite Hincl in H. cbn [negb] in H. destruct fld; discriminate. }
      destruct cts as [[|item items]|].
      * destruct fld; discriminate.
      * destruct fld; cbn in H; congruence.
      * destruct fld; discriminate.
Qed.

Lemma mapping_raises_on_numbers_witness :
  is_number (filter_value [("year", SNum (NInt 2023))] "year") = true
  /\ UpdateData.row_matches_mapping [("year", SNum (NInt 2023))]
       (Some {| map_field := Some "year"; map_include := None;
                map_includeContains := Some ["2023"] |})
     = Raise AttributeError
  /\ BuildDashboards.row_matches_filter no_float_repr
       [("year", SNum (NInt 2023))]
       (Some {| flt_field := Some "year"; flt_include := None;
                flt_contains := Some ["2023"] |})
     = true.
Proof.
  split; [reflexivity|]. split; [|reflexivity].
  destruct (mapping_raises_on_numbers [("year", SNum (NInt 2023))]
              (Some "year") None (Some ["2023"])) as [[_ H] He].
  destruct (UpdateData.row_matches_mapping [("year", SNum (NInt 2023))]
              (Some {| map_field := Some "year"; map_include := None;
                       map_includeContains := Some ["2023"] |}))
    as [b|e] eqn:E.
  - exfalso. assert (Hf : is_ok (@Ok bool b) = false).
    { apply H. split; [reflexivity|]. split; [reflexivity|].
      now exists "2023", []. }
    discriminate Hf.
  - now rewrite (He e eq_refl).
Defined.

(** ** The two year extractors *)

Lemma match_year_4digits (s : string) :
  BuildDashboards.match_year s = true -> UpdateData.match_4digits s = true.
Proof.
  destruct s as [|a [|b [|c [|d rest]]]]; try discriminate.
  intros H. destruct (match_year_digits a b c d rest H) as (Ha & Hb & Hc & Hd).
  cbn [UpdateData.match_4digits]. now rewrite Ha, Hb, Hc, Hd.
Qed.

Lemma match_year_take4 (s : string) :
  BuildDashboards.match_year (BuildDashboards.take4 s)
  = BuildDashboards.match_year s.
Proof. now destruct s as [|a [|b [|c [|d rest]]]]. Qed.

Lemma re_search_4digits_year (s w : string) :
  UpdateData.re_search_4digits s = Some w ->
  BuildDashboards.match_year w = true ->
  BuildDashboards.re_search_year s = Some w.
Proof.
  induction s as [|c s IH]; cbn [UpdateData.re_search_4digits
                                   BuildDashboards.re_search_year];
    [discriminate|].
  destruct (UpdateData.match_4digits (String c s)) eqn:E4.
  - intros H Hw. injection H as <-.
    assert (Hy : BuildDashboards.match_year (String c s) = true).
    { rewrite <- match_year_take4. exact Hw. }
    now rewrite Hy.
  - intros H Hw.
    destruct (BuildDashboards.match_year (String c s)) eqn:Ey.
    + apply match_year_4digits in Ey. congruence.
    + now apply IH.
Qed.

Lemma re_search_year_4digits (s y : string) :
  BuildDashboards.re_search_year s = Some y ->
  exists w,
    UpdateData.re_search_4digits s = Some w
    /\ UpdateData.match_4digits w = true.
Proof.
  induction s as [|c s IH]; cbn [UpdateData.re_search_4digits
                                   BuildDashboards.re_search_year];
    [discriminate|].
  destruct (UpdateData.match_4digits (String c s)) eqn:E4.
  - intros _. eexists. split; [reflexivity|].
    destruct s as [|b [|c' [|d rest]]]; try discriminate. exact E4.
  - destruct (BuildDashboards.match_year (String c s)) eqn:Ey.
    + apply match_year_4digits in Ey. congruence.
    + apply IH.
Qed.

Lemma match_year_found (s : string) :
  BuildDashboards.match_year s = true ->
  BuildDashboards.re_search_year s = Some (BuildDashboards.take4 s).
Proof.
  destruct s as [|c s]; [discriminate|].
  cbn [BuildDashboards.re_search_year]. now intros ->.
Qed.

(** X8. The two extractors agree on plausible years: whenever the year of
    [update_data.py] is a 19xx or 20xx run, [build_dashboards.py] extracts
    the same one; and whenever [build_dashboards.py] extracts a year,
    [update_data.py] returns a run of 4 digits (the first of the text, in
    range or not). *)
Theorem year_extractors_agree_on_years :
  forall (float_repr : float -> string) (v : scalar),
    (BuildDashboards.match_year (UpdateData.extract_year float_repr v) = true ->
     BuildDashboards.extract_year float_repr v
     = Some (UpdateData.extract_year float_repr v))
    /\ (forall y,
          BuildDashboards.extract_year float_repr v = Some y ->
          UpdateData.match_4digits (UpdateData.extract_year float_repr v)
          = true).
Proof.
  intros float_repr v.
  unfold UpdateData.extract_year, BuildDashboards.extract_year.
  destruct (truthy v); cbn [negb]; [|split; [discriminate|discriminate]].
  rewrite re_search_year_strip.
  set (s := py_str float_repr v).
  split.
  - destruct (UpdateData.re_search_4digits s) as [w|] eqn:E.
    + intros Hw. now rewrite (re_search_4digits_year s w E Hw).
    + intros Hy. exfalso.
      pose proof (match_year_found _ Hy) as Hf.
      rewrite re_search_year_strip in Hf.
      destruct (re_search_year_4digits _ _ Hf) as (w & Hw & _). congruence.
  - intros y Hy.
    destruct (BuildDashboards.re_search_year s) as [y'|] eqn:Ey;
      [|discriminate].
    destruct (re_search_year_4digits _ _ Ey) as (w & -> & Hw). exact Hw.
Qed.

Lemma year_extractors_agree_on_years_witness :
  BuildDashboards.match_year
    (UpdateData.extract_year no_float_repr (SStr "FY 2023-2024")) = true
  /\ BuildDashboards.extract_year no_float_repr (SStr "FY 2023-2024")
     = Some "2023".
Proof.
  split; [reflexivity|].
  exact (proj1 (year_extractors_agree_on_years no_float_repr
                  (SStr "FY 2023-2024")) eq_refl).
Defined.

(** X9. With [extractYear], a row whose group field is missing or falsy is
    counted under the group "Unknown" by [update_data.py], where
    [build_dashboards.py] skips it and counts it as skipped. *)
Theorem missing_year_is_unknown_in_update_data :
  forall (float_repr : float -> string) (cfg : config) (st : agg_state)
         (r : row),
    extractYear cfg = true ->
    truthy (row_get r (groupBy cfg) (SStr "")) = false ->
    UpdateData.loop_body float_repr cfg None st r
    = (value <- UpdateData.to_number float_repr
                  (row_get r (valueField cfg) (SNum (NInt 0))) ;;
       Ok (UpdateData.record_value st (SStr "Unknown")
             (UpdateData.series_value_of cfg r) value))
    /\ (BuildDashboards.row_matches_filter float_repr r (filterSpec cfg)
        = true ->
        BuildDashboards.loop_body float_repr cfg st r
        = Ok (BuildDashboards.skip_row st)).
Proof.
  intros float_repr cfg st r Hy Hg. split.
  - unfold UpdateData.loop_body. cbn [UpdateData.row_matches_mapping bind negb].
    rewrite Hy. unfold UpdateData.extract_year. rewrite Hg. reflexivity.
  - intros Hf. unfold BuildDashboards.loop_body. rewrite Hf, Hy.
    unfold BuildDashboards.extract_year. rewrite Hg. reflexivity.
Qed.

Lemma missing_year_is_unknown_in_update_data_witness :
  extractYear scenario_config = true
  /\ truthy (row_get [("amt", SStr "7")] (groupBy scenario_config) (SStr ""))
     = false
  /\ exists st,
       UpdateData.loop_body no_float_repr scenario_config None init_state
         [("amt", SStr "7")] = Ok st
       /\ groups_set st = [SStr "Unknown"]
       /\ BuildDashboards.loop_body no_float_repr scenario_config init_state
            [("amt", SStr "7")] = Ok (BuildDashboards.skip_row init_state).
Proof.
  split; [reflexivity|]. split; [reflexivity|].
  destruct (missing_year_is_unknown_in_update_data no_float_repr
              scenario_config init_state [("amt", SStr "7")] eq_refl eq_refl)
    as [Hu Hb].
  eexists. split; [rewrite Hu; reflexivity|]. split; [reflexivity|].
  exact (Hb eq_refl).
Defined.

(** ** The command line of [build_dashboards.py] *)

Lemma scan_args_spec (prog : string) (pre : list string) :
  ~ In "--dashboard" pre ->
  forall (seen rest : list string),
    scan_args (prog :: seen ++ pre ++ rest) (S (List.length seen))
      (pre ++ rest)
    = scan_args (prog :: seen ++ pre ++ rest)
        (S (List.length seen + List.length pre)) rest.
Proof.
  induction pre as [|a pre IH]; intros Hn seen rest.
  - cbn [app List.length]. now rewrite Nat.add_0_r.
  - cbn [app scan_args].
    destruct (String.eqb_spec a "--dashboard") as [->|_];
      [exfalso; apply Hn; now left|].
    cbn [andb].
    specialize (IH (fun H => Hn (or_intror H)) (seen ++ [a]) rest).
    rewrite <- !app_assoc in IH. cbn [app] in IH.
    rewrite length_app in IH. cbn [List.length] in IH.
    replace (S (List.length seen + 1)) with (S (S (List.length seen))) in IH
      by lia.
    rewrite IH. f_equal. cbn [List.length]. lia.
Qed.

(** X10. The argument loop of [main] takes the argument that follows the
    first [--dashboard] after the program name; its guard
    [i < len(sys.argv)] is always true, so a [--dashboard] in last position
    raises [IndexError]; without the flag nothing is selected. *)
Theorem parse_args_dashboard :
  forall (prog : string) (pre : list string),
    ~ In "--dashboard" pre ->
    parse_args (prog :: pre) = Parsed None
    /\ parse_args (prog :: pre ++ ["--dashboard"]) = RaiseIndexError
    /\ (forall v post,
          parse_args (prog :: pre ++ "--dashboard" :: v :: post)
          = Parsed (Some v)).
Proof.
  intros prog pre Hn. unfold parse_args. cbn [tl].
  split; [|split].
  - pose proof (scan_args_spec prog pre Hn [] []) as H.
    cbn [app List.length] in H. rewrite app_nil_r in H. exact H.
  - pose proof (scan_args_spec prog pre Hn [] ["--dashboard"]) as H.
    cbn [app List.length] in H. rewrite H. cbn [scan_args].
    rewrite String.eqb_refl. cbn [andb List.length].
    rewrite length_app. cbn [List.length].
    replace (S (0 + List.length pre) <? S (List.length pre + 1))%nat
      with true by (symmetry; apply Nat.ltb_lt; lia).
    replace (S (0 + List.length pre) + 1)%nat
      with (S (List.length pre + 1)) by lia.
    cbn [nth_error].
    rewrite nth_error_app2 by lia.
    replace (List.length pre + 1 - List.length pre)%nat with 1%nat by lia.
    reflexivity.
  - intros v post.
    pose proof (scan_args_spec prog pre Hn [] ("--dashboard" :: v :: post))
      as H.
    cbn [app List.length] in H. rewrite H. cbn [scan_args].
    rewrite String.eqb_refl. cbn [andb List.length].
    rewrite length_app. cbn [List.length].
    replace (S (0 + List.length pre)
             <? S (List.length pre + S (S (List.length post))))%nat
      with true by (symmetry; apply Nat.ltb_lt; lia).
    replace (S (0 + List.length pre) + 1)%nat
      with (S (List.length pre + 1)) by lia.
    cbn [nth_error].
    rewrite nth_error_app2 by lia.
    replace (List.length pre + 1 - List.length pre)%nat with 1%nat by lia.
    reflexivity.
Qed.

Lemma parse_args_dashboard_witness :
  ~ In "--dashboard" ["--verbose"]
  /\ parse_args ["build_dashboards.py"; "--verbose"; "--dashboard"]
     = RaiseIndexError
  /\ parse_args ["build_dashboards.py"; "--verbose"; "--dashboard";
                 "healthcare-top-10"]
     = Parsed (Some "healthcare-top-10").
Proof.
  assert (Hn : ~ In "--dashboard" ["--verbose"]).
  { intros [H|[]]. discriminate H. }
  split; [exact Hn|].
  destruct (parse_args_dashboard "build_dashboards.py" ["--verbose"] Hn)
    as (_ & He & Hv).
  split; [exact He|exact (Hv "healthcare-top-10" [])].
Defined.

(** ** Sets without equal keys *)

Lemma py_eqb_false_sym (a b : scalar) :
  py_eqb a b = false -> py_eqb b a = false.
Proof.
  intros H. destruct (py_eqb b a) eqn:E; [|reflexivity].
  apply py_eqb_sym in E. congruence.
Qed.

Lemma distinct_keys_snoc (l : list scalar) (x : scalar) :
  distinct_keys l -> set_mem l x = false -> distinct_keys (l ++ [x]).
Proof.
  unfold distinct_keys, set_mem.
  induction 1 as [|a l Ha Hl IH]; cbn [app existsb]; intros Hm.
  - repeat constructor.
  - apply orb_false_iff in Hm. destruct Hm as [Hax Hm].
    constructor; [|now apply IH].
    apply Forall_app. split; [exact Ha|].
    constructor; [now apply key_eqb_false_py|constructor].
Qed.

Lemma set_add_distinct (s : list scalar) (x : scalar) :
  distinct_keys s -> distinct_keys (set_add s x).
Proof.
  intros Hs. unfold set_add. destruct (set_mem s x) eqn:E; [exact Hs|].
  now apply distinct_keys_snoc.
Qed.

Lemma distinct_keys_perm (l l' : list scalar) :
  Permutation l l' -> distinct_keys l -> distinct_keys l'.
Proof.
  unfold distinct_keys.
  induction 1 as [|x l l' Hp IH|x y l|l l' l'' H1 IH1 H2 IH2]; intros H.
  - exact H.
  - inversion H as [|a l0 Ha Hl]; subst.
    constructor; [exact (Permutation_Forall Hp Ha)|now apply IH].
  - inversion H as [|a l0 Ha Hl]; subst.
    inversion Hl as [|b l1 Hb Hl']; subst.
    inversion Ha as [|c l2 Hyx Ha']; subst.
    constructor; [|now constructor].
    constructor; [now apply py_eqb_false_sym|exact Hb].
  - auto.
Qed.

Lemma distinct_keys_filter (f : scalar -> bool) (l : list scalar) :
  distinct_keys l -> distinct_keys (List.filter f l).
Proof.
  unfold distinct_keys.
  induction 1 as [|a l Ha Hl IH]; cbn [List.filter]; [constructor|].
  destruct (f a); [|exact IH].
  constructor; [|exact IH].
  rewrite Forall_forall in *. intros y Hy. apply filter_In in Hy.
  now apply Ha.
Qed.

Lemma distinct_keys_firstn (n : nat) (l : list scalar) :
  distinct_keys l -> distinct_keys (firstn n l).
Proof.
  unfold distinct_keys. intros H. revert n.
  induction H as [|a l Ha Hl IH]; intros [|n]; cbn [firstn];
    try constructor; [|apply IH].
  rewrite Forall_forall in *. intros y Hy. apply Ha.
  rewrite <- (firstn_skipn n l). apply in_or_app. now left.
Qed.

Lemma distinct_keys_slice (l : list scalar) (n : Z) :
  distinct_keys l -> distinct_keys (slice_to l n).
Proof.
  unfold slice_to. destruct (0 <=? n); apply distinct_keys_firstn.
Qed.

Lemma set_add_incl (s : list scalar) (x y : scalar) :
  In y s -> In y (set_add s x).
Proof.
  intros H. unfold set_add. destruct (set_mem s x); [exact H|].
  apply in_or_app. now left.
Qed.

Lemma set_add_has (s : list scalar) (x : scalar) :
  exists y, In y (set_add s x) /\ (y = x \/ py_eqb y x = true).
Proof.
  unfold set_add. destruct (set_mem s x) eqn:E.
  - unfold set_mem in E. apply existsb_exists in E.
    destruct E as (y & Hy & He). exists y.
    split; [exact Hy|exact (key_eqb_cases _ _ He)].
  - exists x. split; [apply in_or_app; right; now left|now left].
Qed.

(** ** The loop body through [resulting_group] *)

Lemma loop_body_alt (float_repr : float -> string) (cfg : config)
  (st : agg_state) (r : row) :
  BuildDashboards.loop_body float_repr cfg st r
  = match resulting_group float_repr cfg r with
    | Some g =>
        value <- normalized_value float_repr cfg r ;;
        if truthy g
        then Ok (BuildDashboards.record_value st g
                   (BuildDashboards.series_value_of cfg r) value)
        else Ok st
    | None =>
        if drops_year float_repr cfg r
        then Ok (BuildDashboards.skip_row st)
        else Ok st
    end.
Proof.
  unfold BuildDashboards.loop_body, resulting_group, drops_year,
    normalized_value.
  destruct (BuildDashboards.row_matches_filter float_repr r (filterSpec cfg));
    cbn [negb andb]; [|reflexivity].
  destruct (extractYear cfg); cbn [andb].
  - destruct (BuildDashboards.extract_year float_repr _) as [y|];
      cbn [option_map]; [|reflexivity].
    destruct (BuildDashboards.to_number float_repr _); cbn [bind];
      [|reflexivity].
    now destruct (truthy (SStr y)).
  - destruct (BuildDashboards.to_number float_repr _); cbn [bind];
      [|reflexivity].
    now destruct (truthy _).
Qed.

Lemma dict_update_nonempty {V : Type} (d : dict V) (k : scalar) (dflt : V)
  (f : V -> V) :
  dict_update d k dflt f <> [].
Proof.
  destruct d as [|[k0 v] d]; cbn [dict_update]; [discriminate|].
  destruct (key_eqb k0 k); discriminate.
Qed.

Lemma dict_update_keys_forall {V : Type} (P : scalar -> Prop) (d : dict V)
  (k : scalar) (dflt : V) (f : V -> V) :
  Forall (fun e => P (fst e)) d -> P k ->
  Forall (fun e => P (fst e)) (dict_update d k dflt f).
Proof.
  intros Hd Hk. induction Hd as [|[k0 v] d H0 Hd IH]; cbn [dict_update].
  - now repeat constructor.
  - destruct (key_eqb k0 k); constructor; auto.
Qed.

Lemma dict_update_values_forall {V : Type} (Q : V -> Prop) (d : dict V)
  (k : scalar) (dflt : V) (f : V -> V) :
  Forall (fun e => Q (snd e)) d -> (forall v, Q v -> Q (f v)) ->
  Q (f dflt) ->
  Forall (fun e => Q (snd e)) (dict_update d k dflt f).
Proof.
  intros Hd Hf Hdf. induction Hd as [|[k0 v] d H0 Hd IH]; cbn [dict_update].
  - now repeat constructor.
  - destruct (key_eqb k0 k); constructor; auto. cbn. now apply Hf.
Qed.

Section KeysInvariant.
Variable float_repr : float -> string.
Variable cfg : config.
Variable rows : list row.

Lemma keys_inv_init : keys_inv float_repr cfg rows init_state.
Proof. unfold keys_inv. cbn. repeat split; constructor. Qed.

Lemma record_value_keys_inv (st : agg_state) (r : row) (g : scalar)
  (v : float) :
  In r rows -> resulting_group float_repr cfg r = Some g ->
  truthy g = true ->
  keys_inv float_repr cfg rows st ->
  keys_inv float_repr cfg rows
    (BuildDashboards.record_value st g
       (BuildDashboards.series_value_of cfg r) v).
Proof.
  intros Hin Hg Ht (Hk & Hsk & Hgd & Hsd & Hgo & Hso & Hinner).
  assert (Hs : series_origin float_repr cfg rows
                 (BuildDashboards.series_value_of cfg r)).
  { exists r, g. auto. }
  unfold keys_inv. cbn [BuildDashboards.record_value totals series_totals
                          groups_set series_set].
  repeat split.
  - now rewrite dict_update_keys, Hk.
  - now rewrite dict_update_keys, Hsk.
  - now apply set_add_distinct.
  - now apply set_add_distinct.
  - apply set_add_forall; [exact Hgo|]. now exists r.
  - now apply set_add_forall.
  - apply (dict_update_values_forall
             (fun gm : dict float =>
                gm <> []
                /\ Forall (fun e => series_origin float_repr cfg rows (fst e))
                     gm)).
    + exact Hinner.
    + intros gm [_ Hgm]. split; [apply dict_update_nonempty|].
      now apply dict_update_keys_forall.
    + split; [apply dict_update_nonempty|].
      now apply dict_update_keys_forall.
Qed.

Lemma loop_body_keys_inv (st st' : agg_state) (r : row) :
  In r rows ->
  BuildDashboards.loop_body float_repr cfg st r = Ok st' ->
  keys_inv float_repr cfg rows st -> keys_inv float_repr cfg rows st'.
Proof.
  intros Hin. rewrite loop_body_alt.
  destruct (resulting_group float_repr cfg r) as [g|] eqn:Eg.
  - destruct (normalized_value float_repr cfg r) as [v|e]; cbn [bind];
      [|discriminate].
    destruct (truthy g) eqn:Et; intros H; injection H as <-; [|auto].
    now apply record_value_keys_inv.
  - destruct (drops_year float_repr cfg r); intros H; injection H as <-; auto.
Qed.

Lemma for_rows_keys_inv (part : list row) :
  incl part rows ->
  forall st st',
    BuildDashboards.for_rows float_repr cfg st part = Ok st' ->
    keys_inv float_repr cfg rows st -> keys_inv float_repr cfg rows st'.
Proof.
  induction part as [|r part IH]; intros Hincl st st';
    cbn [BuildDashboards.for_rows].
  - intros H. now injection H as <-.
  - destruct (BuildDashboards.loop_body float_repr cfg st r) as [st1|e] eqn:E;
      cbn [bind]; [|discriminate].
    intros H Hinv. apply (IH (fun x Hx => Hincl x (or_intror Hx)) st1 st' H).
    apply (loop_body_keys_inv st st1 r); auto. apply Hincl. now left.
Qed.

(** Every contributing row leaves its group key in the set. *)
Lemma loop_body_groups_grow (st st' : agg_state) (r : row) (y : scalar) :
  BuildDashboards.loop_body float_repr cfg st r = Ok st' ->
  In y (groups_set st) -> In y (groups_set st').
Proof.
  rewrite loop_body_alt.
  destruct (resulting_group float_repr cfg r) as [g|].
  - destruct (normalized_value float_repr cfg r) as [v|e]; cbn [bind];
      [|discriminate].
    destruct (truthy g); intros H; injection H as <-; [|auto].
    cbn [BuildDashboards.record_value groups_set]. apply set_add_incl.
  - destruct (drops_year float_repr cfg r); intros H; injection H as <-; auto.
Qed.

Lemma for_rows_groups_grow (part : list row) (y : scalar) :
  forall st st',
    BuildDashboards.for_rows float_repr cfg st part = Ok st' ->
    In y (groups_set st) -> In y (groups_set st').
Proof.
  induction part as [|r part IH]; intros st st';
    cbn [BuildDashboards.for_rows].
  - intros H. now injection H as <-.
  - destruct (BuildDashboards.loop_body float_repr cfg st r) as [st1|e] eqn:E;
      cbn [bind]; [|discriminate].
    intros H Hy. apply (IH st1 st' H).
    exact (loop_body_groups_grow st st1 r y E Hy).
Qed.

Lemma for_rows_groups_complete (part : list row) (r : row) (g : scalar) :
  In r part -> resulting_group float_repr cfg r = Some g ->
  truthy g = true ->
  forall st st',
    BuildDashboards.for_rows float_repr cfg st part = Ok st' ->
    exists y, In y (groups_set st') /\ (y = g \/ py_eqb y g = true).
Proof.
  intros Hin Hg Ht.
  induction part as [|r0 part IH]; [destruct Hin|].
  intros st st'. cbn [BuildDashboards.for_rows].
  destruct (BuildDashboards.loop_body float_repr cfg st r0) as [st1|e] eqn:E;
    cbn [bind]; [|discriminate].
  intros H. destruct Hin as [->|Hin]; [|exact (IH Hin st1 st' H)].
  rewrite loop_body_alt, Hg in E.
  destruct (normalized_value float_repr cfg r) as [v|e]; cbn [bind] in E;
    [|discriminate].
  rewrite Ht in E. injection E as <-.
  destruct (set_add_has (groups_set st) g) as (y & Hy & He).
  exists y. split; [|exact He].
  apply (for_rows_groups_grow part y _ st' H). exact Hy.
Qed.

Lemma for_rows_skipped (part : list row) :
  forall st st',
    BuildDashboards.for_rows float_repr cfg st part = Ok st' ->
    skipped_rows st'
    = (skipped_rows st
       + List.length (List.filter (drops_year float_repr cfg) part))%nat.
Proof.
  induction part as [|r part IH]; intros st st';
    cbn [BuildDashboards.for_rows List.filter].
  - intros H. injection H as <-. cbn. lia.
  - destruct (BuildDashboards.loop_body float_repr cfg st r) as [st1|e] eqn:E;
      cbn [bind]; [|discriminate].
    intros H. rewrite (IH st1 st' H).
    rewrite loop_body_alt in E. unfold drops_year in *.
    unfold resulting_group in E.
    destruct (BuildDashboards.row_matches_filter float_repr r (filterSpec cfg));
      cbn [andb] in *.
    + destruct (extractYear cfg); cbn [andb] in *.
      * destruct (BuildDashboards.extract_year float_repr _) as [y|];
          cbn [option_map] in E.
        -- destruct (normalized_value float_repr cfg r); cbn [bind] in E;
             [|discriminate].
           cbn [truthy] in E.
           destruct (negb (is_empty y)); injection E as <-; cbn; lia.
        -- injection E as <-. cbn. lia.
      * destruct (normalized_value float_repr cfg r); cbn [bind] in E;
          [|discriminate].
        destruct (truthy _); injection E as <-; cbn; lia.
    + injection E as <-. cbn. lia.
Qed.
End KeysInvariant.

(** ** The keys of the result *)

Lemma fold_set_add_distinct {B : Type} (xs : list (scalar * B))
  (top : list scalar) :
  distinct_keys top ->
  distinct_keys (fold_left (fun ts x => set_add ts (fst x)) xs top).
Proof.
  revert top. induction xs as [|x xs IH]; intros top H; cbn [fold_left];
    [exact H|].
  apply IH. now apply set_add_distinct.
Qed.

Lemma fold_set_add_forall {B : Type} (P : scalar -> Prop)
  (xs : list (scalar * B)) (top : list scalar) :
  Forall P top -> Forall (fun x => P (fst x)) xs ->
  Forall P (fold_left (fun ts x => set_add ts (fst x)) xs top).
Proof.
  revert top. induction xs as [|x xs IH]; intros top Ht Hx; cbn [fold_left];
    [exact Ht|].
  apply Forall_cons_iff in Hx. destruct Hx as [Hx Hxs].
  apply IH; [now apply set_add_forall|exact Hxs].
Qed.

Lemma ranked_incl (n : Z) (gm : dict float) (x : scalar * float) :
  In x (BuildDashboards.ranked n gm) -> In x gm.
Proof.
  unfold BuildDashboards.ranked, sorted_key. intros H.
  apply slice_to_incl in H. exact (Permutation_in x (sort_by_perm _ gm) H).
Qed.

Lemma top_series_of_distinct (n : Z) (tot : dict (dict float)) :
  distinct_keys (BuildDashboards.top_series_of n tot).
Proof.
  unfold BuildDashboards.top_series_of.
  assert (H : forall top,
             distinct_keys top ->
             distinct_keys
               (fold_left
                  (fun top_series group_map =>
                     fold_left (fun ts x => set_add ts (fst x))
                       (BuildDashboards.ranked n group_map) top_series)
                  (map snd tot) top)).
  { induction tot as [|[g gm] tot IH]; intros top Ht; cbn [map snd fold_left];
      [exact Ht|].
    apply IH. now apply fold_set_add_distinct. }
  apply H. constructor.
Qed.

Lemma top_series_of_forall (P : scalar -> Prop) (n : Z)
  (tot : dict (dict float)) :
  Forall (fun kv => Forall (fun e => P (fst e)) (snd kv)) tot ->
  Forall P (BuildDashboards.top_series_of n tot).
Proof.
  unfold BuildDashboards.top_series_of. intros Htot.
  assert (H : forall top,
             Forall P top ->
             Forall P
               (fold_left
                  (fun top_series group_map =>
                     fold_left (fun ts x => set_add ts (fst x))
                       (BuildDashboards.ranked n group_map) top_series)
                  (map snd tot) top)).
  { induction Htot as [|[g gm] tot Hgm Htot IH]; intros top Ht;
      cbn [map snd fold_left]; [exact Ht|].
    apply IH. apply fold_set_add_forall; [exact Ht|].
    apply Forall_forall. intros x Hx. cbn [snd] in Hgm.
    rewrite Forall_forall in Hgm. apply Hgm. exact (ranked_incl n gm x Hx). }
  apply H. constructor.
Qed.

Lemma select_series_distinct (float_repr : float -> string)
  (set_iter : list scalar -> list scalar) (cfg : config) (rows : list row)
  (st : agg_state) :
  set_iter_ok set_iter -> keys_inv float_repr cfg rows st ->
  distinct_keys (BuildDashboards.select_series set_iter cfg st).
Proof.
  intros Hsi (_ & _ & _ & Hsd & _).
  unfold BuildDashboards.select_series, sorted_key.
  destruct (topSeriesPerGroup cfg && negb (maxSeries cfg =? 0)).
  - apply (distinct_keys_perm _ _ (Permutation_sym (sort_by_perm _ _))).
    apply (distinct_keys_perm _ _ (Permutation_sym (Hsi _))).
    apply top_series_of_distinct.
  - apply distinct_keys_slice.
    apply (distinct_keys_perm _ _ (Permutation_sym (sort_by_perm _ _))).
    apply distinct_keys_filter.
    exact (distinct_keys_perm _ _ (Permutation_sym (Hsi _)) Hsd).
Qed.

Lemma select_series_in (set_iter : list scalar -> list scalar) (cfg : config)
  (st : agg_state) (s : scalar) :
  set_iter_ok set_iter ->
  In s (BuildDashboards.select_series set_iter cfg st) ->
  (topSeriesPerGroup cfg && negb (maxSeries cfg =? 0) = true
   /\ In s (BuildDashboards.top_series_of (maxSeries cfg) (totals st)))
  \/ (topSeriesPerGroup cfg && negb (maxSeries cfg =? 0) = false
      /\ In s (series_set st)
      /\ num_geb (NFloat (dict_item (series_totals st) s fzero))
           (minSeriesTotal cfg) = true).
Proof.
  intros Hsi. unfold BuildDashboards.select_series, sorted_key.
  destruct (topSeriesPerGroup cfg && negb (maxSeries cfg =? 0)); intros H.
  - left. split; [reflexivity|].
    apply (Permutation_in s (sort_by_perm _ _)) in H.
    exact (Permutation_in s (Hsi _) H).
  - right. split; [reflexivity|].
    apply slice_to_incl in H.
    apply (Permutation_in s (sort_by_perm _ _)) in H.
    apply filter_In in H. destruct H as [H Hge].
    split; [exact (Permutation_in s (Hsi _) H)|exact Hge].
Qed.

Lemma select_series_origin (float_repr : float -> string)
  (set_iter : list scalar -> list scalar) (cfg : config) (rows : list row)
  (st : agg_state) (s : scalar) :
  set_iter_ok set_iter -> keys_inv float_repr cfg rows st ->
  In s (BuildDashboards.select_series set_iter cfg st) ->
  series_origin float_repr cfg rows s.
Proof.
  intros Hsi (_ & _ & _ & _ & _ & Hso & Hinner) H.
  destruct (select_series_in set_iter cfg st s Hsi H) as [[_ Hin]|[_ [Hin _]]].
  - assert (Ht : Forall (series_origin float_repr cfg rows)
                   (BuildDashboards.top_series_of (maxSeries cfg) (totals st))).
    { apply top_series_of_forall.
      rewrite Forall_forall in *. intros kv Hkv.
      exact (proj2 (Hinner kv Hkv)). }
    rewrite Forall_forall in Ht. now apply Ht.
  - rewrite Forall_forall in Hso. now apply Hso.
Qed.

Lemma aggregate_data_keys_inv (float_repr : float -> string)
  (set_iter : list scalar -> list scalar) (rows : list row) (cfg : config)
  (r : aggregated) :
  BuildDashboards.aggregate_data float_repr set_iter rows cfg = Ok r ->
  exists st,
    BuildDashboards.for_rows float_repr cfg init_state rows = Ok st
    /\ keys_inv float_repr cfg rows st
    /\ BuildDashboards.sort_groups set_iter (groups_set st) = Ok (groups r)
    /\ series r = BuildDashboards.select_series set_iter cfg st
    /\ data r = BuildDashboards.build_data st (groups r) (series r).
Proof.
  intros H. destruct (aggregate_data_inv _ _ _ _ _ H) as (st & Hl & Hf).
  exists st. split; [exact Hl|]. split.
  - apply (for_rows_keys_inv float_repr cfg rows rows (incl_refl _)
             init_state st Hl).
    apply keys_inv_init.
  - exact (finish_inv _ _ _ _ Hf).
Qed.

(** X11. The result is well formed: [data] has one entry per group, in the
    order of [groups]; every entry carries exactly the keys of [series], in
    their order; no two group keys and no two series keys are equal. *)
Theorem result_is_well_formed :
  forall (float_repr : float -> string)
         (set_iter : list scalar -> list scalar)
         (rows : list row) (cfg : config) (r : aggregated),
    set_iter_ok set_iter ->
    BuildDashboards.aggregate_data float_repr set_iter rows cfg = Ok r ->
    map fst (data r) = groups r
    /\ Forall (fun d => map fst (snd d) = series r) (data r)
    /\ distinct_keys (groups r)
    /\ distinct_keys (series r).
Proof.
  intros float_repr set_iter rows cfg r Hsi H.
  destruct (aggregate_data_keys_inv _ _ _ _ _ H)
    as (st & _ & Hinv & Hg & Hs & Hd).
  split; [|split; [|split]].
  - rewrite Hd. unfold BuildDashboards.build_data.
    rewrite map_map. cbn [fst]. apply map_id.
  - rewrite Hd. unfold BuildDashboards.build_data.
    apply Forall_forall. intros d Hin. apply in_map_iff in Hin.
    destruct Hin as (g & <- & _). cbn [snd].
    rewrite map_map. cbn [fst]. apply map_id.
  - apply (distinct_keys_perm (groups_set st)).
    + exact (Permutation_sym (sort_groups_perm _ _ _ Hsi Hg)).
    + exact (proj1 (proj2 (proj2 Hinv))).
  - rewrite Hs. exact (select_series_distinct _ _ _ _ _ Hsi Hinv).
Qed.

Lemma result_is_well_formed_witness :
  set_iter_ok insertion_order
  /\ BuildDashboards.aggregate_data no_float_repr insertion_order
       scenario_rows scenario_config = Ok scenario_result
  /\ map fst (data scenario_result) = groups scenario_result
  /\ Forall (fun d => map fst (snd d) = series scenario_result)
       (data scenario_result)
  /\ distinct_keys (groups scenario_result)
  /\ distinct_keys (series scenario_result).
Proof.
  split; [exact insertion_order_ok|]. split; [reflexivity|].
  exact (result_is_well_formed no_float_repr insertion_order scenario_rows
           scenario_config scenario_result insertion_order_ok eq_refl).
Defined.

(** X12. The groups of the result are exactly the group keys observed:
    every group is the truthy group key of a row that passed the filter and
    the year extraction, and every such row finds its key (or one equal to
    it) among the groups, whatever the series selection keeps. *)
Theorem groups_are_the_observed_keys :
  forall (float_repr : float -> string)
         (set_iter : list scalar -> list scalar)
         (rows : list row) (cfg : config) (r : aggregated),
    set_iter_ok set_iter ->
    BuildDashboards.aggregate_data float_repr set_iter rows cfg = Ok r ->
    Forall (group_origin float_repr cfg rows) (groups r)
    /\ (forall rw g,
          In rw rows -> resulting_group float_repr cfg rw = Some g ->
          truthy g = true ->
          exists y, In y (groups r) /\ (y = g \/ py_eqb y g = true)).
Proof.
  intros float_repr set_iter rows cfg r Hsi H.
  destruct (aggregate_data_keys_inv _ _ _ _ _ H)
    as (st & Hl & Hinv & Hg & _ & _).
  pose proof (sort_groups_perm _ _ _ Hsi Hg) as Hp.
  split.
  - apply (Permutation_Forall (Permutation_sym Hp)).
    exact (proj1 (proj2 (proj2 (proj2 (proj2 Hinv))))).
  - intros rw g Hin Hrg Ht.
    destruct (for_rows_groups_complete float_repr cfg rows rw g Hin Hrg Ht
                init_state st Hl) as (y & Hy & He).
    exists y. split; [|exact He].
    exact (Permutation_in y (Permutation_sym Hp) Hy).
Qed.

Lemma groups_are_the_observed_keys_witness :
  set_iter_ok insertion_order
  /\ BuildDashboards.aggregate_data no_float_repr insertion_order
       two_group_rows (gsv_config 0 false) = Ok
         {| groups := [SStr "A"; SStr "B"]; series := [];
            data := [(SStr "A", []); (SStr "B", [])] |}
  /\ Forall (group_origin no_float_repr (gsv_config 0 false) two_group_rows)
       [SStr "A"; SStr "B"].
Proof.
  split; [exact insertion_order_ok|]. split; [reflexivity|].
  exact (proj1 (groups_are_the_observed_keys no_float_repr insertion_order
                  two_group_rows (gsv_config 0 false) _
                  insertion_order_ok eq_refl)).
Defined.

(** X13. The counter behind "Skipped N rows with invalid year values" is the
    number of rows that pass the filter and have no extractable year; it is
    0 when [extractYear] is off. *)
Theorem skipped_rows_are_counted :
  forall (float_repr : float -> string) (rows : list row) (cfg : config)
         (st : agg_state),
    BuildDashboards.for_rows float_repr cfg init_state rows = Ok st ->
    skipped_rows st
    = List.length (List.filter (drops_year float_repr cfg) rows)
    /\ (extractYear cfg = false -> skipped_rows st = 0%nat).
Proof.
  intros float_repr rows cfg st H.
  pose proof (for_rows_skipped float_repr cfg rows init_state st H) as Hs.
  cbn [skipped_rows init_state Nat.add] in Hs. split; [exact Hs|].
  intros Hy. rewrite Hs.
  replace (List.filter (drops_year float_repr cfg) rows) with (@nil row);
    [reflexivity|].
  symmetry. clear -Hy. induction rows as [|r rows IH]; [reflexivity|].
  cbn [List.filter]. unfold drops_year at 1. rewrite Hy.
  now rewrite andb_false_r.
Qed.

Lemma skipped_rows_are_counted_witness :
  exists st,
    BuildDashboards.for_rows no_float_repr scenario_config init_state
      rows_with_bad_year = Ok st
    /\ skipped_rows st = 1%nat.
Proof.
  eexists. split; [reflexivity|].
  exact (proj1 (skipped_rows_are_counted no_float_repr rows_with_bad_year
                  scenario_config _ eq_refl)).
Defined.

(** ** The order on floats *)

Lemma dyadic_opp (m e : Z) : dyadic (- m) e = Qopp (dyadic m e).
Proof.
  unfold dyadic. destruct (0 <=? e); [|reflexivity].
  now rewrite Z.mul_opp_l.
Qed.

Lemma Qcompare_opp (p q : Q) : Qcompare (Qopp p) (Qopp q) = Qcompare q p.
Proof.
  unfold Qcompare. cbn [Qopp Qnum Qden].
  rewrite !Z.mul_opp_l. apply Z.compare_opp.
Qed.

Lemma cond_Zopp_negb (s : bool) (m : Z) :
  cond_Zopp (negb s) m = - cond_Zopp s m.
Proof. destruct s; cbn [negb cond_Zopp]; lia. Qed.

Lemma xcompare_fneg (a b : float) :
  xcompare (exact (fneg a)) (exact (fneg b)) = xcompare (exact b) (exact a).
Proof.
  destruct a as [sa|sa| |sa ma ea], b as [sb|sb| |sb mb eb];
    cbn [fneg SFopp exact xcompare]; try reflexivity;
    try (now destruct sa); try (now destruct sb);
    try (now destruct sa, sb);
    rewrite ?cond_Zopp_negb, ?dyadic_opp; f_equal.
  - exact (Qcompare_opp (inject_Z 0) _).
  - exact (Qcompare_opp _ (inject_Z 0)).
  - apply Qcompare_opp.
Qed.

Lemma float_ltb_fneg (a b : float) :
  float_ltb (fneg a) (fneg b) = float_ltb b a.
Proof.
  unfold float_ltb, num_ltb, num_compare. cbn [num_exact].
  now rewrite xcompare_fneg.
Qed.

Lemma xcompare_antisym (a b : xreal) (c : comparison) :
  xcompare a b = Some c -> xcompare b a = Some (CompOpp c).
Proof.
  destruct a as [|sa|p], b as [|sb|q]; cbn [xcompare]; try discriminate;
    intros H; injection H as <-.
  - now destruct sa, sb.
  - now destruct sa.
  - now destruct sb.
  - now rewrite <- Qcompare_antisym.
Qed.

Lemma float_ltb_asym (a b : float) :
  float_ltb a b = true -> float_ltb b a = false.
Proof.
  unfold float_ltb, num_ltb, num_compare. cbn [num_exact].
  destruct (xcompare (exact a) (exact b)) as [c|] eqn:E; [|discriminate].
  rewrite (xcompare_antisym _ _ _ E). now destruct c.
Qed.

Lemma xcompare_not_lt_trans (a b c : xreal) :
  a <> XNan -> b <> XNan -> c <> XNan ->
  xcompare a b <> Some Lt -> xcompare b c <> Some Lt ->
  xcompare a c <> Some Lt.
Proof.
  destruct a as [|sa|p], b as [|sb|q], c as [|sc|u]; cbn [xcompare];
    try congruence; intros _ _ _;
    try (repeat match goal with s : bool |- _ => destruct s end; congruence).
  intros H1 H2 H3. injection H3 as H3. apply Qlt_alt in H3.
  assert (Hqp : (q <= p)%Q).
  { apply Qnot_lt_le. intros Hlt. apply H1. f_equal. now apply Qlt_alt. }
  assert (Huq : (u <= q)%Q).
  { apply Qnot_lt_le. intros Hlt. apply H2. f_equal. now apply Qlt_alt. }
  apply (Qlt_not_le _ _ H3). now apply (Qle_trans _ q).
Qed.

Lemma exact_not_nan (f : float) : not_nan f -> exact f <> XNan.
Proof. unfold not_nan. destruct f; cbn [exact]; congruence. Qed.

Lemma float_ltb_false_trans (a b c : float) :
  not_nan a -> not_nan b -> not_nan c ->
  float_ltb a b = false -> float_ltb b c = false -> float_ltb a c = false.
Proof.
  unfold float_ltb, num_ltb, num_compare. cbn [num_exact].
  intros Ha Hb Hc H1 H2.
  pose proof (xcompare_not_lt_trans (exact a) (exact b) (exact c)
                (exact_not_nan a Ha) (exact_not_nan b Hb) (exact_not_nan c Hc))
    as H.
  destruct (xcompare (exact a) (exact c)) as [[]|]; try reflexivity.
  exfalso. apply H; try reflexivity.
  - destruct (xcompare (exact a) (exact b)) as [[]|]; congruence.
  - destruct (xcompare (exact b) (exact c)) as [[]|]; congruence.
Qed.

(** ** The grand totals of the series *)

Lemma dict_item_update (d : dict float) (k' k : scalar) (v : float) :
  dict_item (dict_update d k' fzero (fun t => fadd t v)) k fzero
  = if key_eqb k' k then fadd (dict_item d k fzero) v else dict_item d k fzero.
Proof.
  unfold dict_item at 1. destruct (key_eqb k' k) eqn:E.
  - now rewrite (dict_get_update_hit d k' k fzero _ E).
  - now rewrite (dict_get_update_miss d k' k fzero _ E).
Qed.

Lemma loop_body_series_total (float_repr : float -> string) (cfg : config)
  (st st' : agg_state) (r : row) (s : scalar) :
  BuildDashboards.loop_body float_repr cfg st r = Ok st' ->
  dict_item (series_totals st') s fzero
  = if counts_for_series float_repr cfg s r
    then fadd (dict_item (series_totals st) s fzero)
           (float_or_zero (normalized_value float_repr cfg r))
    else dict_item (series_totals st) s fzero.
Proof.
  rewrite loop_body_alt. unfold counts_for_series.
  destruct (resulting_group float_repr cfg r) as [g|].
  - destruct (normalized_value float_repr cfg r) as [v|e];
      cbn [bind float_or_zero]; [|discriminate].
    destruct (truthy g); cbn [andb]; intros H; injection H as <-;
      [|reflexivity].
    cbn [BuildDashboards.record_value series_totals]. apply dict_item_update.
  - destruct (drops_year float_repr cfg r); intros H; now injection H as <-.
Qed.

Lemma for_rows_series_total (float_repr : float -> string) (cfg : config)
  (s : scalar) (part : list row) :
  forall st st',
    BuildDashboards.for_rows float_repr cfg st part = Ok st' ->
    dict_item (series_totals st') s fzero
    = fold_left fadd
        (map (fun r => float_or_zero (normalized_value float_repr cfg r))
           (List.filter (counts_for_series float_repr cfg s) part))
        (dict_item (series_totals st) s fzero).
Proof.
  induction part as [|r part IH]; intros st st';
    cbn [BuildDashboards.for_rows List.filter].
  - intros H. now injection H as <-.
  - destruct (BuildDashboards.loop_body float_repr cfg st r) as [st1|e] eqn:E;
      cbn [bind]; [|discriminate].
    intros H. rewrite (IH st1 st' H).
    rewrite (loop_body_series_total float_repr cfg st st1 r s E).
    now destruct (counts_for_series float_repr cfg s r).
Qed.

(** [series_totals[s]] after the loop is the grand total of [s]. *)
Lemma series_totals_grand_total (float_repr : float -> string) (cfg : config)
  (rows : list row) (st : agg_state) (s : scalar) :
  BuildDashboards.for_rows float_repr cfg init_state rows = Ok st ->
  dict_item (series_totals st) s fzero = grand_total float_repr cfg rows s.
Proof.
  intros H. exact (for_rows_series_total float_repr cfg s rows _ _ H).
Qed.

Lemma grand_total_eqb (float_repr : float -> string) (cfg : config)
  (rows : list row) (y s : scalar) :
  key_eqb y s = true ->
  grand_total float_repr cfg rows y = grand_total float_repr cfg rows s.
Proof.
  intros H. unfold grand_total. f_equal. f_equal.
  induction rows as [|r rows IH]; [reflexivity|]. cbn [List.filter].
  assert (E : counts_for_series float_repr cfg y r
              = counts_for_series float_repr cfg s r).
  { unfold counts_for_series.
    destruct (resulting_group float_repr cfg r); [|reflexivity].
    now rewrite (key_eqb_left _ y s H). }
  rewrite E, IH. reflexivity.
Qed.

(** Every contributing row leaves its series key in the set. *)
Lemma loop_body_series_grow (float_repr : float -> string) (cfg : config)
  (st st' : agg_state) (r : row) (y : scalar) :
  BuildDashboards.loop_body float_repr cfg st r = Ok st' ->
  In y (series_set st) -> In y (series_set st').
Proof.
  rewrite loop_body_alt.
  destruct (resulting_group float_repr cfg r) as [g|].
  - destruct (normalized_value float_repr cfg r) as [v|e]; cbn [bind];
      [|discriminate].
    destruct (truthy g); intros H; injection H as <-; [|auto].
    cbn [BuildDashboards.record_value series_set]. apply set_add_incl.
  - destruct (drops_year float_repr cfg r); intros H; injection H as <-; auto.
Qed.

Lemma for_rows_series_grow (float_repr : float -> string) (cfg : config)
  (part : list row) (y : scalar) :
  forall st st',
    BuildDashboards.for_rows float_repr cfg st part = Ok st' ->
    In y (series_set st) -> In y (series_set st').
Proof.
  induction part as [|r part IH]; intros st st';
    cbn [BuildDashboards.for_rows].
  - intros H. now injection H as <-.
  - destruct (BuildDashboards.loop_body float_repr cfg st r) as [st1|e] eqn:E;
      cbn [bind]; [|discriminate].
    intros H Hy. apply (IH st1 st' H).
    exact (loop_body_series_grow float_repr cfg st st1 r y E Hy).
Qed.

Lemma for_rows_series_complete (float_repr : float -> string) (cfg : config)
  (part : list row) (r : row) (g : scalar) :
  In r part -> resulting_group float_repr cfg r = Some g ->
  truthy g = true ->
  forall st st',
    BuildDashboards.for_rows float_repr cfg st part = Ok st' ->
    exists y,
      In y (series_set st')
      /\ (y = BuildDashboards.series_value_of cfg r
          \/ py_eqb y (BuildDashboards.series_value_of cfg r) = true).
Proof.
  intros Hin Hg Ht.
  induction part as [|r0 part IH]; [destruct Hin|].
  intros st st'. cbn [BuildDashboards.for_rows].
  destruct (BuildDashboards.loop_body float_repr cfg st r0) as [st1|e] eqn:E;
    cbn [bind]; [|discriminate].
  intros H. destruct Hin as [->|Hin]; [|exact (IH Hin st1 st' H)].
  rewrite loop_body_alt, Hg in E.
  destruct (normalized_value float_repr cfg r) as [v|e]; cbn [bind] in E;
    [|discriminate].
  rewrite Ht in E. injection E as <-.
  destruct (set_add_has (series_set st) (BuildDashboards.series_value_of cfg r))
    as (y & Hy & He).
  exists y. split; [|exact He].
  apply (for_rows_series_grow float_repr cfg part y _ st' H). exact Hy.
Qed.

Lemma slice_to_all {A : Type} (l : list A) (n : Z) :
  Z.of_nat (List.length (slice_to l n)) < n -> slice_to l n = l.
Proof.
  unfold slice_to. destruct (0 <=? n) eqn:E.
  - apply Z.leb_le in E. rewrite length_firstn. intros H.
    apply firstn_all2. lia.
  - apply Z.leb_gt in E. lia.
Qed.

(** X14. Under the global policy the series list holds observed series
    keys only, each with a grand total that reaches [minSeriesTotal]; the
    cap is the only other reason a series is left out: where the list is
    shorter than [maxSeries], every observed series whose grand total
    reaches the floor is in it. *)
Theorem series_reach_the_floor :
  forall (float_repr : float -> string)
         (set_iter : list scalar -> list scalar)
         (rows : list row) (cfg : config) (r : aggregated),
    set_iter_ok set_iter ->
    topSeriesPerGroup cfg = false ->
    BuildDashboards.aggregate_data float_repr set_iter rows cfg = Ok r ->
    Forall (fun s =>
              series_origin float_repr cfg rows s
              /\ num_geb (NFloat (grand_total float_repr cfg rows s))
                   (minSeriesTotal cfg) = true)
      (series r)
    /\ (Z.of_nat (List.length (series r)) < maxSeries cfg ->
        forall s,
          series_origin float_repr cfg rows s ->
          num_geb (NFloat (grand_total float_repr cfg rows s))
            (minSeriesTotal cfg) = true ->
          exists y, In y (series r) /\ (y = s \/ py_eqb y s = true)).
Proof.
  intros float_repr set_iter rows cfg r Hsi Hpol H.
  destruct (aggregate_data_keys_inv _ _ _ _ _ H)
    as (st & Hl & Hinv & _ & Hs & _).
  split.
  - apply Forall_forall. intros s Hin. rewrite Hs in Hin. split.
    + exact (select_series_origin _ _ _ _ _ _ Hsi Hinv Hin).
    + destruct (select_series_in set_iter cfg st s Hsi Hin)
        as [[Hp _]|(_ & _ & Hge)].
      * rewrite Hpol in Hp. discriminate.
      * now rewrite <- (series_totals_grand_total float_repr cfg rows st s Hl).
  - intros Hlen s (rw & g & Hin & Hg & Ht & <-) Hge.
    destruct (for_rows_series_complete float_repr cfg rows rw g Hin Hg Ht
                init_state st Hl) as (y & Hy & He).
    exists y. split; [|exact He].
    rewrite Hs in Hlen |- *. unfold BuildDashboards.select_series in *.
    rewrite Hpol in *. cbn [andb] in *.
    rewrite (slice_to_all _ _ Hlen). unfold sorted_key.
    apply (Permutation_in y (Permutation_sym (sort_by_perm _ _))).
    apply filter_In. split.
    + exact (Permutation_in y (Permutation_sym (Hsi _)) Hy).
    + rewrite (series_totals_grand_total float_repr cfg rows st y Hl).
      destruct He as [->|He]; [exact Hge|].
      now rewrite (grand_total_eqb float_repr cfg rows y _
                     (py_eqb_key_eqb _ _ He)).
Qed.

Lemma series_reach_the_floor_witness :
  set_iter_ok insertion_order
  /\ topSeriesPerGroup (set_minSeriesTotal scenario_config (NInt 100)) = false
  /\ exists r,
       BuildDashboards.aggregate_data no_float_repr insertion_order
         scenario_rows (set_minSeriesTotal scenario_config (NInt 100)) = Ok r
       /\ series r = [SStr "Health"]
       /\ Forall (fun s =>
                    series_origin no_float_repr
                      (set_minSeriesTotal scenario_config (NInt 100))
                      scenario_rows s
                    /\ num_geb
                         (NFloat
                            (grand_total no_float_repr
                               (set_minSeriesTotal scenario_config (NInt 100))
                               scenario_rows s))
                         (NInt 100) = true)
            (series r).
Proof.
  split; [exact insertion_order_ok|]. split; [reflexivity|].
  eexists. split; [reflexivity|]. split; [reflexivity|].
  exact (proj1 (series_reach_the_floor no_float_repr insertion_order
                  scenario_rows
                  (set_minSeriesTotal scenario_config (NInt 100)) _
                  insertion_order_ok eq_refl eq_refl)).
Defined.

(** ** The order of the series *)

Lemma StronglySorted_firstn {A : Type} (R : A -> A -> Prop) (n : nat)
  (l : list A) :
  StronglySorted R l -> StronglySorted R (firstn n l).
Proof.
  intros H. revert n. induction H as [|x l Hs IH Hx]; intros [|n];
    cbn [firstn]; try constructor.
  - apply IH.
  - rewrite Forall_forall in *. intros y Hy. apply Hx.
    exact (firstn_incl n l y Hy).
Qed.

Lemma StronglySorted_slice_to {A : Type} (R : A -> A -> Prop) (n : Z)
  (l : list A) :
  StronglySorted R l -> StronglySorted R (slice_to l n).
Proof.
  unfold slice_to. destruct (0 <=? n); apply StronglySorted_firstn.
Qed.

Lemma by_total_sorted (float_repr : float -> string) (cfg : config)
  (rows : list row) (st : agg_state) (l : list scalar) :
  (forall s, series_origin float_repr cfg rows s ->
             not_nan (grand_total float_repr cfg rows s)) ->
  BuildDashboards.for_rows float_repr cfg init_state rows = Ok st ->
  Forall (series_origin float_repr cfg rows) l ->
  StronglySorted (ranks_before float_repr cfg rows)
    (sorted_key float_ltb
       (fun s => fneg (dict_item (series_totals st) s fzero)) l).
Proof.
  intros Hnan Hl Hall. unfold sorted_key.
  apply (sort_by_sorted _ (ranks_before float_repr cfg rows)
           (series_origin float_repr cfg rows)); [| | |exact Hall].
  - intros x y z Px Py Pz. unfold ranks_before.
    apply float_ltb_false_trans; auto.
  - intros x y _ _.
    rewrite float_ltb_fneg,
      !(series_totals_grand_total float_repr cfg rows st _ Hl).
    now unfold ranks_before.
  - intros x y _ _.
    rewrite float_ltb_fneg,
      !(series_totals_grand_total float_repr cfg rows st _ Hl).
    unfold ranks_before. apply float_ltb_asym.
Qed.

(** X15. The series list is in descending order of grand total, under
    either policy: no series is followed by one with a greater total
    (provided no total is a NaN, on which [<] decides nothing). *)
Theorem series_in_descending_total :
  forall (float_repr : float -> string)
         (set_iter : list scalar -> list scalar)
         (rows : list row) (cfg : config) (r : aggregated),
    set_iter_ok set_iter ->
    (forall s, series_origin float_repr cfg rows s ->
               not_nan (grand_total float_repr cfg rows s)) ->
    BuildDashboards.aggregate_data float_repr set_iter rows cfg = Ok r ->
    StronglySorted (ranks_before float_repr cfg rows) (series r).
Proof.
  intros float_repr set_iter rows cfg r Hsi Hnan H.
  destruct (aggregate_data_keys_inv _ _ _ _ _ H)
    as (st & Hl & Hinv & _ & Hs & _).
  destruct Hinv as (_ & _ & _ & _ & _ & Hso & Hinner).
  rewrite Hs. unfold BuildDashboards.select_series.
  destruct (topSeriesPerGroup cfg && negb (maxSeries cfg =? 0)).
  - apply (by_total_sorted float_repr cfg rows st _ Hnan Hl).
    apply (Permutation_Forall (Permutation_sym (Hsi _))).
    apply top_series_of_forall.
    rewrite Forall_forall in *. intros kv Hkv.
    exact (proj2 (Hinner kv Hkv)).
  - apply StronglySorted_slice_to.
    apply (by_total_sorted float_repr cfg rows st _ Hnan Hl).
    apply Forall_forall. intros s Hin. apply filter_In in Hin.
    destruct Hin as [Hin _].
    rewrite Forall_forall in Hso. apply Hso.
    exact (Permutation_in s (Hsi _) Hin).
Qed.

Lemma series_in_descending_total_witness :
  set_iter_ok insertion_order
  /\ (forall s, series_origin no_float_repr scenario_config scenario_rows s ->
                not_nan (grand_total no_float_repr scenario_config
                           scenario_rows s))
  /\ BuildDashboards.aggregate_data no_float_repr insertion_order
       scenario_rows scenario_config = Ok scenario_result
  /\ StronglySorted (ranks_before no_float_repr scenario_config scenario_rows)
       [SStr "Health"; SStr "Defence"].
Proof.
  assert (Hnan : forall s,
             series_origin no_float_repr scenario_config scenario_rows s ->
             not_nan (grand_total no_float_repr scenario_config
                        scenario_rows s)).
  { intros s (rw & g & Hin & _ & _ & <-).
    destruct Hin as [<-|[<-|[<-|[]]]]; vm_compute; discriminate. }
  split; [exact insertion_order_ok|]. split; [exact Hnan|].
  split; [reflexivity|].
  exact (series_in_descending_total no_float_repr insertion_order
           scenario_rows scenario_config scenario_result
           insertion_order_ok Hnan eq_refl).
Defined.

(** ** An [include] filter on the group or the series field *)

Lemma row_get_default (r : row) (k : string) (d d' : scalar) :
  row_get r k d = row_get r k d'
  \/ (row_get r k d = d /\ row_get r k d' = d').
Proof.
  induction r as [|[k' v] r IH]; cbn [row_get]; [now right|].
  destruct (String.eqb k' k); [now left|exact IH].
Qed.

Lemma row_matches_filter_include (float_repr : float -> string) (r : row)
  (fc : filter_config) (f : string) (incl : list string) :
  flt_field fc = Some f -> flt_include fc = Some incl ->
  BuildDashboards.row_matches_filter float_repr r (Some fc) = true ->
  exists x, In x incl /\ filter_value r f = SStr x.
Proof.
  intros Hf Hi. unfold BuildDashboards.row_matches_filter,
    BuildDashboards.filter_is_empty.
  rewrite Hf, Hi. fold (filter_value r f).
  destruct (existsb (fun x => py_eqb (SStr x) (filter_value r f)) incl)
    eqn:E; cbn [negb]; [intros _|discriminate].
  apply existsb_exists in E. destruct E as (x & Hx & He).
  exists x. split; [exact Hx|].
  destruct (filter_value r f) as [|t|n]; cbn [py_eqb] in He;
    try discriminate.
  apply String.eqb_eq in He. now subst.
Qed.

Lemma resulting_group_passes (float_repr : float -> string) (cfg : config)
  (r : row) (g : scalar) :
  resulting_group float_repr cfg r = Some g ->
  BuildDashboards.row_matches_filter float_repr r (filterSpec cfg) = true
  /\ (extractYear cfg = false -> g = row_get r (groupBy cfg) (SStr "")).
Proof.
  unfold resulting_group.
  destruct (BuildDashboards.row_matches_filter float_repr r (filterSpec cfg));
    [|discriminate].
  intros H. split; [reflexivity|]. intros Hy. rewrite Hy in H.
  now injection H as <-.
Qed.

(** X16. An [include] list on the group field (without year extraction)
    leaves only groups named in the list; an [include] list on the series
    field leaves only series named in the list, provided the list does not
    hold the empty string (which also admits the rows without the field,
    counted under "Total"). *)
Theorem include_filter_bounds_keys :
  forall (float_repr : float -> string)
         (set_iter : list scalar -> list scalar)
         (rows : list row) (cfg : config) (fc : filter_config)
         (incl : list string) (r : aggregated),
    set_iter_ok set_iter ->
    filterSpec cfg = Some fc ->
    flt_include fc = Some incl ->
    BuildDashboards.aggregate_data float_repr set_iter rows cfg = Ok r ->
    (flt_field fc = Some (groupBy cfg) -> extractYear cfg = false ->
     Forall (fun g => exists x, In x incl /\ g = SStr x) (groups r))
    /\ (flt_field fc = Some (seriesBy cfg) -> seriesBy cfg <> "" ->
        ~ In "" incl ->
        Forall (fun s => exists x, In x incl /\ s = SStr x) (series r)).
Proof.
  intros float_repr set_iter rows cfg fc incl r Hsi Hfc Hi H.
  destruct (aggregate_data_keys_inv _ _ _ _ _ H)
    as (st & Hl & Hinv & Hg & Hs & _).
  split.
  - intros Hf Hy. apply Forall_forall. intros g Hin.
    apply (Permutation_in g (sort_groups_perm _ _ _ Hsi Hg)) in Hin.
    destruct Hinv as (_ & _ & _ & _ & Hgo & _).
    rewrite Forall_forall in Hgo.
    destruct (Hgo g Hin) as (rw & _ & Hrg & Ht).
    destruct (resulting_group_passes float_repr cfg rw g Hrg) as [Hm Hraw].
    rewrite Hfc in Hm.
    destruct (row_matches_filter_include float_repr rw fc _ incl Hf Hi Hm)
      as (x & Hx & Hv).
    exists x. split; [exact Hx|].
    unfold filter_value in Hv. rewrite <- (Hraw Hy), Ht in Hv. exact Hv.
  - intros Hf Hne Hno. apply Forall_forall. intros s Hin. rewrite Hs in Hin.
    destruct (select_series_origin _ _ _ _ _ _ Hsi Hinv Hin)
      as (rw & g & _ & Hrg & _ & <-).
    destruct (resulting_group_passes float_repr cfg rw g Hrg) as [Hm _].
    rewrite Hfc in Hm.
    destruct (row_matches_filter_include float_repr rw fc _ incl Hf Hi Hm)
      as (x & Hx & Hv).
    exists x. split; [exact Hx|].
    assert (Hxe : x <> "") by (intros ->; exact (Hno Hx)).
    unfold BuildDashboards.series_value_of.
    destruct (seriesBy cfg) as [|c k] eqn:Ek; [congruence|].
    cbn [is_empty negb]. unfold filter_value in Hv.
    destruct (truthy (row_get rw (String c k) (SStr ""))).
    + destruct (row_get_default rw (String c k) (SStr "") (SStr "Total"))
        as [E|[E _]].
      * now rewrite <- E.
      * rewrite E in Hv. injection Hv as <-. congruence.
    + injection Hv as <-. congruence.
Qed.

Lemma include_filter_bounds_keys_witness :
  set_iter_ok insertion_order
  /\ flt_field {| flt_field := Some "dept";
                  flt_include := Some ["Health"; "Justice"];
                  flt_contains := None |} = Some (seriesBy dept_filter_config)
  /\ seriesBy dept_filter_config <> ""
  /\ ~ In "" ["Health"; "Justice"]
  /\ exists r,
       BuildDashboards.aggregate_data no_float_repr insertion_order
         scenario_rows dept_filter_config = Ok r
       /\ series r = [SStr "Health"]
       /\ Forall (fun s => exists x, In x ["Health"; "Justice"] /\ s = SStr x)
            (series r).
Proof.
  assert (Hno : ~ In "" ["Health"; "Justice"]).
  { intros [H|[H|[]]]; discriminate. }
  assert (Hne : seriesBy dept_filter_config <> "") by discriminate.
  split; [exact insertion_order_ok|]. split; [reflexivity|].
  split; [exact Hne|]. split; [exact Hno|].
  eexists. split; [reflexivity|]. split; [reflexivity|].
  exact (proj2 (include_filter_bounds_keys no_float_repr insertion_order
                  scenario_rows dept_filter_config _ _ _
                  insertion_order_ok eq_refl eq_refl eq_refl)
           eq_refl Hne Hno).
Defined.

(** ** Groups of years *)

Lemma digit_not_space_num (c : ascii) :
  is_digit c = true -> is_space_num c = false.
Proof.
  intros H. apply is_digit_range in H. unfold is_space_num.
  apply not_true_is_false. intros Hs.
  rewrite orb_true_iff, andb_true_iff, !Nat.leb_le, Nat.eqb_eq in Hs. lia.
Qed.

Lemma digit_not_sign (c : ascii) :
  is_digit c = true ->
  Ascii.eqb c "-" = false /\ Ascii.eqb c "+" = false
  /\ Ascii.eqb c "_" = false.
Proof.
  intros H. apply is_digit_range in H. rewrite !ascii_eqb_code.
  change (code "-") with 45%nat. change (code "+") with 43%nat.
  change (code "_") with 95%nat.
  repeat split; apply Nat.eqb_neq; lia.
Qed.

Lemma Z_of_string_4digits (a b c d : ascii) :
  is_digit a = true -> is_digit b = true -> is_digit c = true ->
  is_digit d = true ->
  Z_of_string (String a (String b (String c (String d ""))))
  = Ok (1000 * digit_val a + 100 * digit_val b + 10 * digit_val c
        + digit_val d).
Proof.
  intros Ha Hb Hc Hd. unfold Z_of_string, strip_with.
  cbn [lstrip_with]. rewrite (digit_not_space_num a Ha).
  cbn [rstrip_with is_empty andb].
  rewrite (digit_not_space_num d Hd). cbn [andb is_empty].
  unfold split_sign.
  destruct (digit_not_sign a Ha) as (-> & -> & _).
  cbn [digitpart digitpart_tail]. rewrite Ha, Hb, Hc, Hd.
  f_equal. lia.
Qed.

Lemma re_search_year_inv (s y : string) :
  BuildDashboards.re_search_year s = Some y ->
  BuildDashboards.match_year y = true /\ BuildDashboards.take4 y = y.
Proof.
  induction s as [|c s IH]; cbn [BuildDashboards.re_search_year];
    [discriminate|].
  destruct (BuildDashboards.match_year (String c s)) eqn:E; [|exact IH].
  intros H.
  assert (Hy : y = BuildDashboards.take4 (String c s)) by congruence.
  rewrite Hy. split.
  - rewrite match_year_take4. exact E.
  - now destruct s as [|b [|c' [|d rest]]].
Qed.

Lemma extract_year_is_year (float_repr : float -> string) (v : scalar)
  (y : string) :
  BuildDashboards.extract_year float_repr v = Some y -> year_key (SStr y).
Proof.
  unfold BuildDashboards.extract_year.
  destruct (negb (truthy v)); [discriminate|].
  destruct (BuildDashboards.re_search_year _) as [w|] eqn:E; [|discriminate].
  intros H. injection H as <-.
  destruct (re_search_year_inv _ _ E) as [Hm Ht].
  pose proof Hm as Hv. rewrite match_year_value in Hv.
  destruct w as [|a [|b [|c [|d rest]]]]; try discriminate.
  cbn [BuildDashboards.take4] in Ht. injection Ht as Hr.
  assert (rest = "") by (now destruct rest). subst rest.
  destruct (match_year_digits a b c d "" Hm) as (Ha & Hb & Hc & Hd).
  destruct (four_digit_value _) as [n|] eqn:En; [|discriminate].
  exists (String a (String b (String c (String d "")))), n.
  split; [reflexivity|]. split; [reflexivity|]. split; [exact En|].
  apply andb_true_iff in Hv. rewrite !Z.leb_le in Hv. split; [exact Hv|].
  cbn [py_int]. rewrite (Z_of_string_4digits a b c d Ha Hb Hc Hd).
  unfold four_digit_value in En. rewrite Ha, Hb, Hc, Hd in En.
  cbn [andb] in En. congruence.
Qed.

Lemma group_origin_year (float_repr : float -> string) (cfg : config)
  (rows : list row) (g : scalar) :
  extractYear cfg = true ->
  group_origin float_repr cfg rows g -> year_key g.
Proof.
  intros Hy (r & _ & Hg & _). unfold resulting_group in Hg.
  destruct (BuildDashboards.row_matches_filter float_repr r (filterSpec cfg));
    [|discriminate].
  rewrite Hy in Hg.
  destruct (BuildDashboards.extract_year float_repr _) as [y|] eqn:E;
    cbn [option_map] in Hg; [|discriminate].
  injection Hg as <-. exact (extract_year_is_year float_repr _ y E).
Qed.

Lemma sort_groups_years (set_iter : list scalar -> list scalar)
  (gs : list scalar) :
  set_iter_ok set_iter -> Forall year_key gs ->
  exists gs',
    BuildDashboards.sort_groups set_iter gs = Ok gs'
    /\ StronglySorted int_key_le gs'.
Proof.
  intros Hsi Hy. unfold BuildDashboards.sort_groups.
  destruct (mapM_keyed_ok (set_iter gs)) as [keyed Hk].
  { intros g Hin. apply (Permutation_in g (Hsi gs)) in Hin.
    rewrite Forall_forall in Hy.
    destruct (Hy g Hin) as (y & v & _ & _ & _ & _ & ->). reflexivity. }
  rewrite Hk. eexists. split; [reflexivity|].
  apply sorted_key_int. exact (proj2 (mapM_keyed _ _ Hk)).
Qed.

(** X17. With [extractYear] every group is a year of 4 digits in
    1900..2099, the groups are in ascending order of year, and the group
    sort cannot fail: an exception of [aggregate_data] is one raised in the
    loop over the rows. *)
Theorem year_groups_are_sorted_years :
  forall (float_repr : float -> string)
         (set_iter : list scalar -> list scalar)
         (rows : list row) (cfg : config),
    set_iter_ok set_iter ->
    extractYear cfg = true ->
    (forall r,
       BuildDashboards.aggregate_data float_repr set_iter rows cfg = Ok r ->
       Forall year_key (groups r) /\ StronglySorted int_key_le (groups r))
    /\ (forall e,
          BuildDashboards.aggregate_data float_repr set_iter rows cfg
          = Raise e ->
          BuildDashboards.for_rows float_repr cfg init_state rows = Raise e).
Proof.
  intros float_repr set_iter rows cfg Hsi Hy.
  assert (Hst : forall st,
             BuildDashboards.for_rows float_repr cfg init_state rows = Ok st ->
             Forall year_key (groups_set st)).
  { intros st Hl.
    pose proof (for_rows_keys_inv float_repr cfg rows rows (incl_refl _)
                  init_state st Hl (keys_inv_init float_repr cfg rows))
      as (_ & _ & _ & _ & Hgo & _).
    rewrite Forall_forall in *. intros g Hin.
    exact (group_origin_year float_repr cfg rows g Hy (Hgo g Hin)). }
  split.
  - intros r H.
    destruct (aggregate_data_inv _ _ _ _ _ H) as (st & Hl & Hf).
    destruct (finish_inv _ _ _ _ Hf) as (Hg & _ & _).
    destruct (sort_groups_years set_iter (groups_set st) Hsi (Hst st Hl))
      as (gs' & Hg' & Hs).
    rewrite Hg in Hg'. injection Hg' as <-. split; [|exact Hs].
    apply (Permutation_Forall (Permutation_sym (sort_groups_perm _ _ _ Hsi Hg))).
    exact (Hst st Hl).
  - intros e. unfold BuildDashboards.aggregate_data.
    destruct (BuildDashboards.for_rows float_repr cfg init_state rows)
      as [st|e'] eqn:Hl; cbn [bind]; [|congruence].
    unfold BuildDashboards.finish.
    destruct (sort_groups_years set_iter (groups_set st) Hsi (Hst st eq_refl))
      as (gs' & -> & _).
    cbn [bind]. discriminate.
Qed.

Lemma year_groups_are_sorted_years_witness :
  set_iter_ok insertion_order
  /\ extractYear scenario_config = true
  /\ BuildDashboards.aggregate_data no_float_repr insertion_order
       rows_with_bad_year scenario_config = Ok scenario_result
  /\ Forall year_key [SStr "2022"; SStr "2023"]
  /\ StronglySorted int_key_le [SStr "2022"; SStr "2023"].
Proof.
  split; [exact insertion_order_ok|]. split; [reflexivity|].
  split; [reflexivity|].
  exact (proj1 (year_groups_are_sorted_years no_float_repr insertion_order
                  rows_with_bad_year scenario_config insertion_order_ok
                  eq_refl)
           scenario_result eq_refl).
Defined.

(** ** The two aggregators on records read from CSV *)

Lemma row_matches_mapping_of_filter (float_repr : float -> string) (r : row)
  (fc : filter_config) :
  is_number
    (filter_value r match flt_field fc with Some f => f | None => "" end)
  = false ->
  UpdateData.row_matches_mapping r (Some (mapping_of_filter fc))
  = Ok (BuildDashboards.row_matches_filter float_repr r (Some fc)).
Proof.
  destruct fc as [fld incl cts]. cbn [flt_field]. intros Hn.
  destruct (filter_value_cases _ _ Hn) as [s Hs].
  unfold UpdateData.row_matches_mapping, UpdateData.mapping_is_empty,
    BuildDashboards.row_matches_filter, BuildDashboards.filter_is_empty,
    mapping_of_filter.
  cbn [flt_field flt_include flt_contains map_field map_include
         map_includeContains].
  fold (filter_value r match fld with Some f => f | None => "" end).
  rewrite Hs. cbn [py_str].
  destruct fld, incl as [l|], cts as [items|]; cbn [bind];
    try reflexivity;
    try (destruct (negb (existsb _ l)); [reflexivity|]);
    try (rewrite any_contains_string; cbn [bind];
         destruct (existsb _ items); reflexivity);
    reflexivity.
Qed.

Lemma filter_value_csv (r : row) (f : string) :
  csv_row r -> is_number (filter_value r f) = false.
Proof.
  intros Hr. unfold filter_value.
  destruct (row_get_csv r f (SStr "") Hr) as [-> | Hn]; [reflexivity|].
  destruct (row_get r f (SStr "")) as [|s|n]; [| |destruct Hn].
  - reflexivity.
  - now destruct (truthy (SStr s)).
Qed.

Lemma row_matches_mapping_csv (float_repr : float -> string) (r : row)
  (fs : option filter_config) :
  csv_row r ->
  UpdateData.row_matches_mapping r (option_map mapping_of_filter fs)
  = Ok (BuildDashboards.row_matches_filter float_repr r fs).
Proof.
  intros Hr. destruct fs as [fc|]; [|reflexivity]. cbn [option_map].
  apply row_matches_mapping_of_filter. now apply filter_value_csv.
Qed.

Lemma loop_body_agree_csv (float_repr : float -> string) (cfg : config)
  (st : agg_state) (r : row) :
  extractYear cfg = false -> csv_row r ->
  BuildDashboards.loop_body float_repr cfg st r
  = UpdateData.loop_body float_repr cfg
      (option_map mapping_of_filter (filterSpec cfg)) st r.
Proof.
  intros Hy Hr.
  unfold BuildDashboards.loop_body, UpdateData.loop_body.
  rewrite (row_matches_mapping_csv float_repr r (filterSpec cfg) Hr).
  cbn [bind]. rewrite Hy. reflexivity.
Qed.

Lemma for_rows_agree_csv (float_repr : float -> string) (cfg : config)
  (rows : list row) :
  extractYear cfg = false -> Forall csv_row rows ->
  forall st,
    BuildDashboards.for_rows float_repr cfg st rows
    = UpdateData.for_rows float_repr cfg
        (option_map mapping_of_filter (filterSpec cfg)) st rows.
Proof.
  intros Hy. induction 1 as [|r rows Hr Hrows IH]; intros st; [reflexivity|].
  cbn [BuildDashboards.for_rows UpdateData.for_rows].
  rewrite (loop_body_agree_csv float_repr cfg st r Hy Hr).
  destruct (UpdateData.loop_body float_repr cfg _ st r) as [st'|e];
    [apply IH|reflexivity].
Qed.

(** X18. On records read from CSV, and without year extraction, the
    aggregator of [update_data.py] run with a mapping returns what the
    aggregator of [build_dashboards.py] returns with the same tests written
    as a [filter]: the same groups, series and data, or the same
    exception. *)
Theorem aggregators_agree_on_csv :
  forall (float_repr : float -> string)
         (set_iter : list scalar -> list scalar)
         (rows : list row) (cfg : config),
    extractYear cfg = false ->
    Forall csv_row rows ->
    BuildDashboards.aggregate_data float_repr set_iter rows cfg
    = UpdateData.aggregate_data float_repr set_iter rows cfg
        (option_map mapping_of_filter (filterSpec cfg)).
Proof.
  intros float_repr set_iter rows cfg Hy Hrows.
  unfold BuildDashboards.aggregate_data, UpdateData.aggregate_data.
  rewrite (for_rows_agree_csv float_repr cfg rows Hy Hrows init_state).
  reflexivity.
Qed.

Lemma aggregators_agree_on_csv_witness :
  extractYear dept_contains_config = false
  /\ Forall csv_row scenario_rows
  /\ UpdateData.aggregate_data no_float_repr insertion_order scenario_rows
       dept_contains_config
       (Some {| map_field := Some "dept"; map_include := None;
                map_includeContains := Some ["HEAL"] |})
     = Ok {| groups := [SStr "Health"];
             series := [SStr "202301"];
             data := [(SStr "Health", [(SStr "202301", NFloat float_150)])] |}.
Proof.
  assert (Hcsv : Forall csv_row scenario_rows).
  { repeat constructor. }
  split; [reflexivity|]. split; [exact Hcsv|].
  change (Some {| map_field := Some "dept"; map_include := None;
                  map_includeContains := Some ["HEAL"] |})
    with (option_map mapping_of_filter (filterSpec dept_contains_config)).
  rewrite <- (aggregators_agree_on_csv no_float_repr insertion_order
                scenario_rows dept_contains_config eq_refl Hcsv).
  reflexivity.
Defined.

Lemma update_data_to_number (float_repr : float -> string) (v : scalar) :
  UpdateData.to_number float_repr v = BuildDashboards.to_number float_repr v.
Proof. reflexivity. Qed.

Lemma update_data_sort_groups (set_iter : list scalar -> list scalar)
  (gs : list scalar) :
  UpdateData.sort_groups set_iter gs = BuildDashboards.sort_groups set_iter gs.
Proof. reflexivity. Qed.

Lemma mapping_is_mapping_of_filter (m : mapping_config) :
  m = mapping_of_filter {| flt_field := map_field m;
                           flt_include := map_include m;
                           flt_contains := map_includeContains m |}.
Proof. now destruct m. Qed.

Lemma update_data_loop_body_csv (float_repr : float -> string) (cfg : config)
  (mapping : option mapping_config) (st : agg_state) (r : row) :
  csv_row r -> Forall is_str (groups_set st) ->
  exists st',
    UpdateData.loop_body float_repr cfg mapping st r = Ok st'
    /\ Forall is_str (groups_set st').
Proof.
  intros Hr Hs. unfold UpdateData.loop_body.
  assert (Hm : exists b, UpdateData.row_matches_mapping r mapping = Ok b).
  { destruct mapping as [m|]; [|now exists true].
    rewrite (mapping_is_mapping_of_filter m).
    rewrite (row_matches_mapping_of_filter float_repr r _
               (filter_value_csv r _ Hr)).
    now eexists. }
  destruct Hm as [b ->]. cbn [bind].
  destruct (negb b); [now exists st|].
  rewrite update_data_to_number.
  destruct (to_number_csv float_repr r (valueField cfg) Hr) as [v ->].
  cbn [bind].
  set (g := if extractYear cfg
            then SStr (UpdateData.extract_year float_repr
                         (row_get r (groupBy cfg) (SStr "")))
            else row_get r (groupBy cfg) (SStr "")).
  destruct (truthy g) eqn:Et; cbn [negb]; [|now exists st].
  eexists. split; [reflexivity|].
  cbn [UpdateData.record_value groups_set].
  apply set_add_forall; [exact Hs|].
  subst g. destruct (extractYear cfg); [exact I|].
  apply truthy_no_number_is_str; [|exact Et].
  destruct (row_get_csv r (groupBy cfg) (SStr "") Hr) as [-> | Hn];
    [exact I|exact Hn].
Qed.

Lemma update_data_for_rows_csv (float_repr : float -> string) (cfg : config)
  (mapping : option mapping_config) (rows : list row) :
  Forall csv_row rows ->
  forall st,
    Forall is_str (groups_set st) ->
    exists st',
      UpdateData.for_rows float_repr cfg mapping st rows = Ok st'
      /\ Forall is_str (groups_set st').
Proof.
  induction 1 as [|r rows Hr Hrows IH]; intros st Hs;
    cbn [UpdateData.for_rows]; [now exists st|].
  destruct (update_data_loop_body_csv float_repr cfg mapping st r Hr Hs)
    as (st1 & -> & Hs1).
  cbn [bind]. exact (IH st1 Hs1).
Qed.

(** X19. On records read from CSV (every value a string, or [None]) neither
    aggregator raises, for any configuration and any mapping: the group
    keys are strings, which always sort, and no value is out of the range
    of [float].  (Mixed group keys, as in C7, need a number among the
    values.) *)
Theorem csv_records_never_raise :
  forall (float_repr : float -> string)
         (set_iter : list scalar -> list scalar)
         (rows : list row) (cfg : config),
    set_iter_ok set_iter ->
    Forall csv_row rows ->
    (exists r,
       BuildDashboards.aggregate_data float_repr set_iter rows cfg = Ok r)
    /\ (forall mapping,
          exists r,
            UpdateData.aggregate_data float_repr set_iter rows cfg mapping
            = Ok r).
Proof.
  intros float_repr set_iter rows cfg Hsi Hrows. split.
  - exact (aggregate_data_returns_on_csv float_repr set_iter rows cfg
             Hsi Hrows).
  - intros mapping. unfold UpdateData.aggregate_data.
    destruct (update_data_for_rows_csv float_repr cfg mapping rows Hrows
                init_state) as (st & -> & Hs); [constructor|].
    cbn [bind]. rewrite update_data_sort_groups.
    destruct (sort_groups_strings set_iter (groups_set st) Hsi Hs) as [gs ->].
    cbn [bind]. now eexists.
Qed.

Lemma csv_records_never_raise_witness :
  set_iter_ok insertion_order
  /\ Forall csv_row scenario_rows
  /\ exists r,
       BuildDashboards.aggregate_data no_float_repr insertion_order
         scenario_rows scenario_config = Ok r.
Proof.
  assert (Hcsv : Forall csv_row scenario_rows).
  { repeat constructor. }
  split; [exact insertion_order_ok|]. split; [exact Hcsv|].
  exact (proj1 (csv_records_never_raise no_float_repr insertion_order
                  scenario_rows scenario_config insertion_order_ok Hcsv)).
Defined.

(** ** The per-group policy serves every group *)

Lemma dict_get_in_some {V : Type} (d : dict V) (k y : scalar) (v : V) :
  In (k, v) d -> key_eqb k y = true -> exists v', dict_get d y = Some v'.
Proof.
  induction d as [|[k0 v0] d IH]; intros Hin He; [destruct Hin|].
  cbn [dict_get]. destruct (key_eqb k0 y) eqn:E; [now eexists|].
  destruct Hin as [H|Hin]; [|now apply IH].
  injection H as -> ->. congruence.
Qed.

Lemma dict_get_some_in {V : Type} (d : dict V) (y : scalar) (v : V) :
  dict_get d y = Some v -> exists k, In (k, v) d.
Proof.
  induction d as [|[k0 v0] d IH]; cbn [dict_get]; [discriminate|].
  destruct (key_eqb k0 y).
  - intros H. injection H as <-. exists k0. now left.
  - intros H. destruct (IH H) as [k Hk]. exists k. now right.
Qed.

Lemma row_get_no_nan (r : row) (k : string) (dflt : scalar) :
  no_nan_row r -> py_eqb dflt dflt = true ->
  py_eqb (row_get r k dflt) (row_get r k dflt) = true.
Proof.
  intros Hr Hd. induction Hr as [|[k' v] r Hv Hr IH]; cbn [row_get];
    [exact Hd|].
  destruct (String.eqb k' k); [exact Hv|exact IH].
Qed.

Lemma series_origin_no_nan (float_repr : float -> string) (cfg : config)
  (rows : list row) (s : scalar) :
  Forall no_nan_row rows -> series_origin float_repr cfg rows s ->
  py_eqb s s = true.
Proof.
  intros Hrows (rw & g & Hin & _ & _ & <-).
  rewrite Forall_forall in Hrows. specialize (Hrows rw Hin).
  unfold BuildDashboards.series_value_of.
  destruct (negb (is_empty (seriesBy cfg))); [|reflexivity].
  now apply row_get_no_nan.
Qed.

Lemma group_origin_no_nan (float_repr : float -> string) (cfg : config)
  (rows : list row) (g : scalar) :
  Forall no_nan_row rows -> group_origin float_repr cfg rows g ->
  py_eqb g g = true.
Proof.
  intros Hrows (rw & Hin & Hg & _).
  rewrite Forall_forall in Hrows. specialize (Hrows rw Hin).
  unfold resulting_group in Hg.
  destruct (BuildDashboards.row_matches_filter float_repr rw (filterSpec cfg));
    [|discriminate].
  destruct (extractYear cfg).
  - destruct (BuildDashboards.extract_year float_repr _) as [y|];
      cbn [option_map] in Hg; [|discriminate].
    injection Hg as <-. cbn [py_eqb]. apply String.eqb_refl.
  - injection Hg as <-. now apply row_get_no_nan.
Qed.

Lemma slice_to_nonempty {A : Type} (l : list A) (n : Z) :
  l <> [] -> 0 < n -> exists x, In x (slice_to l n).
Proof.
  intros Hl Hn. unfold slice_to.
  destruct (0 <=? n) eqn:E; [|apply Z.leb_gt in E; lia].
  destruct l as [|x l]; [congruence|].
  destruct (Z.to_nat n) as [|k] eqn:Ek; [lia|].
  exists x. now left.
Qed.

Lemma ranked_nonempty (n : Z) (gm : dict float) :
  gm <> [] -> 0 < n -> exists x, In x (BuildDashboards.ranked n gm).
Proof.
  intros Hgm Hn. unfold BuildDashboards.ranked, sorted_key.
  apply slice_to_nonempty; [|exact Hn].
  intros E. apply Hgm.
  pose proof (sort_by_length
                (fun a b : scalar * float =>
                   float_ltb (fneg (snd a)) (fneg (snd b))) gm) as Hlen.
  rewrite E in Hlen. now destruct gm.
Qed.

Lemma fold_set_add_incl {B : Type} (xs : list (scalar * B))
  (top : list scalar) (y : scalar) :
  In y top -> In y (fold_left (fun ts x => set_add ts (fst x)) xs top).
Proof.
  revert top. induction xs as [|x xs IH]; intros top H; cbn [fold_left];
    [exact H|].
  apply IH. now apply set_add_incl.
Qed.

Lemma fold_set_add_has {B : Type} (xs : list (scalar * B))
  (top : list scalar) (x : scalar * B) :
  In x xs ->
  exists y,
    In y (fold_left (fun ts x => set_add ts (fst x)) xs top)
    /\ (y = fst x \/ py_eqb y (fst x) = true).
Proof.
  revert top. induction xs as [|x0 xs IH]; intros top Hin; [destruct Hin|].
  cbn [fold_left]. destruct Hin as [->|Hin]; [|now apply IH].
  destruct (set_add_has top (fst x)) as (y & Hy & He).
  exists y. split; [|exact He]. now apply fold_set_add_incl.
Qed.

Lemma top_series_of_has (n : Z) (tot : dict (dict float)) (g : scalar)
  (gm : dict float) (x : scalar * float) :
  In (g, gm) tot -> In x (BuildDashboards.ranked n gm) ->
  exists y,
    In y (BuildDashboards.top_series_of n tot)
    /\ (y = fst x \/ py_eqb y (fst x) = true).
Proof.
  unfold BuildDashboards.top_series_of. intros Hin Hx.
  set (step := fun (top_series : list scalar) (group_map : dict float) =>
                 fold_left (fun ts x => set_add ts (fst x))
                   (BuildDashboards.ranked n group_map) top_series).
  assert (Hincl : forall gms top y,
             In y top -> In y (fold_left step gms top)).
  { induction gms as [|gm0 gms IH]; intros top y Hy; cbn [fold_left];
      [exact Hy|].
    apply IH. unfold step. now apply fold_set_add_incl. }
  assert (H : forall top,
             exists y,
               In y (fold_left step (map snd tot) top)
               /\ (y = fst x \/ py_eqb y (fst x) = true)).
  { induction tot as [|[g0 gm0] tot IH]; intros top; [destruct Hin|].
    cbn [map snd fold_left]. destruct Hin as [E|Hin]; [|now apply IH].
    injection E as -> ->.
    destruct (fold_set_add_has (BuildDashboards.ranked n gm) top x Hx)
      as (y & Hy & He).
    exists y. split; [|exact He]. now apply Hincl. }
  apply H.
Qed.

(** X20. Under the per-group policy with a positive [maxSeries], every group
    of the result has a recorded value: among the series of its entry at
    least one holds a float summed from rows of that group, not the
    integer 0 that stands for "no row" (the rows holding no NaN). *)
Theorem per_group_policy_serves_every_group :
  forall (float_repr : float -> string)
         (set_iter : list scalar -> list scalar)
         (rows : list row) (cfg : config) (r : aggregated),
    set_iter_ok set_iter ->
    Forall no_nan_row rows ->
    topSeriesPerGroup cfg = true ->
    0 < maxSeries cfg ->
    BuildDashboards.aggregate_data float_repr set_iter rows cfg = Ok r ->
    Forall (fun d => exists s v, In (s, NFloat v) (snd d)) (data r).
Proof.
  intros float_repr set_iter rows cfg r Hsi Hrows Hpol Hmax H.
  destruct (aggregate_data_keys_inv _ _ _ _ _ H)
    as (st & Hl & Hinv & Hg & Hs & Hd).
  destruct Hinv as (Hk & _ & _ & _ & Hgo & _ & Hinner).
  rewrite Hd. unfold BuildDashboards.build_data.
  apply Forall_forall. intros d Hin. apply in_map_iff in Hin.
  destruct Hin as (g & <- & Hgin). cbn [snd].
  apply (Permutation_in g (sort_groups_perm _ _ _ Hsi Hg)) in Hgin.
  (* the entry of [totals] that [totals[g]] reads *)
  assert (Hgg : py_eqb g g = true).
  { rewrite Forall_forall in Hgo.
    exact (group_origin_no_nan float_repr cfg rows g Hrows (Hgo g Hgin)). }
  rewrite <- Hk in Hgin. apply in_map_iff in Hgin.
  destruct Hgin as ([g0 gm0] & E & Hin0). cbn [fst] in E. subst g0.
  destruct (dict_get_in_some (totals st) g g gm0 Hin0
              (py_eqb_key_eqb _ _ Hgg)) as [gm Hget].
  destruct (dict_get_some_in (totals st) g gm Hget) as [k Hkin].
  unfold dict_item. rewrite Hget.
  rewrite Forall_forall in Hinner.
  destruct (Hinner (k, gm) Hkin) as [Hne Hkeys]. cbn [snd] in Hne, Hkeys.
  (* its best series is in the series list *)
  destruct (ranked_nonempty (maxSeries cfg) gm Hne Hmax) as [x Hx].
  destruct (top_series_of_has (maxSeries cfg) (totals st) k gm x Hkin Hx)
    as (y & Hy & He).
  assert (Hxin : In x gm) by exact (ranked_incl _ _ _ Hx).
  assert (Hxx : py_eqb (fst x) (fst x) = true).
  { rewrite Forall_forall in Hkeys.
    exact (series_origin_no_nan float_repr cfg rows _ Hrows (Hkeys x Hxin)). }
  assert (Hxy : py_eqb (fst x) y = true).
  { destruct He as [->|He]; [exact Hxx|now apply py_eqb_sym]. }
  destruct x as [kx vx]. cbn [fst] in *.
  destruct (dict_get_in_some gm kx y vx Hxin (py_eqb_key_eqb _ _ Hxy))
    as [v Hv].
  exists y, v. apply in_map_iff. exists y. rewrite Hv. split; [reflexivity|].
  rewrite Hs. unfold BuildDashboards.select_series.
  assert (Hb : topSeriesPerGroup cfg && negb (maxSeries cfg =? 0) = true).
  { rewrite Hpol. cbn [andb]. apply negb_true_iff. apply Z.eqb_neq. lia. }
  rewrite Hb. unfold sorted_key.
  apply (Permutation_in y (Permutation_sym (sort_by_perm _ _))).
  exact (Permutation_in y (Permutation_sym (Hsi _)) Hy).
Qed.

Lemma per_group_policy_serves_every_group_witness :
  set_iter_ok insertion_order
  /\ Forall no_nan_row two_group_rows
  /\ topSeriesPerGroup (gsv_config 1 true) = true
  /\ 0 < maxSeries (gsv_config 1 true)
  /\ BuildDashboards.aggregate_data no_float_repr insertion_order
       two_group_rows (gsv_config 1 true) = Ok two_group_top1_result
  /\ Forall (fun d => exists s v, In (s, NFloat v) (snd d))
       (data two_group_top1_result).
Proof.
  assert (Hrows : Forall no_nan_row two_group_rows).
  { repeat constructor. }
  assert (Hmax : 0 < maxSeries (gsv_config 1 true)) by reflexivity.
  split; [exact insertion_order_ok|]. split; [exact Hrows|].
  split; [reflexivity|]. split; [exact Hmax|]. split; [reflexivity|].
  exact (per_group_policy_serves_every_group no_float_repr insertion_order
           two_group_rows (gsv_config 1 true) two_group_top1_result
           insertion_order_ok Hrows eq_refl Hmax eq_refl).
Defined.
